(** * sqlalchemy_celery_beat: a database-backed Celery beat scheduler

    A shallow embedding of the scheduling core of the package
    ([utils.py], [models/celery_tasks_schedule.py],
    [models/celery_tasks_schedule_meta.py], [db.py] and [scheduler.py]) and
    the properties of it that the specification states.

    Conventions.
    - A Python [str] is a [string], one [ascii] per character: the texts of
      the model are the texts over the first 256 code points. A
      timezone-aware [datetime] is the number of microseconds since the
      epoch, in [Z] (the resolution of [datetime]).
    - A Python value that travels through [json.loads], [str()] and the
      f-strings of the package is a [PyVal].
    - Code that can raise returns a [Result]; [Raise e] is the exception
      leaving the function.
    - The libraries the package calls ([json.loads], celery's [crontab]) are
      parameters of the development: every theorem holds whatever they
      return. *)

From Stdlib Require Import ZArith QArith String Ascii List Lia DecimalString.
From stdpp Require Import base option list gmap strings.
Import ListNotations.

Set Warnings "-register-all".
Local Open Scope Z_scope.
Local Open Scope string_scope.

(** ** Python exceptions and results *)

Module Py.

Inductive ExcType :=
| RuntimeError
| TypeError
| AttributeError
| ValueError
| JSONDecodeError      (* json.JSONDecodeError, a ValueError *)
| ParseException       (* celery.schedules.ParseException *)
| IntegrityError       (* sqlalchemy.exc.IntegrityError, a DatabaseError *)
| OperationalError     (* sqlalchemy.exc.OperationalError, a DatabaseError *)
| DatabaseError        (* sqlalchemy.exc.DatabaseError *)
| StaleDataError       (* sqlalchemy.orm.exc.StaleDataError *)
| OtherException.      (* any other subclass of Exception *)

Record Exc := mkExc { exc_type : ExcType; exc_msg : string }.

(** [isinstance(e, sqlalchemy.exc.DatabaseError)]. *)
Definition is_DatabaseError (e : Exc) : bool :=
  match exc_type e with
  | IntegrityError | OperationalError | DatabaseError => true
  | _ => false
  end.

(** [isinstance(e, json.JSONDecodeError)]. *)
Definition is_JSONDecodeError (e : Exc) : bool :=
  match exc_type e with JSONDecodeError => true | _ => false end.

(** [isinstance(e, AttributeError)]. *)
Definition is_AttributeError (e : Exc) : bool :=
  match exc_type e with AttributeError => true | _ => false end.

Inductive Result (A : Type) :=
| Ok (a : A)
| Raise (e : Exc).
Arguments Ok {A} a.
Arguments Raise {A} e.

#[export] Instance Result_ret : MRet Result := fun _ a => Ok a.
#[export] Instance Result_bind : MBind Result := fun _ _ f m =>
  match m with Ok a => f a | Raise e => Raise e end.

Definition is_Ok {A} (r : Result A) : bool :=
  match r with Ok _ => true | Raise _ => false end.

(** ** Python values *)

Inductive PyVal :=
| PyNone
| PyBool (b : bool)
| PyInt (z : Z)
| PyFloat (shortest_repr : string)   (* a float, carried by its [repr] *)
| PyStr (s : string)
| PyList (l : list PyVal)
| PyDict (items : list (string * PyVal)).  (* items in insertion order *)

Definition dquote : ascii := ascii_of_nat 34.
Definition squote : ascii := ascii_of_nat 39.
Definition backslash : ascii := ascii_of_nat 92.

Fixpoint contains (c : ascii) (s : string) : bool :=
  match s with
  | EmptyString => false
  | String a s' => if Ascii.eqb a c then true else contains c s'
  end.

Definition hex_digit (n : nat) : ascii :=
  ascii_of_nat (if Nat.ltb n 10 then 48 + n else 87 + n).

(** One character of [repr(str)], [q] being the quote in use; the
    characters that are not printable come out as [\xhh]. *)
Definition repr_char (q c : ascii) : string :=
  let n := nat_of_ascii c in
  if Ascii.eqb c backslash then String backslash (String backslash EmptyString)
  else if Ascii.eqb c q then String backslash (String q EmptyString)
  else if Nat.eqb n 10 then String backslash "n"
  else if Nat.eqb n 13 then String backslash "r"
  else if Nat.eqb n 9 then String backslash "t"
  else if Nat.ltb n 32 || (Nat.leb 127 n && Nat.leb n 160) || Nat.eqb n 173 then
    String backslash (String "x" (String (hex_digit (Nat.div n 16))
                                   (String (hex_digit (Nat.modulo n 16)) EmptyString)))
  else String c EmptyString.

Fixpoint repr_chars (q : ascii) (s : string) : string :=
  match s with
  | EmptyString => EmptyString
  | String c s' => repr_char q c ++ repr_chars q s'
  end.

(** [repr] of a [str]: single quotes, unless the text holds a single quote
    and no double quote. *)
Definition repr_str (s : string) : string :=
  let q := if contains squote s && negb (contains dquote s) then dquote else squote in
  String q (repr_chars q s ++ String q EmptyString).

Definition str_of_Z (z : Z) : string := NilZero.string_of_int (Z.to_int z).

Fixpoint py_repr (v : PyVal) : string :=
  match v with
  | PyNone => "None"
  | PyBool true => "True"
  | PyBool false => "False"
  | PyInt z => str_of_Z z
  | PyFloat r => r
  | PyStr s => repr_str s
  | PyList l => "[" ++ String.concat ", " (List.map py_repr l) ++ "]"
  | PyDict items =>
      "{" ++ String.concat ", "
               (List.map (fun kv => repr_str (fst kv) ++ ": " ++ py_repr (snd kv)) items)
          ++ "}"
  end.

(** [str(v)], which is also what an f-string field [{v}] renders. *)
Definition py_str (v : PyVal) : string :=
  match v with
  | PyStr s => s
  | _ => py_repr v
  end.

Definition type_name (v : PyVal) : string :=
  match v with
  | PyNone => "NoneType"
  | PyBool _ => "bool"
  | PyInt _ => "int"
  | PyFloat _ => "float"
  | PyStr _ => "str"
  | PyList _ => "list"
  | PyDict _ => "dict"
  end.

(** Truth value of [v], as [v or default] tests it. A float is carried by
    its text: zero prints as [0.0] or [-0.0]. *)
Definition truthy (v : PyVal) : bool :=
  match v with
  | PyNone => false
  | PyBool b => b
  | PyInt z => negb (Z.eqb z 0)
  | PyFloat r => negb (String.eqb r "0.0" || String.eqb r "-0.0")
  | PyStr s => negb (String.eqb s "")
  | PyList l => match l with [] => false | _ => true end
  | PyDict d => match d with [] => false | _ => true end
  end.

Fixpoint chars (s : string) : list PyVal :=
  match s with
  | EmptyString => []
  | String c s' => PyStr (String c EmptyString) :: chars s'
  end.

(** [iter(v)]: the elements of a list, the characters of a string, the
    keys of a dict; anything else is not iterable. *)
Definition py_iter (v : PyVal) : Result (list PyVal) :=
  match v with
  | PyList l => Ok l
  | PyStr s => Ok (chars s)
  | PyDict d => Ok (List.map (fun kv => PyStr (fst kv)) d)
  | _ => Raise (mkExc TypeError ("'" ++ type_name v ++ "' object is not iterable"))
  end.

(** [v.items()]. *)
Definition py_items (v : PyVal) : Result (list (string * PyVal)) :=
  match v with
  | PyDict d => Ok d
  | _ => Raise (mkExc AttributeError
                  ("'" ++ type_name v ++ "' object has no attribute 'items'"))
  end.

End Py.
Export Py.

(** ** [utils.py] *)

Module Utils.

(** [s.lstrip("-")]. *)
Fixpoint lstrip (c : ascii) (s : string) : string :=
  match s with
  | EmptyString => EmptyString
  | String a s' => if Ascii.eqb a c then lstrip c s' else s
  end.

(** [s.rstrip("-")]: the empty text when nothing but [c] is left. *)
Fixpoint rstrip (c : ascii) (s : string) : string :=
  match s with
  | EmptyString => EmptyString
  | String a s' =>
      match rstrip c s' with
      | EmptyString => if Ascii.eqb a c then EmptyString else String a EmptyString
      | r => String a r
      end
  end.

(** [s.strip("-")]. *)
Definition strip (c : ascii) (s : string) : string := rstrip c (lstrip c s).

(** The character class of the pattern [[\[\](){}, '\dq]] of [get_task_key]. *)
Definition stripped_class : list ascii :=
  [ "["%char; "]"%char; "("%char; ")"%char; "{"%char; "}"%char;
    ","%char; " "%char; squote; dquote ].

Definition in_class (cls : list ascii) (c : ascii) : bool :=
  existsb (Ascii.eqb c) cls.

(** [re.sub("[...]", "", s)] for a character class: every character of the
    class is deleted. *)
Fixpoint re_sub_class (cls : list ascii) (s : string) : string :=
  match s with
  | EmptyString => EmptyString
  | String a s' =>
      if in_class cls a then re_sub_class cls s' else String a (re_sub_class cls s')
  end.

(** [f"{k}-{v}"] for one item of [kwargs]. *)
Definition kwarg_text (kv : string * PyVal) : string :=
  fst kv ++ "-" ++ py_str (snd kv).

(** [get_task_key(name, args, kwargs)]. [map(str, args)] iterates [args]
    and [kwargs.items()] needs a dict, whatever [json.loads] produced. *)
Definition get_task_key (name : string) (args kwargs : PyVal) : Result string :=
  elems ← py_iter args;
  let args := String.concat "-" (List.map py_str elems) in
  items ← py_items kwargs;
  let kwargs := String.concat "-" (List.map kwarg_text items) in
  mret (re_sub_class stripped_class (strip "-" (name ++ "-" ++ args ++ "-" ++ kwargs))).

(** [get_task_category(task_module)] is not used by the scheduling core. *)

End Utils.
Export Utils.

(** ** The libraries and the application around the package *)

(** A registered celery task. [__header__] checks a call's arguments against
    the task's signature and raises [TypeError] on a mismatch; a task object
    may lack it. *)
Record Task := { header : option (list PyVal -> list (string * PyVal) -> Result unit) }.

(** What the package imports and does not define: [json.loads] and celery's
    [crontab] constructor, called with the keywords [minute], [hour],
    [day_of_week], [day_of_month], [month_of_year], in that order. *)
Class Libraries := {
  json_loads : string -> Result PyVal;
  Crontab : Type;
  crontab : string -> string -> string -> string -> string -> Result Crontab;
}.

(** ** [schemas/db/celery_tasks_schedule.py] *)

Module CeleryTasksScheduleDbSchema.
Record t := mk {
  task_key : string;
  task : string;
  args : string;
  kwargs : string;
  schedule : string;
  enabled : bool;
  comment : option string;
}.
End CeleryTasksScheduleDbSchema.

(** ** [db.py]: the database and its transactions *)

Module Db.

(** A row of [celery_tasks_schedule]. The timestamps [created_at] and
    [updated_at], which the server fills in and nothing reads, are left
    out. *)
Record ScheduleRow := mkRow {
  id : Z;
  task : string;
  args : string;
  kwargs : string;
  schedule : string;
  enabled : bool;
  comment : option string;
  task_key : string;
}.

(** The three tables. [celery_tasks] is held by its primary key [task];
    [celery_tasks_schedule_meta] by the [last_updated_at] of its row
    [id = 1], the only row the package reads or writes. *)
Record Store := mkStore {
  celery_tasks : list string;
  celery_tasks_schedule : list ScheduleRow;
  celery_tasks_schedule_id_seq : Z;
  celery_tasks_schedule_meta : option Z;
}.

(** [with db_sessionmaker() as session, session.begin(): body]. The session
    is bound to a connection of its own ([engine.connect()], [NullPool]);
    the block commits when [body] returns and rolls back when it raises. *)
Definition transaction {A} (body : Store -> Result (A * Store)) (db : Store)
  : Result A * Store :=
  match body db with
  | Ok (a, db') => (Ok a, db')
  | Raise e => (Raise e, db)
  end.

Definition keys (rows : list ScheduleRow) : list string := List.map task_key rows.

(** INSERT of one row: the [unique] constraint of [task_key], the foreign
    key of [task] into [celery_tasks], the primary key from the sequence. *)
Definition insert_row (d : CeleryTasksScheduleDbSchema.t) (st : Store) : Result Store :=
  if bool_decide (CeleryTasksScheduleDbSchema.task_key d ∈ keys (celery_tasks_schedule st))
  then Raise (mkExc IntegrityError "duplicate key value violates unique constraint")
  else if bool_decide (CeleryTasksScheduleDbSchema.task d ∈ celery_tasks st)
  then Ok {| celery_tasks := celery_tasks st;
             celery_tasks_schedule :=
               celery_tasks_schedule st ++
               [ {| id := celery_tasks_schedule_id_seq st;
                    task := CeleryTasksScheduleDbSchema.task d;
                    args := CeleryTasksScheduleDbSchema.args d;
                    kwargs := CeleryTasksScheduleDbSchema.kwargs d;
                    schedule := CeleryTasksScheduleDbSchema.schedule d;
                    enabled := CeleryTasksScheduleDbSchema.enabled d;
                    comment := CeleryTasksScheduleDbSchema.comment d;
                    task_key := CeleryTasksScheduleDbSchema.task_key d |} ];
             celery_tasks_schedule_id_seq := celery_tasks_schedule_id_seq st + 1;
             celery_tasks_schedule_meta := celery_tasks_schedule_meta st |}
  else Raise (mkExc IntegrityError "insert violates foreign key constraint").

(** [session.execute(insert(...), [d1, ..., dn])]: the rows one after the
    other, the first violation failing the statement. *)
Fixpoint insert_rows (data : list CeleryTasksScheduleDbSchema.t) (st : Store) : Result Store :=
  match data with
  | [] => Ok st
  | d :: data' => st' ← insert_row d st; insert_rows data' st'
  end.

(** UPDATE of the row with the primary key of [r]. *)
Definition update_row (r : ScheduleRow) (st : Store) : Result Store :=
  if bool_decide (id r ∈ List.map id (celery_tasks_schedule st)) then
    if bool_decide (task_key r ∈
                      keys (filter (λ x, id x ≠ id r) (celery_tasks_schedule st)))
    then Raise (mkExc IntegrityError "duplicate key value violates unique constraint")
    else if bool_decide (task r ∈ celery_tasks st)
    then Ok {| celery_tasks := celery_tasks st;
               celery_tasks_schedule :=
                 List.map (fun x => if bool_decide (id x = id r) then r else x)
                          (celery_tasks_schedule st);
               celery_tasks_schedule_id_seq := celery_tasks_schedule_id_seq st;
               celery_tasks_schedule_meta := celery_tasks_schedule_meta st |}
    else Raise (mkExc IntegrityError "update violates foreign key constraint")
  else Raise (mkExc StaleDataError "UPDATE statement expected to update 1 row(s); 0 were matched").

(** DELETE of the rows that satisfy [p]. *)
Definition delete_rows (p : ScheduleRow -> bool) (st : Store) : Store :=
  {| celery_tasks := celery_tasks st;
     celery_tasks_schedule := List.filter (fun x => negb (p x)) (celery_tasks_schedule st);
     celery_tasks_schedule_id_seq := celery_tasks_schedule_id_seq st;
     celery_tasks_schedule_meta := celery_tasks_schedule_meta st |}.

End Db.
Export Db.

(** ** [models/celery_tasks_schedule_meta.py] *)

Module CeleryTasksScheduleMetaModel.

(** [init_last_updated_at()]: the row [id = 1] is created unless it exists. *)
Definition init_last_updated_at (now : Z) (db : Store) : Result unit * Store :=
  transaction (fun st =>
    match celery_tasks_schedule_meta st with
    | Some _ => Ok (tt, st)
    | None =>
        Ok (tt, {| celery_tasks := celery_tasks st;
                   celery_tasks_schedule := celery_tasks_schedule st;
                   celery_tasks_schedule_id_seq := celery_tasks_schedule_id_seq st;
                   celery_tasks_schedule_meta := Some now |})
    end) db.

(** [update_last_updated_at()]: an UPDATE [where id == 1] in a session and
    a transaction of its own; without that row it changes nothing. *)
Definition update_last_updated_at (now : Z) (db : Store) : Result unit * Store :=
  transaction (fun st =>
    Ok (tt, {| celery_tasks := celery_tasks st;
               celery_tasks_schedule := celery_tasks_schedule st;
               celery_tasks_schedule_id_seq := celery_tasks_schedule_id_seq st;
               celery_tasks_schedule_meta :=
                 match celery_tasks_schedule_meta st with
                 | Some _ => Some now
                 | None => None
                 end |})) db.

(** [get_last_updated_at()]: [None] when the row [id = 1] is missing. *)
Definition get_last_updated_at (db : Store) : Result (option Z) * Store :=
  transaction (fun st => Ok (celery_tasks_schedule_meta st, st)) db.

End CeleryTasksScheduleMetaModel.

(** ** [models/celery_tasks_schedule.py] *)

Module CeleryTasksScheduleModel.

(** [bulk_insert(data)]. The statement is a Core [insert()] run by
    [session.execute]: no mapper listener of this module runs for it. *)
Definition bulk_insert (data : list CeleryTasksScheduleDbSchema.t) (db : Store)
  : Result unit * Store :=
  transaction (fun st =>
    let existing_entries : gset string := list_to_set (keys (celery_tasks_schedule st)) in
    let entries_to_insert : gset string :=
      list_to_set (List.map CeleryTasksScheduleDbSchema.task_key data) in
    let missing_entries := entries_to_insert ∖ existing_entries in
    if bool_decide (missing_entries ≠ ∅) then
      st' ← insert_rows
              (filter (λ d, CeleryTasksScheduleDbSchema.task_key d ∈ missing_entries) data)
              st;
      mret (tt, st')
    else mret (tt, st)) db.

(** [select_all_tasks()]. *)
Definition select_all_tasks (db : Store) : Result (list string) * Store :=
  transaction (fun st => Ok (List.map Db.task (celery_tasks_schedule st), st)) db.

(** [select_enabled_entries()]. *)
Definition select_enabled_entries (db : Store) : Result (list ScheduleRow) * Store :=
  transaction (fun st => Ok (List.filter Db.enabled (celery_tasks_schedule st), st)) db.

(** [delete(tasks)], a Core [delete()] as well. *)
Definition delete (tasks : list string) (db : Store) : Result unit * Store :=
  transaction (fun st =>
    Ok (tt, delete_rows (fun x => bool_decide (Db.task x ∈ tasks)) st)) db.

(** [text.split()] splits on runs of whitespace, the characters for which
    [str.isspace] holds. *)
Definition is_space (c : ascii) : bool :=
  let n := nat_of_ascii c in
  (Nat.leb 9 n && Nat.leb n 13) || (Nat.leb 28 n && Nat.leb n 32)
  || Nat.eqb n 133 || Nat.eqb n 160.

Fixpoint split_from (cur : string) (s : string) : list string :=
  match s with
  | EmptyString => if String.eqb cur "" then [] else [cur]
  | String c s' =>
      if is_space c
      then (if String.eqb cur "" then split_from "" s' else cur :: split_from "" s')
      else split_from (cur ++ String c EmptyString) s'
  end.

Definition split (s : string) : list string := split_from "" s.

(** [minute, hour, day_of_month, month_of_year, day_of_week = fields]
    followed by the call of [crontab] with these five keywords. *)
Definition parse_schedule `{Libraries} (text : string) : Result Crontab :=
  match split text with
  | [minute; hour; day_of_month; month_of_year; day_of_week] =>
      crontab minute hour day_of_week day_of_month month_of_year
  | fields =>
      Raise (mkExc ValueError
               (if Nat.ltb (length fields) 5
                then "not enough values to unpack (expected 5, got "
                     ++ str_of_Z (Z.of_nat (length fields)) ++ ")"
                else "too many values to unpack (expected 5)"))
  end.

(** The positional arguments of a call that unpacks [args or ()] with a
    star. *)
Definition star_args (args : PyVal) : Result (list PyVal) :=
  if truthy args then
    match py_iter args with
    | Ok l => Ok l
    | Raise _ => Raise (mkExc TypeError
                          ("argument after * must be an iterable, not " ++ type_name args))
    end
  else Ok [].

(** The keyword arguments of a call that unpacks [kwargs or {}] with a
    double star. *)
Definition star_kwargs (kwargs : PyVal) : Result (list (string * PyVal)) :=
  if truthy kwargs then
    match kwargs with
    | PyDict d => Ok d
    | _ => Raise (mkExc TypeError
                    ("argument after ** must be a mapping, not " ++ type_name kwargs))
    end
  else Ok [].

Section Validator.
Context `{Libraries}.
Variable tasks : gmap string Task.   (* celery_app.tasks *)

(** [before_validator(mapper, connection, target)]: raises, or leaves
    [target] with its [task_key] recomputed. *)
Definition before_validator (target : ScheduleRow) : Result ScheduleRow :=
  match tasks !! Db.task target with
  | None =>
      Raise (mkExc RuntimeError ("Task '" ++ Db.task target ++ "' does not exist"))
  | Some task =>
      args ← match json_loads (Db.args target) with
             | Ok v => Ok v
             | Raise e =>
                 if is_JSONDecodeError e
                 then Raise (mkExc RuntimeError
                        ("Invalid format for task positional arguments: " ++ exc_msg e))
                 else Raise e
             end;
      kwargs ← match json_loads (Db.kwargs target) with
               | Ok v => Ok v
               | Raise e =>
                   if is_JSONDecodeError e
                   then Raise (mkExc RuntimeError
                          ("Invalid format for task keyword arguments: " ++ exc_msg e))
                   else Raise e
               end;
      _ ← match header task with
          | None => Ok tt   (* AttributeError: logged with [debug], no check *)
          | Some check_arguments =>
              a ← star_args args;
              k ← star_kwargs kwargs;
              check_arguments a k
          end;
      _ ← match parse_schedule (Db.schedule target) with
          | Ok _ => Ok tt
          | Raise e => Raise (mkExc RuntimeError ("Invalid schedule: " ++ exc_msg e))
          end;
      key ← get_task_key (Db.task target) args kwargs;
      mret {| id := id target;
              task := Db.task target;
              args := Db.args target;
              kwargs := Db.kwargs target;
              schedule := Db.schedule target;
              enabled := Db.enabled target;
              comment := Db.comment target;
              task_key := key |}
  end.

(** The listeners registered with [@event.listens_for]. *)
Definition before_insert_handler (target : ScheduleRow) : Result ScheduleRow :=
  before_validator target.

Definition before_update_handler (target : ScheduleRow) : Result ScheduleRow :=
  before_validator target.

End Validator.

Definition after_insert_handler (now : Z) (db : Store) : Result unit * Store :=
  CeleryTasksScheduleMetaModel.update_last_updated_at now db.

Definition after_update_handler (now : Z) (db : Store) : Result unit * Store :=
  CeleryTasksScheduleMetaModel.update_last_updated_at now db.

Definition after_delete_handler (now : Z) (db : Store) : Result unit * Store :=
  CeleryTasksScheduleMetaModel.update_last_updated_at now db.

End CeleryTasksScheduleModel.

(** ** [admin.py]: writes through the ORM session

    [CeleryTasksScheduleAdmin] creates, edits and deletes one schedule row
    per request with the ORM session. The flush of the session runs the
    listeners of [models/celery_tasks_schedule.py] around the statement:
    [before_insert] or [before_update], the statement inside the session's
    transaction, then [after_insert], [after_update] or [after_delete].
    The [after_*] listeners open a session of their own, so what they write
    reaches the database at once, whatever the outer transaction does next. *)

Module UnitOfWork.
Import CeleryTasksScheduleModel.

Inductive Change :=
| Insert (target : ScheduleRow)
| Update (target : ScheduleRow)
| Delete (target : ScheduleRow).

(** The database as every other connection sees it, and as the open
    transaction of the session sees it. *)
Record Session := mkSession { committed : Store; in_transaction : Store }.

Definition begin (db : Store) : Session :=
  {| committed := db; in_transaction := db |}.

Definition schema_of (r : ScheduleRow) : CeleryTasksScheduleDbSchema.t :=
  {| CeleryTasksScheduleDbSchema.task_key := Db.task_key r;
     CeleryTasksScheduleDbSchema.task := Db.task r;
     CeleryTasksScheduleDbSchema.args := Db.args r;
     CeleryTasksScheduleDbSchema.kwargs := Db.kwargs r;
     CeleryTasksScheduleDbSchema.schedule := Db.schedule r;
     CeleryTasksScheduleDbSchema.enabled := Db.enabled r;
     CeleryTasksScheduleDbSchema.comment := Db.comment r |}.

Section Flush.
Context `{Libraries}.
Variable tasks : gmap string Task.

(** The three steps of a flush of one change; the statement runs only when
    the [before_*] listener returned. *)
Definition statement (ch : Change) (st : Store) : Result Store :=
  match ch with
  | Insert target =>
      target' ← before_insert_handler tasks target; insert_row (schema_of target') st
  | Update target =>
      target' ← before_update_handler tasks target; update_row target' st
  | Delete target =>
      Ok (delete_rows (fun x => bool_decide (id x = id target)) st)
  end.

Definition after_handler (ch : Change) : Z -> Store -> Result unit * Store :=
  match ch with
  | Insert _ => after_insert_handler
  | Update _ => after_update_handler
  | Delete _ => after_delete_handler
  end.

Definition flush (ch : Change) (now : Z) (s : Session) : Result unit * Session :=
  match statement ch (in_transaction s) with
  | Raise e => (Raise e, s)
  | Ok st =>
      let '(r, db) := after_handler ch now (committed s) in
      (r, {| committed := db; in_transaction := st |})
  end.

(** COMMIT publishes what the transaction wrote, the schedule table and its
    sequence; the meta table is the committed one, which the transaction
    never touched. *)
Definition commit (s : Session) : Store :=
  {| celery_tasks := celery_tasks (committed s);
     celery_tasks_schedule := celery_tasks_schedule (in_transaction s);
     celery_tasks_schedule_id_seq := celery_tasks_schedule_id_seq (in_transaction s);
     celery_tasks_schedule_meta := celery_tasks_schedule_meta (committed s) |}.

Definition rollback (s : Session) : Store := committed s.

(** One request of the admin: begin, flush, then commit, or roll back when
    the flush raised. *)
Definition write (ch : Change) (now : Z) (db : Store) : Result unit * Store :=
  let '(r, s) := flush ch now (begin db) in
  match r with
  | Ok _ => (Ok tt, commit s)
  | Raise e => (Raise e, rollback s)
  end.

End Flush.
End UnitOfWork.

(** ** [scheduler.py] *)

Module DatabaseScheduler.

Definition DEFAULT_MAX_LOOP_INTERVAL : Q := 5.      (* seconds *)
Definition MAX_SYNC_SCHEDULE_INTERVAL : Z := 5.     (* minutes *)
Definition PREPARE_MODELS_MAX_RETRIES : nat := 10.

(** [dt.timedelta(minutes=m)] in microseconds. *)
Definition minutes (m : Z) : Z := m * 60 * 1000000.

(** [now.second] of a UTC instant. *)
Definition second (now : Z) : Z := (now / 1000000) mod 60.

(** The dict handed to [_maybe_entry], and celery's [ScheduleEntry] made of
    it. Its run bookkeeping ([last_run_at], [total_run_count]) and [options]
    are left out. *)
Record EntryDict `{Libraries} := mkEntryDict {
  d_task : string;
  d_args : PyVal;
  d_kwargs : PyVal;
  d_schedule : Crontab;
}.

Record ScheduleEntry `{Libraries} := mkEntry {
  name : string;
  task : string;
  args : PyVal;
  kwargs : PyVal;
  schedule : Crontab;
}.

Section Scheduler.
Context `{Libraries}.

Record t := mk {
  max_interval : Q;
  _schedule : option (gmap string ScheduleEntry);
  _last_updated_at : option Z;
}.

(** [__init__]: the first truthy value of the keyword, the setting
    [beat_max_loop_interval] and the default. *)
Definition init (kw_max_interval conf_max_loop_interval : option Q) : t :=
  let nonzero (o : option Q) :=
    match o with
    | Some q => if Qeq_bool q 0 then None else Some q
    | None => None
    end in
  {| max_interval :=
       match nonzero kw_max_interval with
       | Some q => q
       | None =>
           match nonzero conf_max_loop_interval with
           | Some q => q
           | None => DEFAULT_MAX_LOOP_INTERVAL
           end
       end;
     _schedule := None;
     _last_updated_at := None |}.

(** celery's [Scheduler._maybe_entry] on a dict: a [ScheduleEntry] of the
    dict's fields under [name], which keeps [kwargs if kwargs else {}]. *)
Definition _maybe_entry (name : string) (entry : EntryDict) : ScheduleEntry :=
  {| name := name;
     task := d_task entry;
     args := d_args entry;
     kwargs := if truthy (d_kwargs entry) then d_kwargs entry else PyDict [];
     schedule := d_schedule entry |}.

(** [self._schedule or {}]. *)
Definition schedule_or_empty (self : t) : gmap string ScheduleEntry :=
  match _schedule self with
  | Some m => m
  | None => ∅
  end.

Definition update_from_dict (self : t) (dict_ : list (string * EntryDict)) : t :=
  {| max_interval := max_interval self;
     _schedule :=
       Some (fold_left (fun m ne => <[fst ne := _maybe_entry (fst ne) (snd ne)]> m)
                       dict_ (schedule_or_empty self));
     _last_updated_at := _last_updated_at self |}.

(** The quiet window of a minute: [0 <= second < 20 or second > 50]. *)
Definition quiet_window (s : Z) : bool :=
  ((0 <=? s)%Z && (s <? 20)%Z) || (s >? 50)%Z.

(** [_need_update()], at the instant [now] read from the clock. The change
    clock is read only when the first two tests fail; comparing a datetime
    with the [None] of a missing meta row raises [TypeError]. *)
Definition _need_update (self : t) (now : Z) (db : Store) : Result bool :=
  if (if Qlt_le_dec (max_interval self) 30 then quiet_window (second now) else false)
  then Ok false
  else
    let sync_threshold := now - minutes MAX_SYNC_SCHEDULE_INTERVAL in
    match _last_updated_at self with
    | None => Ok true
    | Some last =>
        if (last <? sync_threshold)%Z then Ok true
        else
          match fst (CeleryTasksScheduleMetaModel.get_last_updated_at db) with
          | Raise e => Raise e
          | Ok None =>
              Raise (mkExc TypeError
                "'<' not supported between instances of 'datetime.datetime' and 'NoneType'")
          | Ok (Some clock) => if (last <? clock)%Z then Ok true else Ok false
          end
    end.

(** [_model_to_entry(model)]. *)
Definition _model_to_entry (model : ScheduleRow) : Result ScheduleEntry :=
  args ← json_loads (Db.args model);
  kwargs ← json_loads (Db.kwargs model);
  schedule ← CeleryTasksScheduleModel.parse_schedule (Db.schedule model);
  let entry_dict :=
    {| d_task := Db.task model; d_args := args; d_kwargs := kwargs;
       d_schedule := schedule |} in
  mret (_maybe_entry (Db.task_key model) entry_dict).

(** The loop of [_get_enabled_tasks]: [error(str(e))] appends to the log. *)
Fixpoint for_rows (rows : list ScheduleRow) (entries : gmap string ScheduleEntry)
  (log : list string) : Result (gmap string ScheduleEntry) * list string :=
  match rows with
  | [] => (Ok entries, log)
  | row :: rows' =>
      match _model_to_entry row with
      | Ok entry => for_rows rows' (<[Db.task_key row := entry]> entries) log
      | Raise e => for_rows rows' entries (log ++ [exc_msg e])
      end
  end.

(** [_get_enabled_tasks()]: the entries, and what was logged as errors. *)
Definition _get_enabled_tasks (db : Store)
  : Result (gmap string ScheduleEntry) * list string :=
  match fst (CeleryTasksScheduleModel.select_enabled_entries db) with
  | Ok rows => for_rows rows ∅ []
  | Raise e => (Raise e, [])
  end.

(** celery's [Scheduler.install_default_entries(data)]: the entry
    [celery.backend_cleanup], when the application asks for it
    ([cleanup]) and [data] lacks it, goes through [update_from_dict]. *)
Definition install_default_entries (cleanup : option EntryDict) (self : t)
  (data : gmap string ScheduleEntry) : t :=
  update_from_dict self
    match cleanup with
    | Some e =>
        match data !! "celery.backend_cleanup" with
        | None => [("celery.backend_cleanup", e)]
        | Some _ => []
        end
    | None => []
    end.

(** [_update_schedule()], [now] being the instant read after the reload. *)
Definition _update_schedule (cleanup : option EntryDict) (self : t) (now : Z) (db : Store)
  : Result t * list string :=
  match _get_enabled_tasks db with
  | (Raise e, log) => (Raise e, log)
  | (Ok enabled_tasks, log) =>
      let self := {| max_interval := max_interval self;
                     _schedule := Some enabled_tasks;
                     _last_updated_at := Some now |} in
      (Ok (install_default_entries cleanup self (schedule_or_empty self)), log)
  end.

(** The property [schedule]: the scheduler after the access, its schedule
    being what the property returns, and what was logged. *)
Definition schedule_property (cleanup : option EntryDict) (self : t) (now now' : Z)
  (db : Store) : Result t * list string :=
  let self := {| max_interval := max_interval self;
                 _schedule := Some (schedule_or_empty self);
                 _last_updated_at := _last_updated_at self |} in
  match _need_update self now db with
  | Raise e => (Raise e, [])
  | Ok true => _update_schedule cleanup self now' db
  | Ok false => (Ok self, [])
  end.

End Scheduler.

(** [celery.utils.time.get_exponential_backoff_interval(factor, retries,
    maximum, full_jitter)], [randrange] standing for [random.randrange]. *)
Definition get_exponential_backoff_interval (factor : Z) (retries : nat) (maximum : Z)
  (full_jitter : bool) (randrange : Z -> Z) : Z :=
  let countdown := Z.min maximum (factor * 2 ^ Z.of_nat retries) in
  let countdown := if full_jitter then randrange (countdown + 1) else countdown in
  Z.max 0 countdown.

(** What [_prepare_models] did: how often [create_all] was called, and the
    milliseconds of every [time.sleep]. *)
Record Bootstrap := mkBootstrap { calls : nat; sleeps : list Z }.

(** The [while True] of [_prepare_models]. [create_all n] is what the call
    number [n] of [metadata.create_all(engine)] does, [randrange n] the
    random source at that moment; [None] is a loop still running when the
    fuel is spent. *)
Fixpoint prepare_loop (fuel : nat) (create_all : nat -> Result unit)
  (randrange : nat -> Z -> Z) (retries : nat) (log : Bootstrap)
  : option (Result unit * Bootstrap) :=
  match fuel with
  | O => None
  | S fuel' =>
      let n := calls log in
      let log' := {| calls := S n; sleeps := sleeps log |} in
      match create_all n with
      | Ok _ => Some (Ok tt, log')
      | Raise e =>
          if is_DatabaseError e then
            if Nat.ltb retries PREPARE_MODELS_MAX_RETRIES then
              let sleep_amount_ms :=
                get_exponential_backoff_interval 10 retries 1000 true (randrange n) in
              prepare_loop fuel' create_all randrange (S retries)
                {| calls := S n; sleeps := sleeps log ++ [sleep_amount_ms] |}
            else Some (Raise e, log')
          else Some (Raise e, log')
      end
  end.

(** [_prepare_models()]: the loop, then [init_last_updated_at()]. *)
Definition _prepare_models (fuel : nat) (create_all : nat -> Result unit)
  (randrange : nat -> Z -> Z) (now : Z) (db : Store)
  : option (Result unit * Store * Bootstrap) :=
  match prepare_loop fuel create_all randrange 0 {| calls := 0; sleeps := [] |} with
  | None => None
  | Some (Raise e, log) => Some (Raise e, db, log)
  | Some (Ok _, log) =>
      let '(r, db') := CeleryTasksScheduleMetaModel.init_last_updated_at now db in
      Some (r, db', log)
  end.

End DatabaseScheduler.

(** ** Notions of the specification *)

Module Spec.

(** The key format the comment of [get_task_key] names: [0-9a-zA-Z_-.]. *)
Definition key_char (c : ascii) : bool :=
  let n := nat_of_ascii c in
  (Nat.leb 48 n && Nat.leb n 57) || (Nat.leb 65 n && Nat.leb n 90)
  || (Nat.leb 97 n && Nat.leb n 122)
  || Ascii.eqb c "_" || Ascii.eqb c "-" || Ascii.eqb c ".".

Fixpoint all_chars (p : ascii -> bool) (s : string) : bool :=
  match s with
  | EmptyString => true
  | String c s' => p c && all_chars p s'
  end.

(** The canonical text of the arguments: [str] of every value, the keyword
    items in their order. *)
Definition args_text (elems : list PyVal) : list string := List.map py_str elems.

Definition kwargs_text (items : list (string * PyVal)) : list (string * string) :=
  List.map (fun kv => (fst kv, py_str (snd kv))) items.

(** The three staleness rules of the sync policy, in the words of the
    specification: never refreshed, refreshed more than the forced-resync
    threshold ago, refreshed before the change clock. *)
Definition stale (last_refreshed_at : option Z) (now clock : Z) : bool :=
  match last_refreshed_at with
  | None => true
  | Some last =>
      (now - last >? DatabaseScheduler.minutes 5)%Z || (last <? clock)%Z
  end.

(** The quiet window in the words of the specification: the second of the
    minute lies in [[0,20)] or in [(50,60)]. *)
Definition in_quiet_window (s : Z) : Prop :=
  (0 <= s < 20)%Z \/ (50 < s < 60)%Z.

Section WithLibraries.
Context `{Libraries}.

(** A row is well formed when its two JSON columns decode and its crontab
    parses. *)
Definition well_formed (row : ScheduleRow) : bool :=
  is_Ok (json_loads (Db.args row)) && is_Ok (json_loads (Db.kwargs row))
  && is_Ok (CeleryTasksScheduleModel.parse_schedule (Db.schedule row)).

(** The identity invariant of a row: its key is the key function of its
    own task, arguments and keyword arguments. *)
Definition key_invariant (row : ScheduleRow) : Prop :=
  exists args kwargs,
    json_loads (Db.args row) = Ok args /\
    json_loads (Db.kwargs row) = Ok kwargs /\
    get_task_key (Db.task row) args kwargs = Ok (Db.task_key row).

(** What a reload logs for a list of rows: the message of every row that
    [_model_to_entry] refuses, in the order of the rows. *)
Definition errors (rows : list ScheduleRow) : list string :=
  omap (fun row => match DatabaseScheduler._model_to_entry row with
                   | Ok _ => None
                   | Raise e => Some (exc_msg e)
                   end) rows.

End WithLibraries.

(** [row] with another [task_key] and another [id]. *)
Definition with_key (key : string) (row : ScheduleRow) : ScheduleRow :=
  {| id := id row; Db.task := Db.task row; Db.args := Db.args row;
     Db.kwargs := Db.kwargs row; Db.schedule := Db.schedule row;
     Db.enabled := Db.enabled row; Db.comment := Db.comment row;
     Db.task_key := key |}.

Definition with_id (i : Z) (row : ScheduleRow) : ScheduleRow :=
  {| id := i; Db.task := Db.task row; Db.args := Db.args row;
     Db.kwargs := Db.kwargs row; Db.schedule := Db.schedule row;
     Db.enabled := Db.enabled row; Db.comment := Db.comment row;
     Db.task_key := Db.task_key row |}.

(** The rows a batch becomes, numbered from the sequence value [i]. *)
Fixpoint rows_of (i : Z) (data : list CeleryTasksScheduleDbSchema.t) : list ScheduleRow :=
  match data with
  | [] => []
  | d :: data' =>
      {| id := i;
         Db.task := CeleryTasksScheduleDbSchema.task d;
         Db.args := CeleryTasksScheduleDbSchema.args d;
         Db.kwargs := CeleryTasksScheduleDbSchema.kwargs d;
         Db.schedule := CeleryTasksScheduleDbSchema.schedule d;
         Db.enabled := CeleryTasksScheduleDbSchema.enabled d;
         Db.comment := CeleryTasksScheduleDbSchema.comment d;
         Db.task_key := CeleryTasksScheduleDbSchema.task_key d |}
      :: rows_of (i + 1) data'
  end.

(** The error of the validator for a task the registry does not hold. *)
Definition unknown_task (target : ScheduleRow) : Exc :=
  mkExc RuntimeError ("Task '" ++ Db.task target ++ "' does not exist").

(** The database after a bump of the change clock at [now]: the row
    [id = 1] of the meta table, when there is one, holds [now]. *)
Definition bumped (now : Z) (db : Store) : Store :=
  {| celery_tasks := celery_tasks db;
     celery_tasks_schedule := celery_tasks_schedule db;
     celery_tasks_schedule_id_seq := celery_tasks_schedule_id_seq db;
     celery_tasks_schedule_meta :=
       match celery_tasks_schedule_meta db with
       | Some _ => Some now
       | None => None
       end |}.

(** The pause before the retry number [i] (from 0): what
    [get_exponential_backoff_interval(10, i, 1000, True)] returns with the
    random source of that moment. *)
Definition backoff (randrange : nat -> Z -> Z) (i : nat) : Z :=
  DatabaseScheduler.get_exponential_backoff_interval 10 i 1000 true (randrange i).

(** The entries of a batch whose key the table does not hold yet. *)
Definition fresh (data : list CeleryTasksScheduleDbSchema.t) (db : Store)
  : list CeleryTasksScheduleDbSchema.t :=
  filter (λ d, CeleryTasksScheduleDbSchema.task_key d ∉ keys (celery_tasks_schedule db)) data.

End Spec.

(** ** Sample data for the examples *)

Module Sample.

(** [json.loads] on the documents of the examples; any other document is
    taken as undecodable here. *)
Definition sample_json_loads (s : string) : Result PyVal :=
  if String.eqb s "[]" then Ok (PyList [])
  else if String.eqb s "{}" then Ok (PyDict [])
  else if String.eqb s "[1, 2]" then Ok (PyList [PyInt 1; PyInt 2])
  else if String.eqb s "null" then Ok PyNone
  else Raise (mkExc JSONDecodeError "Expecting value: line 1 column 1 (char 0)").

Definition crontab_char (c : ascii) : bool :=
  let n := nat_of_ascii c in
  (Nat.leb 48 n && Nat.leb n 57) || Ascii.eqb c "*" || Ascii.eqb c "/"
  || Ascii.eqb c "," || Ascii.eqb c "-".

(** A stand-in for celery's [crontab]: it keeps the five fields and refuses
    a field with a character outside digits and [*/,-]. *)
Definition sample_crontab (minute hour day_of_week day_of_month month_of_year : string)
  : Result (list string) :=
  let fields := [minute; hour; day_of_week; day_of_month; month_of_year] in
  if forallb (Spec.all_chars crontab_char) fields then Ok fields
  else Raise (mkExc ParseException "Invalid filter").

#[export] Instance libraries : Libraries :=
  {| json_loads := sample_json_loads; Crontab := list string; crontab := sample_crontab |}.

Definition row (i : Z) (task args kwargs schedule key : string) : ScheduleRow :=
  {| id := i; Db.task := task; Db.args := args; Db.kwargs := kwargs;
     Db.schedule := schedule; Db.enabled := true; Db.comment := None;
     Db.task_key := key |}.

Definition entry (task args kwargs schedule key : string) : CeleryTasksScheduleDbSchema.t :=
  {| CeleryTasksScheduleDbSchema.task_key := key;
     CeleryTasksScheduleDbSchema.task := task;
     CeleryTasksScheduleDbSchema.args := args;
     CeleryTasksScheduleDbSchema.kwargs := kwargs;
     CeleryTasksScheduleDbSchema.schedule := schedule;
     CeleryTasksScheduleDbSchema.enabled := true;
     CeleryTasksScheduleDbSchema.comment := None |}.

(** A task that accepts any arguments. *)
Definition any_task : Task := {| header := Some (fun _ _ => Ok tt) |}.

Definition tasks : gmap string Task := {[ "ping" := any_task ]}.

(** A database with the catalogue of [ping] and [ghost], an empty schedule
    and the change clock at 100. *)
Definition db0 : Store :=
  {| celery_tasks := ["ping"; "ghost"];
     celery_tasks_schedule := [];
     celery_tasks_schedule_id_seq := 1;
     celery_tasks_schedule_meta := Some 100 |}.

(** Two stored rows, and a batch of five entries of which two have the
    keys of these rows. *)
Definition db2 : Store :=
  {| celery_tasks := ["ping"; "ghost"];
     celery_tasks_schedule :=
       [ row 1 "ping" "[]" "{}" "* * * * *" "ping";
         row 2 "ping" "[1, 2]" "{}" "0 3 * * 1" "ping-1-2" ];
     celery_tasks_schedule_id_seq := 3;
     celery_tasks_schedule_meta := Some 100 |}.

(** Four rows fit to run and a fifth whose crontab has two fields. *)
Definition db5 : Store :=
  {| celery_tasks := ["ping"; "ghost"];
     celery_tasks_schedule :=
       [ row 1 "ping" "[]" "{}" "* * * * *" "ping";
         row 2 "ping" "[1, 2]" "{}" "0 3 * * 1" "ping-1-2";
         row 3 "ping" "[]" "{}" "every minute" "ping-bad";
         row 4 "ping" "null" "{}" "*/5 * * * *" "ping-null";
         row 5 "ghost" "[]" "{}" "0 0 1 1 *" "ghost" ];
     celery_tasks_schedule_id_seq := 6;
     celery_tasks_schedule_meta := Some 100 |}.

(** A table whose only row names a task the application does not know. *)
Definition db_ghost : Store :=
  {| celery_tasks := ["ping"; "ghost"];
     celery_tasks_schedule := [ row 1 "ghost" "[]" "{}" "0 0 1 1 *" "ghost" ];
     celery_tasks_schedule_id_seq := 2;
     celery_tasks_schedule_meta := Some 100 |}.

(** [db0] after the bulk insert of one entry: the row is there, the change
    clock still shows 100. *)
Definition db1 : Store :=
  {| celery_tasks := ["ping"; "ghost"];
     celery_tasks_schedule := [ row 1 "ping" "[]" "{}" "* * * * *" "ping" ];
     celery_tasks_schedule_id_seq := 2;
     celery_tasks_schedule_meta := Some 100 |}.

(** Rows as the admin hands them to the session, the key left to the
    caller's fancy. *)
Definition ping_target : ScheduleRow :=
  row 0 "ping" "[1, 2]" "{}" "* * * * *" "chosen-by-caller".

Definition ghost_target : ScheduleRow :=
  row 1 "ghost" "[]" "{}" "0 0 1 1 *" "ghost".

(** The session after the flush of the insert of [ping_target] at the
    instant 200, and the database after the whole write. *)
Definition session : UnitOfWork.Session :=
  snd (UnitOfWork.flush tasks (UnitOfWork.Insert ping_target) 200 (UnitOfWork.begin db0)).

Definition written : Store :=
  snd (UnitOfWork.write tasks (UnitOfWork.Insert ping_target) 200 db0).

(** The entry the reload makes of [ghost_target]. *)
Definition ghost_entry : DatabaseScheduler.ScheduleEntry :=
  {| DatabaseScheduler.name := "ghost";
     DatabaseScheduler.task := "ghost";
     DatabaseScheduler.args := PyList [];
     DatabaseScheduler.kwargs := PyDict [];
     DatabaseScheduler.schedule := ["0"; "0"; "*"; "1"; "1"] |}.

(** A scheduler polling every 10 seconds, last refreshed at the instant
    [last] (in microseconds). *)
Definition scheduler (last : option Z) : DatabaseScheduler.t :=
  {| DatabaseScheduler.max_interval := 10;
     DatabaseScheduler._schedule := None;
     DatabaseScheduler._last_updated_at := last |}.

(** A database that refuses the schema three times, a database that
    refuses it for ever, and a random source. *)
Definition busy : Exc := mkExc OperationalError "database is locked".

Definition create_all_fourth (n : nat) : Result unit :=
  if Nat.ltb n 3 then Raise busy else Ok tt.

Definition create_all_never (n : nat) : Result unit := Raise busy.

Definition randrange (i : nat) (n : Z) : Z := ((Z.of_nat i * 7 + 3) mod n)%Z.

Definition batch : list CeleryTasksScheduleDbSchema.t :=
  [ entry "ping" "[]" "{}" "*/5 * * * *" "ping";
    entry "ping" "[3]" "{}" "* * * * *" "ping-3";
    entry "ping" "[1, 2]" "{}" "* * * * *" "ping-1-2";
    entry "ping" "[4]" "{}" "* * * * *" "ping-4";
    entry "ghost" "[]" "{}" "* * * * *" "ghost" ].

End Sample.

(** ** [utils.py], the rest *)

Module UtilsRest.

(** [s.startswith(p)]. *)
Fixpoint startswith (p s : string) : bool :=
  match p, s with
  | EmptyString, _ => true
  | String a p', String b s' => Ascii.eqb a b && startswith p' s'
  | String _ _, EmptyString => false
  end.

(** [s.replace(old, new)] for a non-empty [old]: the occurrences of [old]
    from the left, none overlapping another. [skip] characters of a match
    are still to be passed over. *)
Fixpoint replace_from (skip : nat) (old new s : string) : string :=
  match s with
  | EmptyString => EmptyString
  | String c s' =>
      match skip with
      | S k => replace_from k old new s'
      | O =>
          if startswith old s
          then new ++ replace_from (String.length old - 1) old new s'
          else String c (replace_from 0 old new s')
      end
  end.

Definition replace (old new s : string) : string := replace_from 0 old new s.

(** [s.split(sep)] for a separator of one character: at least one piece,
    an empty one between two separators. *)
Fixpoint split_on (sep : ascii) (s : string) : list string :=
  match s with
  | EmptyString => [EmptyString]
  | String c s' =>
      if Ascii.eqb c sep then EmptyString :: split_on sep s'
      else
        match split_on sep s' with
        | w :: ws => String c w :: ws
        | [] => [String c EmptyString]
        end
  end.

(** [l[-1]]. *)
Definition last_item (l : list string) : Result string :=
  match List.rev l with
  | x :: _ => Ok x
  | [] => Raise (mkExc OtherException "IndexError: list index out of range")
  end.

(** [get_task_category(task_module)]. *)
Definition get_task_category (task_module : string) : Result string :=
  last_item (split_on "." (replace ".tasks" "" task_module)).

(** [db_bindparam(name)]. *)
Definition db_bindparam (name : string) : string := name ++ "_value".

End UtilsRest.

(** ** [schemas/db/base.py] and the two schemas *)

Module BindparamDbSchema.

(** A value of a field of a schema. *)
Inductive FieldValue :=
| FStr (s : string)
| FBool (b : bool)
| FNone.

(** What [dataclasses.fields] and [getattr] see of a dataclass [T]: the
    names of its fields in the order of their declaration, and the value of
    a field of an instance. *)
Class Dataclass (T : Type) := {
  fields : list string;
  getattr : T -> string -> FieldValue;
}.

(** [get_bindparams(exclude)]: the dict of the field names to the bind
    parameters, a bind parameter being held by its name. *)
Definition get_bindparams `{Dataclass T} (exclude : list string) : gmap string string :=
  fold_left (fun m f => <[f := UtilsRest.db_bindparam f]> m)
            (filter (λ f, f ∉ exclude) fields) ∅.

(** [model_dump()]: the dict of the bind parameter names to the values. *)
Definition model_dump `{Dataclass T} (self : T) : gmap string FieldValue :=
  fold_left (fun m f => <[UtilsRest.db_bindparam f := getattr self f]> m) fields ∅.

End BindparamDbSchema.

(** [schemas/db/celery_tasks.py]. *)
Module CeleryTasksDbSchema.
Record t := mk {
  task : string;
  params : string;
  description : string;
  tags : string;
}.

#[export] Instance dataclass : BindparamDbSchema.Dataclass t :=
  {| BindparamDbSchema.fields := ["task"; "params"; "description"; "tags"];
     BindparamDbSchema.getattr := fun d f =>
       if String.eqb f "task" then BindparamDbSchema.FStr (task d)
       else if String.eqb f "params" then BindparamDbSchema.FStr (params d)
       else if String.eqb f "description" then BindparamDbSchema.FStr (description d)
       else if String.eqb f "tags" then BindparamDbSchema.FStr (tags d)
       else BindparamDbSchema.FNone |}.
End CeleryTasksDbSchema.

(** The fields of [CeleryTasksScheduleDbSchema] as a dataclass. *)
Module CeleryTasksScheduleDbSchemaFields.
Import CeleryTasksScheduleDbSchema.

#[export] Instance dataclass : BindparamDbSchema.Dataclass CeleryTasksScheduleDbSchema.t :=
  {| BindparamDbSchema.fields :=
       ["task_key"; "task"; "args"; "kwargs"; "schedule"; "enabled"; "comment"];
     BindparamDbSchema.getattr := fun d f =>
       if String.eqb f "task_key" then BindparamDbSchema.FStr (task_key d)
       else if String.eqb f "task" then BindparamDbSchema.FStr (task d)
       else if String.eqb f "args" then BindparamDbSchema.FStr (args d)
       else if String.eqb f "kwargs" then BindparamDbSchema.FStr (kwargs d)
       else if String.eqb f "schedule" then BindparamDbSchema.FStr (schedule d)
       else if String.eqb f "enabled" then BindparamDbSchema.FBool (enabled d)
       else if String.eqb f "comment" then
         match comment d with
         | Some c => BindparamDbSchema.FStr c
         | None => BindparamDbSchema.FNone
         end
       else BindparamDbSchema.FNone |}.
End CeleryTasksScheduleDbSchemaFields.

(** ** [models/celery_tasks.py]: the catalogue of the tasks *)

Module CeleryTasksModel.

(** A row of [celery_tasks], without its two timestamps. *)
Record Row := mkRow {
  task : string;
  params : string;
  description : string;
  tags : string;
}.

(** The database with the columns of the catalogue: [store] holds the key
    column of [celery_tasks] and the two other tables, [catalogue] the rows
    of [celery_tasks] in the same order. *)
Record Database := mkDatabase {
  catalogue : list Row;
  store : Store;
}.

(** The two views of the catalogue agree. *)
Definition consistent (db : Database) : Prop :=
  celery_tasks (store db) = List.map task (catalogue db).

(** [with db_sessionmaker() as session, session.begin(): body] on the
    whole database. *)
Definition transaction {A} (body : Database -> Result (A * Database)) (db : Database)
  : Result A * Database :=
  match body db with
  | Ok (a, db') => (Ok a, db')
  | Raise e => (Raise e, db)
  end.

Definition row_of (d : CeleryTasksDbSchema.t) : Row :=
  {| task := CeleryTasksDbSchema.task d;
     params := CeleryTasksDbSchema.params d;
     description := CeleryTasksDbSchema.description d;
     tags := CeleryTasksDbSchema.tags d |}.

Definition with_catalogue (rows : list Row) (db : Database) : Database :=
  {| catalogue := rows;
     store := {| celery_tasks := List.map task rows;
                 celery_tasks_schedule := celery_tasks_schedule (store db);
                 celery_tasks_schedule_id_seq := celery_tasks_schedule_id_seq (store db);
                 celery_tasks_schedule_meta := celery_tasks_schedule_meta (store db) |} |}.

(** INSERT of one row: [task] is the primary key. *)
Definition insert_task (d : CeleryTasksDbSchema.t) (db : Database) : Result Database :=
  if bool_decide (CeleryTasksDbSchema.task d ∈ List.map task (catalogue db))
  then Raise (mkExc IntegrityError "duplicate key value violates unique constraint")
  else Ok (with_catalogue (catalogue db ++ [row_of d]) db).

Fixpoint insert_tasks (data : list CeleryTasksDbSchema.t) (db : Database) : Result Database :=
  match data with
  | [] => Ok db
  | d :: data' => db' ← insert_task d db; insert_tasks data' db'
  end.

(** [bulk_insert(data)]. *)
Definition bulk_insert (data : list CeleryTasksDbSchema.t) (db : Database)
  : Result unit * Database :=
  transaction (fun st =>
    let existing_tasks : gset string := list_to_set (List.map task (catalogue st)) in
    let tasks_to_insert : gset string := list_to_set (List.map CeleryTasksDbSchema.task data) in
    let missing_tasks := tasks_to_insert ∖ existing_tasks in
    if bool_decide (missing_tasks ≠ ∅) then
      st' ← insert_tasks
              (filter (λ d, CeleryTasksDbSchema.task d ∈ missing_tasks) data) st;
      mret (tt, st')
    else mret (tt, st)) db.

(** The UPDATE of [bulk_update] for one set of parameters: the rows of the
    task of [d] whose [params] or [description] differ take those of [d];
    [tags] is not among the values of the statement. *)
Definition update_task (d : CeleryTasksDbSchema.t) (r : Row) : Row :=
  if bool_decide (task r = CeleryTasksDbSchema.task d)
     && (negb (String.eqb (params r) (CeleryTasksDbSchema.params d))
         || negb (String.eqb (description r) (CeleryTasksDbSchema.description d)))
  then {| task := CeleryTasksDbSchema.task d;
          params := CeleryTasksDbSchema.params d;
          description := CeleryTasksDbSchema.description d;
          tags := tags r |}
  else r.

(** [bulk_update(data)]: the statement once per element of [data], in
    their order. [on_empty] is what [Connection.execute] does when the list
    of parameter sets is empty. *)
Definition bulk_update (on_empty : Result unit) (data : list CeleryTasksDbSchema.t)
  (db : Database) : Result unit * Database :=
  transaction (fun st =>
    match data with
    | [] => _ ← on_empty; mret (tt, st)
    | _ =>
        mret (tt, with_catalogue
                    (fold_left (fun rows d => List.map (update_task d) rows)
                               data (catalogue st)) st)
    end) db.

(** [select_all_tasks()]. *)
Definition select_all_tasks (db : Database) : Result (list string) * Database :=
  transaction (fun st => Ok (List.map task (catalogue st), st)) db.

(** [delete(tasks)]: the rows of the catalogue whose task is in [tasks]
    go, and with each of them, by the [ondelete="CASCADE"] of the foreign
    key, the schedule rows of its task. *)
Definition delete (tasks : list string) (db : Database) : Result unit * Database :=
  transaction (fun st =>
    let deleted := List.filter (fun r => bool_decide (task r ∈ tasks)) (catalogue st) in
    let kept := List.filter (fun r => negb (bool_decide (task r ∈ tasks))) (catalogue st) in
    Ok (tt,
        {| catalogue := kept;
           store :=
             {| celery_tasks := List.map task kept;
                celery_tasks_schedule :=
                  List.filter
                    (fun x => negb (bool_decide (Db.task x ∈ List.map task deleted)))
                    (celery_tasks_schedule (store st));
                celery_tasks_schedule_id_seq := celery_tasks_schedule_id_seq (store st);
                celery_tasks_schedule_meta := celery_tasks_schedule_meta (store st) |} |})) db.

End CeleryTasksModel.

(** ** [scheduler.py]: the set-up of the scheduler *)

Module Setup.

(** The schedule of an entry of [beat_schedule]: a [crontab], seen by the
    five [_orig_*] attributes its constructor kept, or another kind of
    schedule, which has none of them. *)
Inductive BeatSchedule :=
| CrontabOrig (_orig_minute _orig_hour _orig_day_of_month
               _orig_month_of_year _orig_day_of_week : PyVal)
| OtherSchedule.

(** An entry of [app.conf.beat_schedule], a dict that may lack any of the
    four keys the set-up reads. *)
Record BeatEntry := mkBeatEntry {
  b_task : option string;
  b_args : option PyVal;
  b_kwargs : option PyVal;
  b_schedule : option BeatSchedule;
}.

(** [d[key]] on a dict that may lack [key]. *)
Definition item {A} (key : string) (v : option A) : Result A :=
  match v with
  | Some a => Ok a
  | None => Raise (mkExc OtherException ("KeyError: '" ++ key ++ "'"))
  end.

(** The f-string of the five [_orig_*] attributes. *)
Definition schedule_text (s : BeatSchedule) : Result string :=
  match s with
  | CrontabOrig minute hour day_of_month month_of_year day_of_week =>
      Ok (py_str minute ++ " " ++ py_str hour ++ " " ++ py_str day_of_month ++ " "
          ++ py_str month_of_year ++ " " ++ py_str day_of_week)
  | OtherSchedule =>
      Raise (mkExc AttributeError "object has no attribute '_orig_minute'")
  end.

Section FillSchedule.
Variable json_dumps : PyVal -> Result string.   (* json.dumps *)
Variable isoformat : Z -> string.               (* datetime.isoformat *)

(** One [CeleryTasksScheduleDbSchema(...)] of the list comprehension of
    [_fill_celery_tasks_schedule], its arguments evaluated in their order. *)
Definition db_entry (comment : string) (task : BeatEntry)
  : Result CeleryTasksScheduleDbSchema.t :=
  name ← item "task" (b_task task);
  a ← item "args" (b_args task);
  k ← item "kwargs" (b_kwargs task);
  key ← get_task_key name a k;
  args ← json_dumps a;
  kwargs ← json_dumps k;
  s ← item "schedule" (b_schedule task);
  schedule ← schedule_text s;
  mret {| CeleryTasksScheduleDbSchema.task_key := key;
          CeleryTasksScheduleDbSchema.task := name;
          CeleryTasksScheduleDbSchema.args := args;
          CeleryTasksScheduleDbSchema.kwargs := kwargs;
          CeleryTasksScheduleDbSchema.schedule := schedule;
          CeleryTasksScheduleDbSchema.enabled := true;
          CeleryTasksScheduleDbSchema.comment := Some comment |}.

Fixpoint db_entries (comment : string) (tasks : list BeatEntry)
  : Result (list CeleryTasksScheduleDbSchema.t) :=
  match tasks with
  | [] => Ok []
  | task :: tasks' =>
      d ← db_entry comment task;
      ds ← db_entries comment tasks';
      mret (d :: ds)
  end.

(** [_fill_celery_tasks_schedule()], [beat_schedule] being the values of
    [app.conf.beat_schedule] in their order. *)
Definition _fill_celery_tasks_schedule (beat_schedule : list BeatEntry) (now : Z)
  (db : Store) : Result unit * Store :=
  match beat_schedule with
  | [] => (Ok tt, db)
  | _ =>
      let comment := "loaded from app celery beat schedule on " ++ isoformat now in
      match db_entries comment beat_schedule with
      | Raise e => (Raise e, db)
      | Ok entries => CeleryTasksScheduleModel.bulk_insert entries db
      end
  end.

End FillSchedule.

(** [_clean_deprecated()], [tasks] being [app.tasks]. *)
Definition _clean_deprecated (tasks : gmap string Task) (db : CeleryTasksModel.Database)
  : Result unit * CeleryTasksModel.Database :=
  let tasks : gset string := dom tasks in
  match CeleryTasksModel.select_all_tasks db with
  | (Raise e, db') => (Raise e, db')
  | (Ok names, db') =>
      let db_tasks : gset string := list_to_set names in
      let deprecated_tasks := db_tasks ∖ tasks in
      if bool_decide (deprecated_tasks ≠ ∅)
      then CeleryTasksModel.delete (elements deprecated_tasks) db'
      else (Ok tt, db')
  end.

End Setup.

(** ** Further notions and sample data *)

Module Notions.

(** The name under which celery installs its clean-up entry. *)
Definition backend_cleanup : string := "celery.backend_cleanup".

(** A text that [split] keeps whole: not empty and without whitespace. *)
Definition word (w : string) : Prop :=
  w <> EmptyString /\
  Spec.all_chars (fun c => negb (CeleryTasksScheduleModel.is_space c)) w = true.

(** The constraints of the table [celery_tasks_schedule]: unique keys,
    unique primary keys below the sequence, tasks of the catalogue. *)
Definition table_ok (st : Store) : Prop :=
  NoDup (keys (celery_tasks_schedule st)) /\
  NoDup (List.map id (celery_tasks_schedule st)) /\
  (forall row, In row (celery_tasks_schedule st) ->
               (id row < celery_tasks_schedule_id_seq st)%Z) /\
  (forall row, In row (celery_tasks_schedule st) -> In (Db.task row) (celery_tasks st)).

(** The sum of a list of pauses. *)
Definition total (l : list Z) : Z := fold_right Z.add 0%Z l.

(** The cap of the pause before the retry number [i]. *)
Definition backoff_cap (i : nat) : Z := Z.min 1000 (10 * 2 ^ Z.of_nat i).

(** A database with its catalogue whose schedule rows all have a task of
    the catalogue. *)
Definition referential (db : CeleryTasksModel.Database) : Prop :=
  CeleryTasksModel.consistent db /\
  forall row, In row (celery_tasks_schedule (CeleryTasksModel.store db)) ->
              In (Db.task row) (List.map CeleryTasksModel.task (CeleryTasksModel.catalogue db)).

(** The entries of a batch whose task the catalogue does not hold yet. *)
Definition fresh_tasks (data : list CeleryTasksDbSchema.t) (db : CeleryTasksModel.Database)
  : list CeleryTasksDbSchema.t :=
  filter (λ d, CeleryTasksDbSchema.task d ∉
               List.map CeleryTasksModel.task (CeleryTasksModel.catalogue db)) data.

(** An entry of the static schedule the set-up cannot turn into a row: a
    key is missing, or the schedule is no crontab. *)
Definition incomplete (b : Setup.BeatEntry) : Prop :=
  Setup.b_task b = None \/ Setup.b_args b = None \/ Setup.b_kwargs b = None \/
  Setup.b_schedule b = None \/ Setup.b_schedule b = Some Setup.OtherSchedule.

(** An entry of a batch under another comment. *)
Definition with_comment (c : string) (d : CeleryTasksScheduleDbSchema.t)
  : CeleryTasksScheduleDbSchema.t :=
  {| CeleryTasksScheduleDbSchema.task_key := CeleryTasksScheduleDbSchema.task_key d;
     CeleryTasksScheduleDbSchema.task := CeleryTasksScheduleDbSchema.task d;
     CeleryTasksScheduleDbSchema.args := CeleryTasksScheduleDbSchema.args d;
     CeleryTasksScheduleDbSchema.kwargs := CeleryTasksScheduleDbSchema.kwargs d;
     CeleryTasksScheduleDbSchema.schedule := CeleryTasksScheduleDbSchema.schedule d;
     CeleryTasksScheduleDbSchema.enabled := CeleryTasksScheduleDbSchema.enabled d;
     CeleryTasksScheduleDbSchema.comment := Some c |}.

(** The comment of the rows the set-up stores at the instant [now]. *)
Definition seed_comment (isoformat : Z -> string) (now : Z) : string :=
  "loaded from app celery beat schedule on " ++ isoformat now.

(** The task [name] is registered in the application. *)
Definition live (tasks : gmap string Task) (name : string) : bool :=
  bool_decide (is_Some (tasks !! name)).

(** What [bulk_update] makes of a row when [d] is the entry of its task. *)
Definition refreshed (d : CeleryTasksDbSchema.t) (r : CeleryTasksModel.Row)
  : CeleryTasksModel.Row :=
  {| CeleryTasksModel.task := CeleryTasksModel.task r;
     CeleryTasksModel.params := CeleryTasksDbSchema.params d;
     CeleryTasksModel.description := CeleryTasksDbSchema.description d;
     CeleryTasksModel.tags := CeleryTasksModel.tags r |}.

End Notions.

Module Sample2.

(** A database without the row of the change clock. *)
Definition db_no_clock : Store :=
  {| celery_tasks := ["ping"];
     celery_tasks_schedule := [];
     celery_tasks_schedule_id_seq := 1;
     celery_tasks_schedule_meta := None |}.

(** The catalogue of [ping] and [ghost] with a schedule row of each. *)
Definition catalogued : CeleryTasksModel.Database :=
  {| CeleryTasksModel.catalogue :=
       [ {| CeleryTasksModel.task := "ping"; CeleryTasksModel.params := "n: int";
            CeleryTasksModel.description := "Ping."; CeleryTasksModel.tags := "ops" |};
         {| CeleryTasksModel.task := "ghost"; CeleryTasksModel.params := "";
            CeleryTasksModel.description := ""; CeleryTasksModel.tags := "" |} ];
     CeleryTasksModel.store :=
       {| celery_tasks := ["ping"; "ghost"];
          celery_tasks_schedule :=
            [ Sample.row 1 "ping" "[]" "{}" "* * * * *" "ping";
              Sample.row 2 "ghost" "[]" "{}" "0 0 1 1 *" "ghost" ];
          celery_tasks_schedule_id_seq := 3;
          celery_tasks_schedule_meta := Some 100%Z |} |}.

(** A static schedule of two entries, the second without [args]. *)
Definition nightly : Setup.BeatEntry :=
  {| Setup.b_task := Some "ping";
     Setup.b_args := Some (PyList [PyInt 1; PyInt 2]);
     Setup.b_kwargs := Some (PyDict []);
     Setup.b_schedule :=
       Some (Setup.CrontabOrig (PyInt 0) (PyInt 3) (PyStr "*") (PyStr "*") (PyInt 1)) |}.

Definition no_args : Setup.BeatEntry :=
  {| Setup.b_task := Some "ping";
     Setup.b_args := None;
     Setup.b_kwargs := Some (PyDict []);
     Setup.b_schedule :=
       Some (Setup.CrontabOrig (PyStr "*") (PyStr "*") (PyStr "*") (PyStr "*") (PyStr "*")) |}.

(** [json.dumps] on the values of the examples, and a clock that prints
    the number of microseconds. *)
Definition sample_json_dumps (v : PyVal) : Result string :=
  match v with
  | PyList [] => Ok "[]"
  | PyDict [] => Ok "{}"
  | PyList [PyInt 1; PyInt 2] => Ok "[1, 2]"
  | _ => Raise (mkExc TypeError "Object is not JSON serializable")
  end.

Definition sample_isoformat (now : Z) : string := str_of_Z now.

(** [db0] after the set-up seeded it with [nightly] at the instant 500. *)
Definition seeded : Store :=
  snd (Setup._fill_celery_tasks_schedule sample_json_dumps sample_isoformat
         [nightly] 500 Sample.db0).

(** The scheduler of the samples after a refresh from [db0] at the instant
    24000000. *)
Definition refreshed_scheduler : @DatabaseScheduler.t Sample.libraries :=
  {| DatabaseScheduler.max_interval := 10;
     DatabaseScheduler._schedule := Some ∅;
     DatabaseScheduler._last_updated_at := Some 24000000%Z |}.

End Sample2.

(** * Properties *)

(** ** The entry key *)

Section EntryKey.

Lemma re_sub_class_removes cls c s :
  In c cls -> contains c (re_sub_class cls s) = false.
Proof.
  intros Hc. induction s as [|a s IH]; simpl; [reflexivity|].
  destruct (in_class cls a) eqn:Ha; [exact IH|].
  simpl. destruct (Ascii.eqb a c) eqn:Hac; [|exact IH].
  apply Ascii.eqb_eq in Hac. subst a.
  unfold in_class in Ha.
  assert (existsb (Ascii.eqb c) cls = true) as Hex.
  { apply existsb_exists. exists c. split; [exact Hc | apply Ascii.eqb_refl]. }
  congruence.
Qed.

(** The key never holds a bracket, a brace, a parenthesis, a comma, a space
    or a quote. *)
Lemma get_task_key_strips name args kwargs key c :
  get_task_key name args kwargs = Ok key ->
  In c stripped_class -> contains c key = false.
Proof.
  unfold get_task_key. intros Hk Hc.
  destruct (py_iter args) as [elems|e]; simpl in Hk; [|discriminate].
  destruct (py_items kwargs) as [items|e]; simpl in Hk; [|discriminate].
  injection Hk as <-. now apply re_sub_class_removes.
Qed.

(** The key is the same text for the same inputs, whatever they are. *)
Lemma get_task_key_text name args1 args2 kwargs1 kwargs2 elems1 elems2 items1 items2 :
  py_iter args1 = Ok elems1 -> py_iter args2 = Ok elems2 ->
  py_items kwargs1 = Ok items1 -> py_items kwargs2 = Ok items2 ->
  Spec.args_text elems1 = Spec.args_text elems2 ->
  Spec.kwargs_text items1 = Spec.kwargs_text items2 ->
  get_task_key name args1 kwargs1 = get_task_key name args2 kwargs2.
Proof.
  intros Ha1 Ha2 Hk1 Hk2 Ha Hk. unfold get_task_key.
  rewrite Ha1, Ha2, Hk1, Hk2. simpl.
  unfold Spec.args_text in Ha. rewrite Ha.
  assert (List.map kwarg_text items1 = List.map kwarg_text items2) as ->; [|reflexivity].
  unfold Spec.kwargs_text in Hk.
  assert (forall l, List.map kwarg_text l
            = List.map (fun p => fst p ++ "-" ++ snd p)
                (List.map (fun kv => (fst kv, py_str (snd kv))) l)) as E.
  { intros l. rewrite List.map_map. reflexivity. }
  rewrite !E, Hk. reflexivity.
Qed.

(** C6. The comment of [get_task_key] promises the key format
    [0-9a-zA-Z_-.], but the pattern deletes ten characters only and lets
    every other one through: for the task [send_email] called with
    [a@x.com] and 2 and the keyword [urgent], the key keeps the at sign,
    which lies outside the format. *)
Theorem C6_key_keeps_at_sign :
  get_task_key "send_email" (PyList [PyStr "a@x.com"; PyInt 2])
               (PyDict [("urgent", PyBool true)])
  = Ok "send_email-a@x.com-2-urgent-True"
  /\ contains "@" "send_email-a@x.com-2-urgent-True" = true
  /\ Spec.key_char "@" = false
  /\ Spec.all_chars Spec.key_char "send_email-a@x.com-2-urgent-True" = false.
Proof. repeat split; reflexivity. Qed.

(** C7, refuted as stated: two keyword mappings with the same pairs, entered
    in a different order, give two different keys. *)
Lemma C7_insertion_order_changes_key :
  ~ (forall (name : string) (args : PyVal) (kw1 kw2 : list (string * PyVal)),
        NoDup (List.map fst kw1) -> kw1 ≡ₚ kw2 ->
        get_task_key name args (PyDict kw1) = get_task_key name args (PyDict kw2)).
Proof.
  intros Hall.
  specialize (Hall "t" (PyList []) [("a", PyInt 1); ("b", PyInt 2)]
                   [("b", PyInt 2); ("a", PyInt 1)]).
  assert (NoDup (List.map fst [("a", PyInt 1); ("b", PyInt 2)])) as Hnd.
  { simpl. apply NoDup_cons. split; [|apply NoDup_singleton].
    intros Hin. apply list_elem_of_singleton in Hin. discriminate. }
  specialize (Hall Hnd (Permutation_swap _ _ _)).
  vm_compute in Hall. discriminate.
Qed.

(** C7, amended. The key is a function of the task name and of the canonical
    text of the arguments, the keyword items taken in their insertion order:
    two calls whose positional values have the same [str] one by one, and
    whose keyword items have the same names and the same [str] in the same
    order, get the same key. *)
Theorem C7_key_of_canonical_text
  (name : string) (args1 args2 kwargs1 kwargs2 : PyVal)
  (elems1 elems2 : list PyVal) (items1 items2 : list (string * PyVal)) :
  py_iter args1 = Ok elems1 -> py_iter args2 = Ok elems2 ->
  py_items kwargs1 = Ok items1 -> py_items kwargs2 = Ok items2 ->
  Spec.args_text elems1 = Spec.args_text elems2 ->
  Spec.kwargs_text items1 = Spec.kwargs_text items2 ->
  get_task_key name args1 kwargs1 = get_task_key name args2 kwargs2
  /\ exists key, get_task_key name args1 kwargs1 = Ok key.
Proof.
  intros Ha1 Ha2 Hk1 Hk2 Ha Hk. split.
  - eapply get_task_key_text; eassumption.
  - unfold get_task_key. rewrite Ha1, Hk1. simpl. eauto.
Qed.

Lemma C7_key_of_canonical_text_witness :
  get_task_key "t" (PyList [PyInt 1]) (PyDict [("a", PyBool true); ("b", PyInt 2)])
  = get_task_key "t" (PyList [PyStr "1"]) (PyDict [("a", PyStr "True"); ("b", PyStr "2")])
  /\ exists key,
       get_task_key "t" (PyList [PyInt 1]) (PyDict [("a", PyBool true); ("b", PyInt 2)])
       = Ok key.
Proof.
  apply (C7_key_of_canonical_text "t" (PyList [PyInt 1]) (PyList [PyStr "1"])
           (PyDict [("a", PyBool true); ("b", PyInt 2)])
           (PyDict [("a", PyStr "True"); ("b", PyStr "2")])
           [PyInt 1] [PyStr "1"]
           [("a", PyBool true); ("b", PyInt 2)] [("a", PyStr "True"); ("b", PyStr "2")]);
    reflexivity.
Defined.

End EntryKey.

(** ** Bulk insert of schedule rows *)

Section BulkInsert.
Import CeleryTasksScheduleModel.

Local Abbreviation key_of := CeleryTasksScheduleDbSchema.task_key.
Local Abbreviation task_of := CeleryTasksScheduleDbSchema.task.

Lemma filter_agree {A} (P Q : A -> Prop)
  `{!forall x, Decision (P x)} `{!forall x, Decision (Q x)} (l : list A) :
  (forall x, x ∈ l -> (P x <-> Q x)) -> filter P l = filter Q l.
Proof.
  induction l as [|a l IH]; intros Hpq; [reflexivity|].
  rewrite !filter_cons.
  assert (filter P l = filter Q l) as ->.
  { apply IH. intros x Hx. apply Hpq. now right. }
  destruct (decide (P a)) as [Hp|Hp], (decide (Q a)) as [Hq|Hq]; try reflexivity.
  - exfalso. apply Hq, (Hpq a); [left | exact Hp].
  - exfalso. apply Hp, (Hpq a); [left | exact Hq].
Qed.

(** Filtering the batch by the set difference keeps the fresh entries. *)
Lemma missing_entries_filter (data : list CeleryTasksScheduleDbSchema.t) (db : Store) :
  filter (λ d, key_of d ∈
               (list_to_set (List.map key_of data) ∖
                list_to_set (keys (celery_tasks_schedule db)) : gset string)) data
  = Spec.fresh data db.
Proof.
  unfold Spec.fresh. apply filter_agree. intros d Hd.
  rewrite elem_of_difference, !elem_of_list_to_set. split.
  - intros [_ Hn]. exact Hn.
  - intros Hn. split; [|exact Hn].
    apply list_elem_of_In, in_map, list_elem_of_In, Hd.
Qed.

Lemma missing_entries_empty (data : list CeleryTasksScheduleDbSchema.t) (db : Store) :
  (list_to_set (List.map key_of data) ∖
   list_to_set (keys (celery_tasks_schedule db)) : gset string) = ∅
  <-> Spec.fresh data db = [].
Proof.
  split.
  - intros Hempty. rewrite <- missing_entries_filter, Hempty. clear Hempty.
    induction data as [|d data IH]; [reflexivity|].
    rewrite filter_cons_False; [exact IH|]. apply not_elem_of_empty.
  - intros Hnil. apply set_eq. intros k. split; [|intros Hk; now apply not_elem_of_empty in Hk].
    rewrite elem_of_difference, !elem_of_list_to_set. intros [Hin Hn]. exfalso.
    apply list_elem_of_In, in_map_iff in Hin. destruct Hin as (d & <- & Hd).
    apply list_elem_of_In in Hd.
    assert (d ∈ Spec.fresh data db) as Hf.
    { unfold Spec.fresh. apply list_elem_of_filter. split; assumption. }
    rewrite Hnil in Hf. now apply not_elem_of_nil in Hf.
Qed.

(** [bulk_insert] is the INSERT of the fresh entries, in one transaction. *)
Lemma bulk_insert_fresh (data : list CeleryTasksScheduleDbSchema.t) (db : Store) :
  bulk_insert data db =
  match insert_rows (Spec.fresh data db) db with
  | Ok db' => (Ok tt, db')
  | Raise e => (Raise e, db)
  end.
Proof.
  unfold bulk_insert, transaction. rewrite missing_entries_filter.
  case_bool_decide as Hm.
  - destruct (insert_rows (Spec.fresh data db) db); reflexivity.
  - assert (Spec.fresh data db = []) as ->; [|reflexivity].
    apply missing_entries_empty. destruct (decide
      ((list_to_set (List.map key_of data) ∖
        list_to_set (keys (celery_tasks_schedule db)) : gset string) = ∅)); [assumption|].
    contradiction.
Qed.

Lemma keys_app (l1 l2 : list ScheduleRow) : keys (l1 ++ l2) = (keys l1 ++ keys l2)%list.
Proof. unfold keys. apply List.map_app. Qed.

Lemma keys_rows_of (i : Z) (l : list CeleryTasksScheduleDbSchema.t) :
  keys (Spec.rows_of i l) = List.map key_of l.
Proof.
  revert i. induction l as [|d l IH]; intros i; simpl; [reflexivity|].
  f_equal. apply IH.
Qed.

Lemma insert_rows_ok (l : list CeleryTasksScheduleDbSchema.t) (st : Store) :
  NoDup (List.map key_of l) ->
  (forall d, d ∈ l -> key_of d ∉ keys (celery_tasks_schedule st)) ->
  (forall d, d ∈ l -> task_of d ∈ celery_tasks st) ->
  insert_rows l st =
  Ok {| celery_tasks := celery_tasks st;
        celery_tasks_schedule :=
          celery_tasks_schedule st ++ Spec.rows_of (celery_tasks_schedule_id_seq st) l;
        celery_tasks_schedule_id_seq := celery_tasks_schedule_id_seq st + Z.of_nat (length l);
        celery_tasks_schedule_meta := celery_tasks_schedule_meta st |}.
Proof.
  revert st. induction l as [|d l IH]; intros st Hnd Hnew Hfk.
  - simpl. rewrite app_nil_r, Z.add_0_r. now destruct st.
  - simpl in Hnd. apply NoDup_cons in Hnd. destruct Hnd as [Hd Hnd].
    cbn [insert_rows]. unfold insert_row.
    rewrite bool_decide_eq_false_2 by (apply Hnew; left).
    rewrite bool_decide_eq_true_2 by (apply Hfk; left).
    cbn [mbind Result_bind]. rewrite IH; cbn [celery_tasks celery_tasks_schedule
      celery_tasks_schedule_id_seq celery_tasks_schedule_meta].
    + f_equal. f_equal.
      * rewrite <- app_assoc. reflexivity.
      * rewrite length_cons. lia.
    + exact Hnd.
    + intros x Hx. rewrite keys_app. intros Hin.
      apply elem_of_app in Hin. destruct Hin as [Hin|Hin].
      * revert Hin. apply Hnew. now right.
      * apply list_elem_of_singleton in Hin. simpl in Hin.
        apply Hd. rewrite <- Hin. apply list_elem_of_In, in_map, list_elem_of_In, Hx.
    + intros x Hx. apply Hfk. now right.
Qed.

Lemma insert_row_raise d st e :
  insert_row d st = Raise e -> exc_type e = IntegrityError.
Proof.
  unfold insert_row. repeat case_bool_decide; intros E; try discriminate;
    injection E as <-; reflexivity.
Qed.

Lemma insert_rows_raise l st e :
  insert_rows l st = Raise e -> exc_type e = IntegrityError.
Proof.
  revert st. induction l as [|d l IH]; intros st; simpl; [discriminate|].
  destruct (insert_row d st) as [st'|e'] eqn:E; cbn [mbind Result_bind].
  - apply IH.
  - intros E'. injection E' as <-. eapply insert_row_raise, E.
Qed.

Lemma insert_row_ok_inv d st st' :
  insert_row d st = Ok st' ->
  (key_of d ∉ keys (celery_tasks_schedule st)) /\
  (key_of d ∈ keys (celery_tasks_schedule st')) /\
  (task_of d ∈ celery_tasks st) /\
  celery_tasks st' = celery_tasks st.
Proof.
  unfold insert_row. repeat case_bool_decide; intros E; try discriminate.
  injection E as <-. split; [assumption|]. split; [|split; [assumption|reflexivity]].
  simpl. rewrite keys_app. apply elem_of_app. right. simpl. left.
Qed.

Lemma insert_row_keeps_keys d st st' k :
  insert_row d st = Ok st' ->
  k ∈ keys (celery_tasks_schedule st) -> k ∈ keys (celery_tasks_schedule st').
Proof.
  unfold insert_row. repeat case_bool_decide; intros E; try discriminate.
  injection E as <-. simpl. rewrite keys_app. intros Hk. apply elem_of_app. now left.
Qed.

(** An INSERT that went through had no key twice, no stored key and no
    task outside the catalogue. *)
Lemma insert_rows_ok_NoDup l st st' :
  insert_rows l st = Ok st' ->
  NoDup (List.map key_of l) /\
  (forall k, k ∈ List.map key_of l -> k ∉ keys (celery_tasks_schedule st)) /\
  Forall (λ d, task_of d ∈ celery_tasks st) l.
Proof.
  revert st. induction l as [|d l IH]; intros st; simpl.
  - intros _. split; [constructor|]. split; [|constructor].
    intros k Hk. now apply not_elem_of_nil in Hk.
  - destruct (insert_row d st) as [st1|e] eqn:E; cbn [mbind Result_bind]; [|discriminate].
    intros Hl. destruct (IH _ Hl) as (Hnd & Hnew & Hfk).
    destruct (insert_row_ok_inv _ _ _ E) as (Hd & Hd' & Hfkd & Hcat).
    split; [|split].
    + apply NoDup_cons. split; [|exact Hnd]. intros Hin. exact (Hnew _ Hin Hd').
    + intros k Hk. apply elem_of_cons in Hk. destruct Hk as [->|Hk]; [exact Hd|].
      intros Hin. apply (Hnew _ Hk). eapply insert_row_keeps_keys; eassumption.
    + constructor; [exact Hfkd|]. rewrite Hcat in Hfk. exact Hfk.
Qed.

Lemma fresh_nil (data : list CeleryTasksScheduleDbSchema.t) (db : Store) :
  (forall d, d ∈ data -> key_of d ∈ keys (celery_tasks_schedule db)) ->
  Spec.fresh data db = [].
Proof.
  unfold Spec.fresh. induction data as [|d data IH]; intros Hall; [reflexivity|].
  rewrite filter_cons_False.
  - apply IH. intros x Hx. apply Hall. now right.
  - intros Hn. apply Hn, Hall. left.
Qed.

Lemma length_rows_of (i : Z) (l : list CeleryTasksScheduleDbSchema.t) :
  length (Spec.rows_of i l) = length l.
Proof.
  revert i. induction l as [|d l IH]; intros i; simpl; [reflexivity|].
  f_equal. apply IH.
Qed.

(** C5, refuted as stated: of two entries of one batch with the same new
    key the later one is not dropped; both go into the INSERT, the unique
    constraint fails it, and no row of the batch is stored. *)
Lemma C5_same_key_twice_fails :
  exists e,
    bulk_insert [Sample.entry "ping" "[]" "{}" "* * * * *" "ping";
                 Sample.entry "ping" "[]" "{}" "0 3 * * 1" "ping"] Sample.db0
    = (Raise e, Sample.db0)
    /\ exc_type e = IntegrityError
    /\ celery_tasks_schedule Sample.db0 = [].
Proof. eexists. vm_compute. repeat split. Qed.

(** C5, amended. Bulk insert stores exactly the entries of the batch whose
    key is not stored yet, after the rows that exist, which it leaves as
    they are; running the same batch again stores nothing. That is what it
    does when these fresh entries have pairwise different keys and tasks of
    the catalogue; in every other case, so when two of them share a key,
    the call raises [IntegrityError] and stores no row at all. *)
Theorem C5_bulk_insert_fresh_keys (data : list CeleryTasksScheduleDbSchema.t) (db : Store) :
  (NoDup (List.map key_of (Spec.fresh data db)) /\
   Forall (λ d, task_of d ∈ celery_tasks db) (Spec.fresh data db) /\
   exists db',
     bulk_insert data db = (Ok tt, db') /\
     celery_tasks_schedule db' =
       (celery_tasks_schedule db ++
        Spec.rows_of (celery_tasks_schedule_id_seq db) (Spec.fresh data db))%list /\
     length (celery_tasks_schedule db') =
       (length (celery_tasks_schedule db) + length (Spec.fresh data db))%nat /\
     bulk_insert data db' = (Ok tt, db'))
  \/
  ((~ NoDup (List.map key_of (Spec.fresh data db)) \/
    ~ Forall (λ d, task_of d ∈ celery_tasks db) (Spec.fresh data db)) /\
   exists e, bulk_insert data db = (Raise e, db) /\ exc_type e = IntegrityError).
Proof.
  destruct (decide (NoDup (List.map key_of (Spec.fresh data db)))) as [Hnd|Hdup];
    [destruct (decide (Forall (λ d, task_of d ∈ celery_tasks db) (Spec.fresh data db)))
       as [Hfk|Hnofk]|].
  - left. split; [exact Hnd|]. split; [exact Hfk|].
    rewrite Forall_forall in Hfk.
    rewrite bulk_insert_fresh.
    rewrite insert_rows_ok; [|exact Hnd| |exact Hfk].
    2:{ intros d Hd. unfold Spec.fresh in Hd. apply list_elem_of_filter in Hd. tauto. }
    eexists. split; [reflexivity|]. cbn [celery_tasks_schedule].
    split; [reflexivity|]. split.
    { rewrite length_app, length_rows_of. reflexivity. }
    rewrite bulk_insert_fresh, fresh_nil; [reflexivity|].
    intros d Hd. cbn [celery_tasks_schedule]. rewrite keys_app, keys_rows_of.
    apply elem_of_app.
    destruct (decide (key_of d ∈ keys (celery_tasks_schedule db))) as [Hin|Hout];
      [now left|right].
    apply list_elem_of_In, in_map, list_elem_of_In.
    unfold Spec.fresh. apply list_elem_of_filter. split; assumption.
  - right. split; [now right|]. rewrite bulk_insert_fresh.
    destruct (insert_rows (Spec.fresh data db) db) as [st'|e] eqn:E.
    + exfalso. apply Hnofk. eapply insert_rows_ok_NoDup, E.
    + exists e. split; [reflexivity|]. eapply insert_rows_raise, E.
  - right. split; [now left|]. rewrite bulk_insert_fresh.
    destruct (insert_rows (Spec.fresh data db) db) as [st'|e] eqn:E.
    + exfalso. apply Hdup. eapply insert_rows_ok_NoDup, E.
    + exists e. split; [reflexivity|]. eapply insert_rows_raise, E.
Qed.

Lemma C5_bulk_insert_fresh_keys_witness :
  exists db',
    bulk_insert Sample.batch Sample.db2 = (Ok tt, db') /\
    length (celery_tasks_schedule db') = 5%nat /\
    bulk_insert Sample.batch db' = (Ok tt, db').
Proof.
  destruct (C5_bulk_insert_fresh_keys Sample.batch Sample.db2)
    as [(_ & _ & db' & Hins & _ & Hlen & Hagain) | (_ & e & Hraise & _)].
  - exists db'. split; [exact Hins|]. split; [|exact Hagain].
    rewrite Hlen. vm_compute. reflexivity.
  - exfalso. vm_compute in Hraise. discriminate.
Defined.

(** The example of the specification: two of the five entries have a stored
    key, three rows are new, and the second run adds none. *)
Example bulk_insert_two_of_five :
  let db' := snd (bulk_insert Sample.batch Sample.db2) in
    bulk_insert Sample.batch Sample.db2 = (Ok tt, db') /\
    List.map Db.task_key (celery_tasks_schedule db')
      = ["ping"; "ping-1-2"; "ping-3"; "ping-4"; "ghost"] /\
    firstn 2 (celery_tasks_schedule db') = celery_tasks_schedule Sample.db2 /\
    bulk_insert Sample.batch db' = (Ok tt, db').
Proof. vm_compute. repeat split. Qed.

End BulkInsert.

(** ** Reload of the schedule *)

Section Reload.
Context `{Libraries}.
Import DatabaseScheduler.

(** A row gives an entry exactly when its JSON columns decode and its
    crontab parses. *)
Lemma model_to_entry_well_formed (row : ScheduleRow) :
  Spec.well_formed row = is_Ok (_model_to_entry row).
Proof.
  unfold Spec.well_formed, _model_to_entry.
  destruct (json_loads (Db.args row)); simpl; [|reflexivity].
  destruct (json_loads (Db.kwargs row)); simpl; [|reflexivity].
  destruct (CeleryTasksScheduleModel.parse_schedule (Db.schedule row)); reflexivity.
Qed.

Lemma length_errors (rows : list ScheduleRow) :
  length (Spec.errors rows)
  = length (List.filter (fun row => negb (Spec.well_formed row)) rows).
Proof.
  induction rows as [|row rows IH]; [reflexivity|].
  unfold Spec.errors in *. cbn [omap list_omap List.filter].
  rewrite model_to_entry_well_formed.
  destruct (_model_to_entry row); simpl; rewrite IH; reflexivity.
Qed.

(** The loop of the reload never raises; it adds the entries of the rows
    that [_model_to_entry] accepts and logs the others. *)
Lemma for_rows_spec (rows : list ScheduleRow) :
  NoDup (keys rows) ->
  forall (entries : gmap string ScheduleEntry) (log : list string),
    (forall row, row ∈ rows -> entries !! Db.task_key row = None) ->
    exists entries',
      for_rows rows entries log = (Ok entries', (log ++ Spec.errors rows)%list) /\
      (forall k e,
          entries' !! k = Some e <->
          entries !! k = Some e \/
          exists row, row ∈ rows /\ Db.task_key row = k /\ _model_to_entry row = Ok e) /\
      size entries' =
        (size entries + length (List.filter Spec.well_formed rows))%nat.
Proof.
  induction rows as [|row rows IH]; intros Hnd entries log Hfree.
  - exists entries. cbn. rewrite app_nil_r. split; [reflexivity|]. split; [|lia].
    intros k e. split; [now left|].
    intros [Hk|(row & Hrow & _)]; [exact Hk|]. now apply not_elem_of_nil in Hrow.
  - cbn [keys List.map] in Hnd. apply NoDup_cons in Hnd. destruct Hnd as [Hrow Hnd].
    cbn [for_rows List.filter]. unfold Spec.errors. cbn [omap list_omap].
    rewrite model_to_entry_well_formed.
    destruct (_model_to_entry row) as [entry|e] eqn:E; cbn [is_Ok].
    + destruct (IH Hnd (<[Db.task_key row := entry]> entries) log)
        as (entries' & Hrun & Hlook & Hsize).
      { intros r Hr. rewrite lookup_insert_ne; [apply Hfree; now right|].
        intros Heq. apply Hrow. rewrite Heq.
        apply list_elem_of_In, in_map, list_elem_of_In, Hr. }
      exists entries'. split; [exact Hrun|]. split.
      * intros k e. rewrite Hlook. split.
        -- intros [Hk|(r & Hr & Hkey & He)].
           ++ destruct (decide (Db.task_key row = k)) as [<-|Hne].
              ** rewrite lookup_insert_eq in Hk. injection Hk as <-.
                 right. exists row. split; [left|]. split; [reflexivity|exact E].
              ** rewrite lookup_insert_ne in Hk by exact Hne. now left.
           ++ right. exists r. split; [now right|]. split; assumption.
        -- intros [Hk|(r & Hr & Hkey & He)].
           ++ left. rewrite lookup_insert_ne; [exact Hk|].
              intros <-. rewrite (Hfree row) in Hk; [discriminate|left].
           ++ apply elem_of_cons in Hr. destruct Hr as [->|Hr].
              ** left. rewrite <- Hkey, lookup_insert_eq. congruence.
              ** right. exists r. split; [exact Hr|]. split; assumption.
      * rewrite Hsize, map_size_insert_None by (apply Hfree; left).
        cbn [length]. lia.
    + destruct (IH Hnd entries (log ++ [exc_msg e])%list)
        as (entries' & Hrun & Hlook & Hsize).
      { intros r Hr. apply Hfree. now right. }
      exists entries'. split; [rewrite Hrun, <- app_assoc; reflexivity|]. split.
      * intros k e'. rewrite Hlook. split.
        -- intros [Hk|(r & Hr & Hkey & He)]; [now left|].
           right. exists r. split; [now right|]. split; assumption.
        -- intros [Hk|(r & Hr & Hkey & He)]; [now left|].
           apply elem_of_cons in Hr. destruct Hr as [->|Hr]; [congruence|].
           right. exists r. split; [exact Hr|]. split; assumption.
      * exact Hsize.
Qed.

Lemma NoDup_keys_filter (p : ScheduleRow -> bool) (rows : list ScheduleRow) :
  NoDup (keys rows) -> NoDup (keys (List.filter p rows)).
Proof.
  induction rows as [|row rows IH]; intros Hnd; [constructor|].
  cbn [keys List.map] in Hnd. apply NoDup_cons in Hnd. destruct Hnd as [Hrow Hnd].
  cbn [List.filter]. destruct (p row); [|now apply IH].
  cbn [keys List.map]. apply NoDup_cons. split; [|now apply IH].
  intros Hin. apply Hrow.
  apply list_elem_of_In, in_map_iff in Hin. destruct Hin as (r & Hk & Hr).
  apply filter_In in Hr. destruct Hr as [Hr _].
  rewrite <- Hk. apply list_elem_of_In, in_map, Hr.
Qed.

(** The reload of a table with the unique keys of its constraint. *)
Lemma get_enabled_tasks_spec (db : Store) :
  NoDup (keys (celery_tasks_schedule db)) ->
  let rows := List.filter Db.enabled (celery_tasks_schedule db) in
  exists entries,
    _get_enabled_tasks db = (Ok entries, Spec.errors rows) /\
    (forall k e,
        entries !! k = Some e <->
        exists row, row ∈ rows /\ Db.task_key row = k /\ _model_to_entry row = Ok e) /\
    size entries = length (List.filter Spec.well_formed rows).
Proof.
  intros Hnd rows. unfold _get_enabled_tasks. cbn.
  destruct (for_rows_spec rows (NoDup_keys_filter _ _ Hnd) ∅ [])
    as (entries & Hrun & Hlook & Hsize).
  { intros row _. apply lookup_empty. }
  exists entries. split; [exact Hrun|]. split.
  - intros k e. rewrite Hlook, lookup_empty. split.
    + intros [Hk|Hk]; [discriminate|exact Hk].
    + intros Hk. now right.
  - rewrite Hsize, map_size_empty. reflexivity.
Qed.

(** Whatever the rows, the loop returns and logs the refused rows. *)
Lemma for_rows_total (rows : list ScheduleRow) :
  forall (entries : gmap string ScheduleEntry) (log : list string),
  exists entries',
    for_rows rows entries log = (Ok entries', (log ++ Spec.errors rows)%list).
Proof.
  induction rows as [|row rows IH]; intros entries log.
  - exists entries. cbn. rewrite app_nil_r. reflexivity.
  - cbn [for_rows]. unfold Spec.errors. cbn [omap list_omap].
    destruct (_model_to_entry row) as [entry|e].
    + apply IH.
    + destruct (IH entries (log ++ [exc_msg e])%list) as (entries' & Hrun).
      exists entries'. rewrite Hrun, <- app_assoc. reflexivity.
Qed.

(** C4. A reload never raises, whatever the enabled rows hold: it returns a
    schedule and logs one message per enabled row that is not well formed
    (a JSON column that does not decode, a crontab that does not parse), in
    the order of the rows. With the unique keys of the table's constraint,
    the schedule has exactly the entries of the well-formed enabled rows,
    one per such row. *)
Theorem C4_reload_skips_malformed_rows (db : Store) :
  exists entries log,
    _get_enabled_tasks db = (Ok entries, log) /\
    log = Spec.errors (List.filter Db.enabled (celery_tasks_schedule db)) /\
    length log =
      length (List.filter (fun row => negb (Spec.well_formed row))
                (List.filter Db.enabled (celery_tasks_schedule db))) /\
    (NoDup (keys (celery_tasks_schedule db)) ->
     (forall k e,
         entries !! k = Some e <->
         exists row, row ∈ List.filter Db.enabled (celery_tasks_schedule db) /\
                     Spec.well_formed row = true /\
                     Db.task_key row = k /\ _model_to_entry row = Ok e) /\
     size entries =
       length (List.filter Spec.well_formed
                 (List.filter Db.enabled (celery_tasks_schedule db)))).
Proof.
  destruct (for_rows_total (List.filter Db.enabled (celery_tasks_schedule db)) ∅ [])
    as (entries & Hrun).
  assert (_get_enabled_tasks db =
          (Ok entries, Spec.errors (List.filter Db.enabled (celery_tasks_schedule db))))
    as Hget by exact Hrun.
  exists entries, (Spec.errors (List.filter Db.enabled (celery_tasks_schedule db))).
  split; [exact Hget|]. split; [reflexivity|]. split; [apply length_errors|].
  intros Hnd.
  destruct (get_enabled_tasks_spec db Hnd) as (entries' & Hrun' & Hlook & Hsize).
  rewrite Hget in Hrun'. injection Hrun' as <-.
  split; [|exact Hsize].
  intros k e. rewrite Hlook. split.
  - intros (row & Hrow & Hk & He). exists row. split; [exact Hrow|].
    split; [|split; assumption].
    rewrite model_to_entry_well_formed, He. reflexivity.
  - intros (row & Hrow & _ & Hk & He). exists row. split; [exact Hrow|]. split; assumption.
Qed.

End Reload.

Section ReloadExamples.
Local Existing Instance Sample.libraries.
Import DatabaseScheduler.

Lemma NoDup_keys_db5 : NoDup (keys (celery_tasks_schedule Sample.db5)).
Proof.
  vm_compute.
  repeat (apply NoDup_cons; split;
          [intros Hin; repeat (apply elem_of_cons in Hin; destruct Hin as [Hin|Hin];
                               [discriminate|]); now apply not_elem_of_nil in Hin|]).
  apply NoDup_nil. exact I.
Defined.

(** The example of the specification: four rows fit to run, a fifth with a
    crontab of two fields; four entries, one message, no exception. *)
Lemma C4_reload_skips_malformed_rows_witness :
  exists entries log,
    _get_enabled_tasks Sample.db5 = (Ok entries, log) /\
    size entries = 4%nat /\
    log = ["not enough values to unpack (expected 5, got 2)"].
Proof.
  destruct (C4_reload_skips_malformed_rows Sample.db5)
    as (entries & log & Hrun & Hlog & _ & Huniq).
  destruct (Huniq NoDup_keys_db5) as [_ Hsize].
  exists entries, log. split; [exact Hrun|]. split.
  - rewrite Hsize. vm_compute. reflexivity.
  - rewrite Hlog. vm_compute. reflexivity.
Defined.

End ReloadExamples.

(** ** Writes through the ORM session *)

Section Writes.
Context `{Libraries}.
Variable tasks : gmap string Task.
Import CeleryTasksScheduleModel UnitOfWork.

Lemma before_validator_unknown (target : ScheduleRow) :
  tasks !! Db.task target = None ->
  before_validator tasks target = Raise (Spec.unknown_task target).
Proof. unfold before_validator. intros ->. reflexivity. Qed.

(** A validation that passes decoded both JSON columns and put the key of
    the decoded values into the row. *)
Lemma before_validator_ok (target target' : ScheduleRow) :
  before_validator tasks target = Ok target' ->
  exists args kwargs key,
    is_Some (tasks !! Db.task target) /\
    json_loads (Db.args target) = Ok args /\
    json_loads (Db.kwargs target) = Ok kwargs /\
    get_task_key (Db.task target) args kwargs = Ok key /\
    target' = Spec.with_key key target.
Proof.
  unfold before_validator. intros Hv.
  destruct (tasks !! Db.task target) as [t|]; [|discriminate].
  destruct (json_loads (Db.args target)) as [a|e];
    [|destruct (is_JSONDecodeError e); discriminate].
  destruct (json_loads (Db.kwargs target)) as [k|e];
    [|cbn in Hv; destruct (is_JSONDecodeError e); discriminate].
  unfold mbind, Result_bind in Hv.
  match type of Hv with
  | match ?c with _ => _ end = _ => destruct c; [|discriminate]
  end.
  match type of Hv with
  | match ?c with _ => _ end = _ => destruct c; [|discriminate]
  end.
  destruct (get_task_key (Db.task target) a k) as [key|e] eqn:Hkey; [|discriminate].
  cbn in Hv. injection Hv as <-.
  exists a, k, key. repeat split; eauto.
Qed.

(** The validator never reads the key the caller put into the row. *)
Lemma before_validator_with_key (k : string) (target : ScheduleRow) :
  before_validator tasks (Spec.with_key k target) = before_validator tasks target.
Proof. reflexivity. Qed.

Lemma after_handler_bumps (ch : Change) (now : Z) (db : Store) :
  after_handler ch now db = (Ok tt, Spec.bumped now db).
Proof. destruct ch; reflexivity. Qed.

(** A flush goes through exactly when its statement does; the bump of the
    clock is then committed, the change of the rows is not yet. *)
Lemma flush_begin (ch : Change) (now : Z) (db : Store) :
  flush tasks ch now (begin db) =
  match statement tasks ch db with
  | Ok st => (Ok tt, {| committed := Spec.bumped now db; in_transaction := st |})
  | Raise e => (Raise e, begin db)
  end.
Proof.
  unfold flush. cbn [begin in_transaction committed].
  destruct (statement tasks ch db); [|reflexivity].
  rewrite after_handler_bumps. reflexivity.
Qed.

Lemma write_spec (ch : Change) (now : Z) (db : Store) :
  write tasks ch now db =
  match statement tasks ch db with
  | Ok st => (Ok tt, commit {| committed := Spec.bumped now db; in_transaction := st |})
  | Raise e => (Raise e, db)
  end.
Proof.
  unfold write. rewrite flush_begin.
  destruct (statement tasks ch db); reflexivity.
Qed.

Lemma insert_row_ok (target : ScheduleRow) (st st' : Store) :
  insert_row (schema_of target) st = Ok st' ->
  celery_tasks_schedule st' =
    (celery_tasks_schedule st
       ++ [Spec.with_id (celery_tasks_schedule_id_seq st) target])%list.
Proof.
  unfold insert_row. repeat case_bool_decide; intros E; try discriminate.
  injection E as <-. reflexivity.
Qed.

Lemma update_row_ok (r : ScheduleRow) (st st' : Store) :
  update_row r st = Ok st' -> r ∈ celery_tasks_schedule st'.
Proof.
  unfold update_row. repeat case_bool_decide; intros E; try discriminate.
  injection E as <-. cbn [celery_tasks_schedule].
  match goal with Hid : id r ∈ _ |- _ =>
    apply list_elem_of_In, in_map_iff in Hid; destruct Hid as (x & Hx & Hin) end.
  apply list_elem_of_In, in_map_iff. exists x. split; [|exact Hin].
  rewrite bool_decide_eq_true_2 by exact Hx. reflexivity.
Qed.

(** C3, amended. A listener [after_insert], [after_update] or [after_delete]
    sets the change clock to the current time in a transaction of its own:
    once the flush of a change went through, the bump is committed while the
    change of the rows is still inside the session's transaction; it is
    there after the commit, next to the change, and it stays after a
    rollback, without the change. The bulk statements [bulk_insert] and
    [delete] run no listener and leave the clock as it is. *)
Theorem C3_listener_bumps_clock_in_own_transaction
  (ch : Change) (now clock : Z) (db : Store) (s : Session) :
  celery_tasks_schedule_meta db = Some clock ->
  flush tasks ch now (begin db) = (Ok tt, s) ->
  (statement tasks ch db = Ok (in_transaction s) /\
   committed s = Spec.bumped now db /\
   celery_tasks_schedule_meta (committed s) = Some now /\
   celery_tasks_schedule (committed s) = celery_tasks_schedule db)
  /\ (write tasks ch now db = (Ok tt, commit s) /\
      celery_tasks_schedule_meta (commit s) = Some now /\
      celery_tasks_schedule (commit s) = celery_tasks_schedule (in_transaction s))
  /\ (celery_tasks_schedule_meta (rollback s) = Some now /\
      celery_tasks_schedule (rollback s) = celery_tasks_schedule db)
  /\ (forall data,
        celery_tasks_schedule_meta (snd (bulk_insert data db)) = Some clock)
  /\ (forall names,
        celery_tasks_schedule_meta (snd (delete names db)) = Some clock).
Proof.
  intros Hclock Hflush. rewrite flush_begin in Hflush.
  destruct (statement tasks ch db) as [st|e] eqn:Hst; [|discriminate].
  injection Hflush as <-.
  cbn [committed in_transaction rollback commit celery_tasks_schedule_meta
       celery_tasks_schedule Spec.bumped].
  rewrite Hclock. repeat split.
  - rewrite write_spec, Hst. reflexivity.
  - intros data. rewrite bulk_insert_fresh.
    generalize (Spec.fresh data db). intros l.
    destruct (insert_rows l db) as [st'|e] eqn:E; cbn [snd]; [|exact Hclock].
    rewrite <- Hclock. clear -E. revert db E.
    induction l as [|d l IH]; intros db E; cbn in E.
    + now injection E as <-.
    + destruct (insert_row d db) as [st1|e] eqn:E1; [|discriminate].
      cbn in E. rewrite (IH _ E). unfold insert_row in E1.
      repeat case_bool_decide; try discriminate. now injection E1 as <-.
  - intros names. exact Hclock.
Qed.

(** C8, amended. A row whose task the live registry does not know is
    refused on a write through the validator, with [RuntimeError], and the
    database stays as it was. A reload does not look at the registry: such a
    row, once stored and well formed, gets its entry in the rebuilt
    schedule and no line in the log, and the reload does not raise. *)
Theorem C8_unknown_task_rejected_on_write_only
  (target : ScheduleRow) (now : Z) (db : Store) :
  tasks !! Db.task target = None ->
  write tasks (Insert target) now db = (Raise (Spec.unknown_task target), db)
  /\ write tasks (Update target) now db = (Raise (Spec.unknown_task target), db)
  /\ (forall stored : Store,
        NoDup (keys (celery_tasks_schedule stored)) ->
        target ∈ celery_tasks_schedule stored ->
        Db.enabled target = true ->
        Spec.well_formed target = true ->
        exists entries log entry,
          DatabaseScheduler._get_enabled_tasks stored = (Ok entries, log) /\
          entries !! Db.task_key target = Some entry /\
          DatabaseScheduler.task entry = Db.task target /\
          log = Spec.errors (List.filter Db.enabled (celery_tasks_schedule stored)) /\
          Spec.errors [target] = []).
Proof.
  intros Hunknown. split; [|split].
  - rewrite write_spec. cbn [statement]. unfold before_insert_handler.
    rewrite before_validator_unknown by exact Hunknown. reflexivity.
  - rewrite write_spec. cbn [statement]. unfold before_update_handler.
    rewrite before_validator_unknown by exact Hunknown. reflexivity.
  - intros stored Hnd Hin Hen Hwf.
    destruct (get_enabled_tasks_spec stored Hnd) as (entries & Hrun & Hlook & _).
    rewrite model_to_entry_well_formed in Hwf.
    destruct (DatabaseScheduler._model_to_entry target) as [entry|e] eqn:E; [|discriminate].
    exists entries,
      (Spec.errors (List.filter Db.enabled (celery_tasks_schedule stored))), entry.
    split; [exact Hrun|]. split; [|split; [|split]].
    + apply Hlook. exists target. split; [|split; [reflexivity|exact E]].
      apply list_elem_of_In, filter_In. split; [apply list_elem_of_In, Hin|exact Hen].
    + revert E. unfold DatabaseScheduler._model_to_entry.
      destruct (json_loads (Db.args target)); [|discriminate].
      destruct (json_loads (Db.kwargs target)); [|discriminate].
      destruct (parse_schedule (Db.schedule target)); [|discriminate].
      cbn. intros E. injection E as <-. reflexivity.
    + reflexivity.
    + unfold Spec.errors. cbn. rewrite E. reflexivity.
Qed.

(** C10. A write of a row that passes the validator stores the row with the
    key the validator computed, [get_task_key] of the row's task and of its
    decoded [args] and [kwargs]; whatever key the caller had put into the
    row does not matter. The stored row satisfies the identity invariant. *)
Theorem C10_validated_write_stores_computed_key
  (insert : bool) (target : ScheduleRow) (now : Z) (db db' : Store) :
  write tasks (if insert then Insert target else Update target) now db = (Ok tt, db') ->
  exists args kwargs key row,
    json_loads (Db.args target) = Ok args /\
    json_loads (Db.kwargs target) = Ok kwargs /\
    get_task_key (Db.task target) args kwargs = Ok key /\
    row = Spec.with_id (if insert then celery_tasks_schedule_id_seq db else id target)
                       (Spec.with_key key target) /\
    row ∈ celery_tasks_schedule db' /\
    Spec.key_invariant row /\
    (forall k,
        write tasks (if insert then Insert (Spec.with_key k target)
                     else Update (Spec.with_key k target)) now db = (Ok tt, db')).
Proof.
  intros Hw.
  assert (forall k,
    write tasks (if insert then Insert (Spec.with_key k target)
                 else Update (Spec.with_key k target)) now db = (Ok tt, db')) as Hany.
  { intros k. rewrite <- Hw. destruct insert; reflexivity. }
  rewrite write_spec in Hw.
  destruct (statement tasks (if insert then Insert target else Update target) db)
    as [st|e] eqn:Hst; [|discriminate].
  injection Hw as <-.
  assert (exists target', before_validator tasks target = Ok target' /\
            Spec.with_id (if insert then celery_tasks_schedule_id_seq db else id target)
                         target' ∈ celery_tasks_schedule st) as (target' & Hv & Hin).
  { destruct insert; cbn [statement] in Hst.
    - unfold before_insert_handler in Hst.
      destruct (before_validator tasks target) as [target'|e]; [|discriminate].
      cbn in Hst. exists target'. split; [reflexivity|].
      rewrite (insert_row_ok _ _ _ Hst). apply elem_of_app. right. left.
    - unfold before_update_handler in Hst.
      destruct (before_validator tasks target) as [target'|e] eqn:Hv; [|discriminate].
      cbn in Hst. exists target'. split; [reflexivity|].
      apply before_validator_ok in Hv. destruct Hv as (a & k & key & _ & _ & _ & _ & ->).
      apply update_row_ok in Hst. destruct target; exact Hst. }
  apply before_validator_ok in Hv.
  destruct Hv as (a & k & key & _ & Ha & Hk & Hkey & ->).
  exists a, k, key,
    (Spec.with_id (if insert then celery_tasks_schedule_id_seq db else id target)
                  (Spec.with_key key target)).
  split; [exact Ha|]. split; [exact Hk|]. split; [exact Hkey|].
  split; [reflexivity|]. split; [exact Hin|]. split; [|exact Hany].
  exists a, k. repeat split; assumption.
Qed.

End Writes.

(** ** The sync policy *)

Section SyncPolicy.
Context `{Libraries}.
Import DatabaseScheduler.

Lemma second_bounds (now : Z) : (0 <= second now < 60)%Z.
Proof. unfold second. apply Z.mod_pos_bound. lia. Qed.

Lemma quiet_window_spec (now : Z) :
  quiet_window (second now) = true <-> Spec.in_quiet_window (second now).
Proof.
  unfold quiet_window, Spec.in_quiet_window.
  pose proof (second_bounds now) as Hs.
  rewrite orb_true_iff, andb_true_iff, Z.leb_le, Z.ltb_lt, Z.gtb_gt. lia.
Qed.

(** Outside the suppression, [_need_update] answers with the three
    staleness rules. *)
Lemma need_update_stale (self : t) (now clock : Z) (db : Store) :
  celery_tasks_schedule_meta db = Some clock ->
  (if Qlt_le_dec (max_interval self) 30 then quiet_window (second now) else false) = false ->
  _need_update self now db = Ok (Spec.stale (_last_updated_at self) now clock).
Proof.
  intros Hclock Hquiet. unfold _need_update. rewrite Hquiet.
  unfold Spec.stale. destruct (_last_updated_at self) as [last|]; [|reflexivity].
  cbn. rewrite Hclock. unfold MAX_SYNC_SCHEDULE_INTERVAL.
  destruct (Z.ltb_spec last (now - minutes 5)) as [Hold|Hrecent].
  - replace (now - last >? minutes 5)%Z with true; [reflexivity|].
    symmetry. apply Z.gtb_gt. lia.
  - replace (now - last >? minutes 5)%Z with false.
    + cbn. destruct (last <? clock)%Z; reflexivity.
    + symmetry. rewrite Z.gtb_ltb. apply Z.ltb_ge. lia.
Qed.

Lemma need_update_suppressed (self : t) (now : Z) (db : Store) :
  (if Qlt_le_dec (max_interval self) 30 then quiet_window (second now) else false) = true ->
  _need_update self now db = Ok false.
Proof. intros Hquiet. unfold _need_update. rewrite Hquiet. reflexivity. Qed.

Lemma suppressed_spec (self : t) (now : Z) :
  (if Qlt_le_dec (max_interval self) 30 then quiet_window (second now) else false) = true
  <-> (max_interval self < 30)%Q /\ Spec.in_quiet_window (second now).
Proof.
  rewrite <- quiet_window_spec.
  destruct (Qlt_le_dec (max_interval self) 30) as [Hlt|Hge].
  - tauto.
  - split; [discriminate|]. intros [Hlt _]. exfalso. exact (Qlt_not_le _ _ Hlt Hge).
Qed.

Lemma stale_spec (last_refreshed_at : option Z) (now clock : Z) :
  Spec.stale last_refreshed_at now clock = true <->
  last_refreshed_at = None \/
  exists last, last_refreshed_at = Some last /\
               ((now - last > minutes 5)%Z \/ (last < clock)%Z).
Proof.
  unfold Spec.stale. destruct last_refreshed_at as [last|].
  - rewrite orb_true_iff, Z.gtb_gt, Z.ltb_lt. split.
    + intros Hs. right. exists last. split; [reflexivity|]. lia.
    + intros [Hn|(l & Hl & Hs)]; [discriminate|]. injection Hl as <-. lia.
  - split; [now left|reflexivity].
Qed.

(** C1. With the change clock stored, [_need_update] returns a boolean, and
    it returns true exactly when the tick is not suppressed by the quiet
    window and the scheduler was never refreshed, or was refreshed more than
    five minutes ago, or was refreshed before the change clock. So a
    scheduler refreshed at or after the change clock and at most five
    minutes ago is not refreshed by an access to its schedule. *)
Theorem C1_need_update_iff_stale (self : t) (now clock : Z) (db : Store) :
  celery_tasks_schedule_meta db = Some clock ->
  exists b,
    _need_update self now db = Ok b /\
    (b = true <->
     ~ ((max_interval self < 30)%Q /\ Spec.in_quiet_window (second now)) /\
     (_last_updated_at self = None \/
      exists last, _last_updated_at self = Some last /\
                   ((now - last > minutes MAX_SYNC_SCHEDULE_INTERVAL)%Z \/
                    (last < clock)%Z))) /\
    (forall last,
        _last_updated_at self = Some last ->
        (clock <= last)%Z ->
        (now - last <= minutes MAX_SYNC_SCHEDULE_INTERVAL)%Z ->
        b = false /\
        forall cleanup now',
          schedule_property cleanup self now now' db =
          (Ok {| max_interval := max_interval self;
                 _schedule := Some (schedule_or_empty self);
                 _last_updated_at := Some last |}, [])).
Proof.
  intros Hclock.
  destruct (if Qlt_le_dec (max_interval self) 30 then quiet_window (second now) else false)
    eqn:Hquiet.
  - exists false. split; [now apply need_update_suppressed|]. split.
    + split; [discriminate|]. intros [Hn _]. exfalso. apply Hn.
      now apply suppressed_spec.
    + intros last Hlast _ _. split; [reflexivity|]. intros cleanup now'.
      unfold schedule_property.
      rewrite need_update_suppressed by exact Hquiet. now rewrite Hlast.
  - exists (Spec.stale (_last_updated_at self) now clock).
    split; [now apply need_update_stale|]. split.
    + rewrite stale_spec. split.
      * intros Hs. split; [|exact Hs]. intros Hsup.
        apply suppressed_spec in Hsup. congruence.
      * intros [_ Hs]. exact Hs.
    + intros last Hlast Hfresh Hrecent.
      assert (Spec.stale (_last_updated_at self) now clock = false) as Hnot.
      { rewrite Hlast. unfold Spec.stale. apply orb_false_iff.
        rewrite Z.gtb_ltb, !Z.ltb_ge. unfold MAX_SYNC_SCHEDULE_INTERVAL in Hrecent. lia. }
      split; [exact Hnot|]. intros cleanup now'. unfold schedule_property.
      rewrite (need_update_stale _ now clock) by assumption.
      cbn [_last_updated_at]. rewrite Hnot, Hlast. reflexivity.
Qed.

(** C2. With a polling interval below 30 seconds, a tick whose second lies
    in [[0,20)] or in [(50,60)] asks for no refresh and an access to the
    schedule leaves the scheduler as it is, whatever the change clock and
    the time of the last refresh; at every other second, so at second 25,
    the answer is the one of the three staleness rules. *)
Theorem C2_quiet_window_suppresses_refresh (self : t) (now : Z) (db : Store) :
  (max_interval self < 30)%Q ->
  (Spec.in_quiet_window (second now) ->
   _need_update self now db = Ok false /\
   forall cleanup now',
     schedule_property cleanup self now now' db =
     (Ok {| max_interval := max_interval self;
            _schedule := Some (schedule_or_empty self);
            _last_updated_at := _last_updated_at self |}, []))
  /\
  (~ Spec.in_quiet_window (second now) ->
   forall clock,
     celery_tasks_schedule_meta db = Some clock ->
     _need_update self now db = Ok (Spec.stale (_last_updated_at self) now clock)).
Proof.
  intros Hfast. split.
  - intros Hquiet.
    assert ((if Qlt_le_dec (max_interval self) 30
             then quiet_window (second now) else false) = true) as Hsup.
    { apply suppressed_spec. split; assumption. }
    split; [now apply need_update_suppressed|].
    intros cleanup now'. unfold schedule_property.
    rewrite need_update_suppressed by exact Hsup. reflexivity.
  - intros Hout clock Hclock. apply need_update_stale; [exact Hclock|].
    destruct (Qlt_le_dec (max_interval self) 30); [|reflexivity].
    destruct (quiet_window (second now)) eqn:Hq; [|reflexivity].
    exfalso. apply Hout, quiet_window_spec, Hq.
Qed.

End SyncPolicy.

(** ** Bootstrap of the schema *)

Section Bootstrap.
Import DatabaseScheduler.
Variable create_all : nat -> Result unit.
Variable randrange : nat -> Z -> Z.

(** [random.randrange(n)] lies in [[0, n)]. *)
Hypothesis randrange_range :
  forall (i : nat) (n : Z), (0 < n)%Z -> (0 <= randrange i n < n)%Z.

Lemma backoff_bounds (i : nat) :
  (0 <= Spec.backoff randrange i <= Z.min 1000 (10 * 2 ^ Z.of_nat i))%Z.
Proof.
  unfold Spec.backoff, get_exponential_backoff_interval.
  assert (0 < 2 ^ Z.of_nat i)%Z as Hpow by (apply Z.pow_pos_nonneg; lia).
  pose proof (randrange_range i (Z.min 1000 (10 * 2 ^ Z.of_nat i) + 1)) as Hr.
  lia.
Qed.

(** The loop from the retry number [k] on: it ends within the fuel that is
    left for the ten retries, at a call that succeeds, or raises something
    else than a database error, or is the last one allowed. *)
Lemma prepare_loop_spec (fuel k : nat) (slept : list Z) :
  (k <= PREPARE_MODELS_MAX_RETRIES)%nat ->
  (PREPARE_MODELS_MAX_RETRIES - k < fuel)%nat ->
  exists r log n,
    prepare_loop fuel create_all randrange k {| calls := k; sleeps := slept |}
      = Some (r, log) /\
    (k <= n <= PREPARE_MODELS_MAX_RETRIES)%nat /\
    calls log = S n /\
    sleeps log = (slept ++ List.map (Spec.backoff randrange) (seq k (n - k)))%list /\
    (forall i, (k <= i < n)%nat ->
               exists e, create_all i = Raise e /\ is_DatabaseError e = true) /\
    match create_all n with
    | Ok _ => r = Ok tt
    | Raise e =>
        r = Raise e /\ (is_DatabaseError e = false \/ n = PREPARE_MODELS_MAX_RETRIES)
    end.
Proof.
  unfold PREPARE_MODELS_MAX_RETRIES.
  revert k slept. induction fuel as [|fuel IH]; intros k slept Hk Hfuel; [lia|].
  cbn [prepare_loop calls sleeps].
  destruct (create_all k) as [u|e] eqn:Hcall.
  - exists (Ok tt), {| calls := S k; sleeps := slept |}, k.
    rewrite Nat.sub_diag, Hcall. cbn. rewrite app_nil_r.
    repeat split; try lia; intros; lia.
  - destruct (is_DatabaseError e) eqn:Hdb.
    + unfold PREPARE_MODELS_MAX_RETRIES. destruct (Nat.ltb_spec k 10) as [Hlt|Hge].
      * destruct (IH (S k) (slept ++ [Spec.backoff randrange k])%list)
          as (r & log & n & Hrun & Hn & Hcalls & Hsleeps & Hfail & Hlast); [lia|lia|].
        exists r, log, n. split; [exact Hrun|]. split; [lia|]. split; [exact Hcalls|].
        split; [|split; [|exact Hlast]].
        -- rewrite Hsleeps, <- app_assoc. f_equal.
           replace (n - k)%nat with (S (n - S k)) by lia. reflexivity.
        -- intros i Hi. destruct (decide (i = k)) as [->|Hne].
           ++ exists e. split; assumption.
           ++ apply Hfail. lia.
      * exists (Raise e), {| calls := S k; sleeps := slept |}, k.
        rewrite Nat.sub_diag, Hcall. cbn. rewrite app_nil_r.
        repeat split; try lia; intros; lia.
    + exists (Raise e), {| calls := S k; sleeps := slept |}, k.
      rewrite Nat.sub_diag, Hcall. cbn. rewrite app_nil_r.
      repeat split; try lia; try (intros; lia). now left.
Qed.

(** C9. With fuel for the eleven calls, [_prepare_models] ends. It called
    [create_all] at most eleven times, one first call and at most ten
    retries, every call but the last having raised a database error, and it
    slept before every retry, for a random time between 0 and
    [min(1000, 10 * 2^i)] milliseconds before the retry number [i]. A call
    that succeeds is the last one: the meta row is then initialised. An
    error that is no database error, or the database error of the eleventh
    call, is raised as it is, and the database stays as it was. *)
Theorem C9_prepare_models_retries (fuel : nat) (now : Z) (db : Store) :
  (PREPARE_MODELS_MAX_RETRIES < fuel)%nat ->
  exists r db' log n,
    _prepare_models fuel create_all randrange now db = Some (r, db', log) /\
    calls log = S n /\
    (n <= PREPARE_MODELS_MAX_RETRIES)%nat /\
    sleeps log = List.map (Spec.backoff randrange) (seq 0 n) /\
    length (sleeps log) = n /\
    (forall i ms, sleeps log !! i = Some ms ->
                  (0 <= ms <= Z.min 1000 (10 * 2 ^ Z.of_nat i))%Z) /\
    (forall i, (i < n)%nat ->
               exists e, create_all i = Raise e /\ is_DatabaseError e = true) /\
    match create_all n with
    | Ok _ =>
        r = Ok tt /\
        db' = snd (CeleryTasksScheduleMetaModel.init_last_updated_at now db)
    | Raise e =>
        r = Raise e /\ db' = db /\
        (is_DatabaseError e = false \/ n = PREPARE_MODELS_MAX_RETRIES)
    end.
Proof.
  intros Hfuel.
  destruct (prepare_loop_spec fuel 0 []) as (r & log & n & Hrun & Hn & Hcalls & Hsl & Hfail & Hlast);
    [lia|lia|].
  rewrite Nat.sub_0_r in Hsl. cbn [app] in Hsl.
  unfold _prepare_models. rewrite Hrun.
  assert (length (sleeps log) = n) as Hlen.
  { rewrite Hsl, length_map, length_seq. reflexivity. }
  assert (forall i ms, sleeps log !! i = Some ms ->
                       (0 <= ms <= Z.min 1000 (10 * 2 ^ Z.of_nat i))%Z) as Hbounds.
  { intros i ms Hi. rewrite Hsl in Hi.
    apply list_lookup_fmap_Some in Hi. destruct Hi as (j & -> & Hj).
    apply lookup_seq in Hj. destruct Hj as [-> _]. apply backoff_bounds. }
  destruct (create_all n) as [u|e] eqn:Hcall.
  - subst r. exists (Ok tt),
      (snd (CeleryTasksScheduleMetaModel.init_last_updated_at now db)), log, n.
    rewrite Hcall. split.
    { unfold CeleryTasksScheduleMetaModel.init_last_updated_at, transaction.
      destruct (celery_tasks_schedule_meta db); reflexivity. }
    split; [exact Hcalls|]. split; [lia|]. split; [exact Hsl|].
    split; [exact Hlen|]. split; [exact Hbounds|].
    split; [intros i Hi; apply Hfail; lia|]. split; reflexivity.
  - destruct Hlast as [-> Hwhy]. exists (Raise e), db, log, n.
    rewrite Hcall. split; [reflexivity|].
    split; [exact Hcalls|]. split; [lia|]. split; [exact Hsl|].
    split; [exact Hlen|]. split; [exact Hbounds|].
    split; [intros i Hi; apply Hfail; lia|].
    split; [reflexivity|]. split; [reflexivity|exact Hwhy].
Qed.

End Bootstrap.

(** ** The properties on the sample data *)

Section Examples.
Local Existing Instance Sample.libraries.
Import CeleryTasksScheduleModel UnitOfWork DatabaseScheduler.

(** C3, refuted as stated: a bulk insert stores a schedule row and leaves
    the change clock at its old value; and the bump of a listener is a
    transaction of its own, which a rollback of the change of the rows does
    not undo. *)
Lemma C3_bulk_insert_leaves_clock :
  bulk_insert [Sample.entry "ping" "[]" "{}" "* * * * *" "ping"] Sample.db0
    = (Ok tt, Sample.db1)
  /\ celery_tasks_schedule Sample.db0 = []
  /\ length (celery_tasks_schedule Sample.db1) = 1%nat
  /\ celery_tasks_schedule_meta Sample.db1 = celery_tasks_schedule_meta Sample.db0
  /\ flush Sample.tasks (Insert Sample.ping_target) 200 (begin Sample.db0)
       = (Ok tt, Sample.session)
  /\ celery_tasks_schedule_meta (rollback Sample.session) = Some 200%Z
  /\ celery_tasks_schedule (rollback Sample.session) = [].
Proof. vm_compute. repeat split. Qed.

Lemma C3_listener_bumps_clock_in_own_transaction_witness :
  celery_tasks_schedule_meta Sample.db0 = Some 100%Z
  /\ flush Sample.tasks (Insert Sample.ping_target) 200 (begin Sample.db0)
       = (Ok tt, Sample.session)
  /\ celery_tasks_schedule_meta (committed Sample.session) = Some 200%Z
  /\ celery_tasks_schedule (committed Sample.session) = []
  /\ celery_tasks_schedule_meta (commit Sample.session) = Some 200%Z
  /\ celery_tasks_schedule_meta (rollback Sample.session) = Some 200%Z.
Proof.
  assert (celery_tasks_schedule_meta Sample.db0 = Some 100%Z) as Hclock by reflexivity.
  assert (flush Sample.tasks (Insert Sample.ping_target) 200 (begin Sample.db0)
          = (Ok tt, Sample.session)) as Hflush by (vm_compute; reflexivity).
  destruct (C3_listener_bumps_clock_in_own_transaction Sample.tasks
              (Insert Sample.ping_target) 200 100 Sample.db0 Sample.session Hclock Hflush)
    as ((_ & _ & Hbump & Hrows) & (_ & Hcommit & _) & (Hroll & _) & _).
  repeat split; assumption.
Defined.

(** C8, refuted as stated: the application knows the task [ping] only, the
    table holds a row for the task [ghost], and the reload puts that row
    into the schedule, logs nothing and does not raise. *)
Lemma C8_reload_keeps_unknown_task :
  Sample.tasks !! Db.task Sample.ghost_target = None
  /\ celery_tasks_schedule Sample.db_ghost = [Sample.ghost_target]
  /\ exists entries,
       _get_enabled_tasks Sample.db_ghost = (Ok entries, []) /\
       entries !! "ghost" = Some Sample.ghost_entry.
Proof.
  split; [vm_compute; reflexivity|]. split; [reflexivity|].
  assert (NoDup (keys (celery_tasks_schedule Sample.db_ghost))) as Hnd
    by (apply NoDup_singleton).
  destruct (get_enabled_tasks_spec Sample.db_ghost Hnd) as (entries & Hrun & Hlook & _).
  exists entries. split.
  - rewrite Hrun. f_equal.
  - apply Hlook. exists Sample.ghost_target. split; [left|]. split; reflexivity.
Qed.

Lemma C8_unknown_task_rejected_on_write_only_witness :
  Sample.tasks !! Db.task Sample.ghost_target = None
  /\ write Sample.tasks (Insert Sample.ghost_target) 200 Sample.db0
       = (Raise (mkExc RuntimeError "Task 'ghost' does not exist"), Sample.db0)
  /\ write Sample.tasks (Update Sample.ghost_target) 200 Sample.db_ghost
       = (Raise (mkExc RuntimeError "Task 'ghost' does not exist"), Sample.db_ghost).
Proof.
  assert (Sample.tasks !! Db.task Sample.ghost_target = None) as Hunknown
    by (vm_compute; reflexivity).
  split; [exact Hunknown|]. split.
  - exact (proj1 (C8_unknown_task_rejected_on_write_only Sample.tasks
                    Sample.ghost_target 200 Sample.db0 Hunknown)).
  - exact (proj1 (proj2 (C8_unknown_task_rejected_on_write_only Sample.tasks
                           Sample.ghost_target 200 Sample.db_ghost Hunknown))).
Defined.

Lemma C10_validated_write_stores_computed_key_witness :
  write Sample.tasks (Insert Sample.ping_target) 200 Sample.db0 = (Ok tt, Sample.written)
  /\ exists row,
       row ∈ celery_tasks_schedule Sample.written /\
       Db.task_key row = "ping-1-2" /\
       Db.args row = "[1, 2]" /\
       Spec.key_invariant row.
Proof.
  assert (write Sample.tasks (Insert Sample.ping_target) 200 Sample.db0
          = (Ok tt, Sample.written)) as Hw by (vm_compute; reflexivity).
  split; [exact Hw|].
  destruct (C10_validated_write_stores_computed_key Sample.tasks true
              Sample.ping_target 200 Sample.db0 Sample.written Hw)
    as (a & k & key & row & Ha & Hk & Hkey & -> & Hin & Hinv & _).
  eexists. split; [exact Hin|]. split; [|split; [reflexivity|exact Hinv]].
  vm_compute in Ha. injection Ha as <-.
  vm_compute in Hk. injection Hk as <-.
  vm_compute in Hkey. injection Hkey as <-. reflexivity.
Defined.

(** The key of the caller never reaches the table. *)
Example written_key :
  List.map Db.task_key (celery_tasks_schedule Sample.written) = ["ping-1-2"]
  /\ celery_tasks_schedule_meta Sample.written = Some 200%Z.
Proof. vm_compute. split; reflexivity. Qed.

Lemma C1_need_update_iff_stale_witness :
  celery_tasks_schedule_meta Sample.db0 = Some 100%Z
  /\ _need_update (Sample.scheduler (Some 24000000%Z)) 25000000 Sample.db0 = Ok false.
Proof.
  assert (celery_tasks_schedule_meta Sample.db0 = Some 100%Z) as Hclock by reflexivity.
  split; [exact Hclock|].
  destruct (C1_need_update_iff_stale (Sample.scheduler (Some 24000000%Z))
              25000000 100 Sample.db0 Hclock) as (b & Hrun & _ & Hfresh).
  destruct (Hfresh 24000000%Z eq_refl) as [-> _].
  - vm_compute. discriminate.
  - vm_compute. discriminate.
  - exact Hrun.
Defined.

Lemma C2_quiet_window_suppresses_refresh_witness :
  (max_interval (Sample.scheduler (Some 50%Z)) < 30)%Q
  /\ _need_update (Sample.scheduler (Some 50%Z)) 55000000 Sample.db0 = Ok false
  /\ _need_update (Sample.scheduler (Some 50%Z)) 25000000 Sample.db0 = Ok true.
Proof.
  assert ((max_interval (Sample.scheduler (Some 50%Z)) < 30)%Q) as Hfast
    by (vm_compute; reflexivity).
  split; [exact Hfast|]. split.
  - apply (C2_quiet_window_suppresses_refresh (Sample.scheduler (Some 50%Z))
             55000000 Sample.db0 Hfast).
    right. vm_compute. split; reflexivity.
  - apply (proj2 (C2_quiet_window_suppresses_refresh (Sample.scheduler (Some 50%Z))
                    25000000 Sample.db0 Hfast)) with (clock := 100%Z); [|reflexivity].
    vm_compute. intros [[_ Hlt]|[Hgt _]]; discriminate.
Defined.

Lemma randrange_in_range (i : nat) (n : Z) :
  (0 < n)%Z -> (0 <= Sample.randrange i n < n)%Z.
Proof. intros Hn. unfold Sample.randrange. apply Z.mod_pos_bound. exact Hn. Qed.

Lemma C9_prepare_models_retries_witness :
  (forall (i : nat) (n : Z), (0 < n)%Z -> (0 <= Sample.randrange i n < n)%Z)
  /\ (PREPARE_MODELS_MAX_RETRIES < 11)%nat
  /\ exists r db' log,
       _prepare_models 11 Sample.create_all_fourth Sample.randrange 500 Sample.db0
         = Some (r, db', log) /\
       (calls log <= 11)%nat /\ length (sleeps log) = pred (calls log).
Proof.
  assert (PREPARE_MODELS_MAX_RETRIES < 11)%nat as Hfuel by (unfold PREPARE_MODELS_MAX_RETRIES; lia).
  split; [exact randrange_in_range|]. split; [exact Hfuel|].
  destruct (C9_prepare_models_retries Sample.create_all_fourth Sample.randrange
              randrange_in_range 11 500 Sample.db0 Hfuel)
    as (r & db' & log & n & Hrun & Hcalls & Hn & _ & Hlen & _).
  exists r, db', log. split; [exact Hrun|].
  rewrite Hcalls, Hlen. unfold PREPARE_MODELS_MAX_RETRIES in Hn. split; [lia|reflexivity].
Defined.

(** Three refusals: four calls, three pauses of at most 10, 20 and 40
    milliseconds, and the meta row is kept. *)
Example prepare_models_fourth_call :
  _prepare_models 11 Sample.create_all_fourth Sample.randrange 500 Sample.db0
  = Some (Ok tt, Sample.db0, {| calls := 4; sleeps := [3; 10; 17]%Z |}).
Proof. vm_compute. reflexivity. Qed.

(** A database that never answers: eleven calls, ten pauses, and the last
    error leaves [_prepare_models]; more fuel changes nothing. *)
Example prepare_models_exhausted :
  _prepare_models 11 Sample.create_all_never Sample.randrange 500 Sample.db0
  = Some (Raise Sample.busy, Sample.db0,
          {| calls := 11; sleeps := [3; 10; 17; 24; 31; 38; 45; 52; 59; 66]%Z |})
  /\ _prepare_models 50 Sample.create_all_never Sample.randrange 500 Sample.db0
     = _prepare_models 11 Sample.create_all_never Sample.randrange 500 Sample.db0.
Proof. vm_compute. split; reflexivity. Qed.

(** The example of the specification for the key, and a nested value. *)
Example key_nested :
  get_task_key "t" (PyList [PyList [PyStr "a b"; PyInt (-3)]]) (PyDict [])
  = Ok "t-ab-3".
Proof. reflexivity. Qed.

End Examples.

(** * Further properties of the package *)

(** ** The entry key, continued *)

Section EntryKeyMore.

Lemma string_app_assoc (a b c : string) : (a ++ b) ++ c = a ++ (b ++ c).
Proof.
  induction a as [|x a IH]; [reflexivity|].
  change (String x ((a ++ b) ++ c) = String x (a ++ (b ++ c))). now rewrite IH.
Qed.

Lemma string_app_nil_r (a : string) : a ++ "" = a.
Proof.
  induction a as [|x a IH]; [reflexivity|].
  change (String x (a ++ "") = String x a). now rewrite IH.
Qed.

Lemma rstrip_snoc (c : ascii) (w : string) :
  rstrip c (w ++ String c EmptyString) = rstrip c w.
Proof.
  induction w as [|a w IH].
  - change (rstrip c (String c EmptyString) = EmptyString). simpl.
    now rewrite Ascii.eqb_refl.
  - change (rstrip c (String a (w ++ String c EmptyString)) = rstrip c (String a w)).
    simpl. now rewrite IH.
Qed.

Lemma lstrip_snoc (c : ascii) (x : string) :
  lstrip c (x ++ String c EmptyString) =
  match lstrip c x with
  | EmptyString => EmptyString
  | w => w ++ String c EmptyString
  end.
Proof.
  induction x as [|a x IH].
  - change (lstrip c (String c EmptyString) = EmptyString). simpl.
    now rewrite Ascii.eqb_refl.
  - change (lstrip c (String a (x ++ String c EmptyString)) =
            match lstrip c (String a x) with
            | EmptyString => EmptyString
            | w => w ++ String c EmptyString
            end).
    simpl. destruct (Ascii.eqb a c); [exact IH|reflexivity].
Qed.

(** A character [c] at the end does not survive [strip c]. *)
Lemma strip_snoc (c : ascii) (x : string) :
  strip c (x ++ String c EmptyString) = strip c x.
Proof.
  unfold strip. rewrite lstrip_snoc.
  destruct (lstrip c x) as [|a w] eqn:E; [reflexivity|].
  apply rstrip_snoc.
Qed.

(** The text before the pattern is applied, for a list of positional values
    and no keyword. *)
Lemma key_text_no_kwargs (name : string) (elems : list PyVal) :
  get_task_key name (PyList elems) (PyDict []) =
  Ok (re_sub_class stripped_class
        (strip "-" (name ++ "-" ++ String.concat "-" (List.map py_str elems)))).
Proof.
  unfold get_task_key. cbn.
  assert (name ++ "-" ++ String.concat "-" (List.map py_str elems) ++ "-" ++ ""
          = (name ++ "-" ++ String.concat "-" (List.map py_str elems))
              ++ String "-" EmptyString) as E.
  { rewrite !string_app_assoc. reflexivity. }
  rewrite E, strip_snoc. reflexivity.
Qed.

Lemma key_no_arguments (name : string) :
  get_task_key name (PyList []) (PyDict []) =
  Ok (re_sub_class stripped_class (strip "-" name)).
Proof.
  rewrite key_text_no_kwargs.
  change (name ++ "-" ++ String.concat "-" (List.map py_str []))
    with (name ++ String "-" EmptyString).
  now rewrite strip_snoc.
Qed.

(** X1. Whatever the task name and the arguments, a key that
    [get_task_key] returns holds no bracket, brace, parenthesis, comma,
    space, single quote or double quote. *)
Theorem X1_key_without_stripped_characters
  (name : string) (args kwargs : PyVal) (key : string) (c : ascii) :
  get_task_key name args kwargs = Ok key ->
  In c stripped_class ->
  contains c key = false.
Proof. intros Hkey Hc. eapply get_task_key_strips; eassumption. Qed.

Lemma X1_key_without_stripped_characters_witness :
  get_task_key "report" (PyList [PyList [PyStr "a b"; PyInt 1]])
               (PyDict [("to", PyDict [("x", PyNone)])])
  = Ok "report-ab1-to-x:None"
  /\ In " "%char stripped_class
  /\ contains " " "report-ab1-to-x:None" = false.
Proof.
  assert (get_task_key "report" (PyList [PyList [PyStr "a b"; PyInt 1]])
                       (PyDict [("to", PyDict [("x", PyNone)])])
          = Ok "report-ab1-to-x:None") as Hkey by reflexivity.
  assert (In " "%char stripped_class) as Hin by (vm_compute; tauto).
  split; [exact Hkey|]. split; [exact Hin|].
  exact (X1_key_without_stripped_characters _ _ _ _ _ Hkey Hin).
Defined.


(** X3. The key does not tell the task name from the positional arguments:
    a task called with the values [elems] and no keyword has the key of the
    task whose name is the first name, a dash and the values joined by
    dashes, called without arguments. *)
Theorem X3_key_folds_arguments_into_name (name : string) (elems : list PyVal) :
  get_task_key name (PyList elems) (PyDict []) =
  get_task_key (name ++ "-" ++ String.concat "-" (List.map py_str elems))
               (PyList []) (PyDict []).
Proof. rewrite key_no_arguments. apply key_text_no_kwargs. Qed.

(** X4. A task without arguments has its own name as key, once the dashes
    at both ends of the name and the characters of the pattern are taken
    out of it. *)
Theorem X4_key_of_task_without_arguments (name : string) :
  get_task_key name (PyList []) (PyDict []) =
  Ok (re_sub_class stripped_class (strip "-" name)).
Proof. apply key_no_arguments. Qed.

End EntryKeyMore.

(** ** The category of a task *)

Section TaskCategory.
Import UtilsRest.

Lemma split_on_pieces (sep : ascii) (s : string) :
  split_on sep s <> [] /\
  Forall (fun w => contains sep w = false) (split_on sep s).
Proof.
  induction s as [|c s [Hne Hall]]; simpl.
  - split; [discriminate|]. repeat constructor.
  - destruct (Ascii.eqb c sep) eqn:Hc.
    + split; [discriminate|]. constructor; [reflexivity|exact Hall].
    + destruct (split_on sep s) as [|w ws]; [contradiction|].
      split; [discriminate|]. inversion Hall as [|? ? Hw Hws]; subst.
      constructor; [|exact Hws]. simpl. now rewrite Hc.
Qed.

Lemma last_item_in (l : list string) :
  l <> [] -> exists x, last_item l = Ok x /\ In x l.
Proof.
  intros Hne. unfold last_item. destruct (List.rev l) as [|x r] eqn:E.
  - exfalso. apply Hne. rewrite <- (rev_involutive l), E. reflexivity.
  - exists x. split; [reflexivity|]. apply in_rev. rewrite E. now left.
Qed.

Lemma replace_without_dot (s : string) :
  contains "." s = false -> replace ".tasks" "" s = s.
Proof.
  unfold replace. induction s as [|c s IH]; [reflexivity|].
  cbn [contains replace_from startswith].
  rewrite (Ascii.eqb_sym "." c).
  destruct (Ascii.eqb c ".") eqn:Hc; [discriminate|]. intros Hs.
  cbn [andb]. now rewrite IH.
Qed.

Lemma split_on_without_sep (sep : ascii) (s : string) :
  contains sep s = false -> split_on sep s = [s].
Proof.
  induction s as [|c s IH]; [reflexivity|].
  simpl. destruct (Ascii.eqb c sep); [discriminate|]. intros Hs.
  now rewrite IH.
Qed.

(** X5. [get_task_category] never raises; the category it returns holds no
    dot, and a module name without a dot is its own category. *)
Theorem X5_category_has_no_dot (task_module : string) :
  exists category,
    get_task_category task_module = Ok category /\
    contains "." category = false /\
    (contains "." task_module = false -> category = task_module).
Proof.
  unfold get_task_category.
  destruct (split_on_pieces "." (replace ".tasks" "" task_module)) as [Hne Hall].
  destruct (last_item_in _ Hne) as (x & Hlast & Hin).
  exists x. split; [exact Hlast|]. split.
  - rewrite Forall_forall in Hall. apply Hall, list_elem_of_In, Hin.
  - intros Hdot.
    rewrite (replace_without_dot _ Hdot), (split_on_without_sep _ _ Hdot) in Hlast.
    cbn in Hlast. congruence.
Qed.

(** The two examples of the docstring, and the module [tasks] itself. *)
Example category_of_docstring :
  get_task_category "src.apps.users.tasks" = Ok "users"
  /\ get_task_category "src.apps.base.tasks.tasks" = Ok "base"
  /\ get_task_category "tasks" = Ok "tasks"
  /\ get_task_category "app.tasksets.daily" = Ok "daily".
Proof. repeat split; reflexivity. Qed.

End TaskCategory.

(** ** Bind parameters of the bulk statements *)

Section Bindparams.
Import UtilsRest BindparamDbSchema.
Local Existing Instance CeleryTasksDbSchema.dataclass.

Lemma string_length_app (a b : string) :
  String.length (a ++ b) = (String.length a + String.length b)%nat.
Proof.
  induction a as [|x a IH]; [reflexivity|].
  change (S (String.length (a ++ b)) = S (String.length a + String.length b)).
  now rewrite IH.
Qed.

(** Two names with the same bind parameter are the same name. *)
Lemma db_bindparam_inj (f g : string) : db_bindparam f = db_bindparam g -> f = g.
Proof.
  unfold db_bindparam. revert g. induction f as [|x f IH]; intros [|y g] E.
  - reflexivity.
  - exfalso. apply (f_equal String.length) in E.
    rewrite !string_length_app in E. cbn [String.length] in E. lia.
  - exfalso. apply (f_equal String.length) in E.
    rewrite !string_length_app in E. cbn [String.length] in E. lia.
  - change (String x (f ++ "_value") = String y (g ++ "_value")) in E.
    injection E as -> E. f_equal. now apply IH.
Qed.

(** A dict comprehension, read at a key it did not write and at a key it
    wrote. *)
Lemma comprehension_other {V} (k : string -> string) (v : string -> V)
  (l : list string) (m : gmap string V) (key : string) :
  (forall f, In f l -> k f <> key) ->
  fold_left (fun m f => <[k f := v f]> m) l m !! key = m !! key.
Proof.
  revert m. induction l as [|f l IH]; intros m Hout; [reflexivity|].
  cbn [fold_left]. rewrite IH.
  - apply lookup_insert_ne, Hout. now left.
  - intros g Hg. apply Hout. now right.
Qed.

Lemma comprehension_written {V} (k : string -> string) (v : string -> V)
  (l : list string) (m : gmap string V) (f : string) :
  (forall a b, k a = k b -> a = b) ->
  In f l ->
  fold_left (fun m f => <[k f := v f]> m) l m !! k f = Some (v f).
Proof.
  intros Hinj. revert m. induction l as [|g l IH]; intros m Hin; [contradiction|].
  cbn [fold_left]. destruct (in_dec string_dec f l) as [Hl|Hl].
  - now apply IH.
  - destruct Hin as [->|Hin]; [|contradiction].
    rewrite comprehension_other.
    + apply lookup_insert_eq.
    + intros a Ha E. apply Hinj in E. congruence.
Qed.

Lemma get_bindparams_lookup {T : Type} `{!Dataclass T} (exclude : list string)
  (f p : string) :
  get_bindparams (T := T) exclude !! f = Some p <->
  In f (fields (T := T)) /\ ~ In f exclude /\ p = db_bindparam f.
Proof.
  unfold get_bindparams.
  destruct (in_dec string_dec f (filter (λ f, f ∉ exclude) (fields (T := T))))
    as [Hin|Hout].
  - rewrite (comprehension_written (fun f => f) db_bindparam) by (auto || exact Hin).
    apply list_elem_of_In, list_elem_of_filter in Hin. destruct Hin as [Hex Hin].
    rewrite list_elem_of_In in Hex. apply list_elem_of_In in Hin.
    split; [intros E; injection E as <-; tauto|]. intros (_ & _ & ->). reflexivity.
  - rewrite comprehension_other by (intros g Hg ->; contradiction).
    rewrite lookup_empty. split; [discriminate|]. intros (Hin & Hex & _).
    exfalso. apply Hout, list_elem_of_In, list_elem_of_filter.
    split; [rewrite list_elem_of_In; exact Hex|apply list_elem_of_In, Hin].
Qed.

Lemma model_dump_lookup {T : Type} `{!Dataclass T} (self : T) (f : string) :
  In f (fields (T := T)) ->
  model_dump self !! db_bindparam f = Some (getattr self f).
Proof.
  intros Hin. unfold model_dump.
  apply (comprehension_written db_bindparam (getattr self));
    [exact db_bindparam_inj|exact Hin].
Qed.

(** X6. For a schema and a list of excluded fields, [get_bindparams] names
    a bind parameter for exactly the fields that are not excluded, the
    parameter [db_bindparam] of the field; and [model_dump] gives every
    field's value under that parameter, so that every parameter of a
    statement built with [get_bindparams] finds its value. *)
Theorem X6_bindparams_find_their_values
  {T : Type} `{!Dataclass T} (self : T) (exclude : list string) (f p : string) :
  (get_bindparams (T := T) exclude !! f = Some p <->
   In f (fields (T := T)) /\ ~ In f exclude /\ p = db_bindparam f)
  /\ (get_bindparams (T := T) exclude !! f = Some p ->
      model_dump self !! p = Some (getattr self f)).
Proof.
  split; [apply get_bindparams_lookup|].
  intros Hp. apply get_bindparams_lookup in Hp. destruct Hp as (Hin & _ & ->).
  now apply model_dump_lookup.
Qed.

(** The parameters the WHERE clause of [bulk_update] writes by hand are
    parameters of [model_dump] too, and [tags] is not among the values of
    its statement. *)
Example bulk_update_where_parameters (d : CeleryTasksDbSchema.t) :
  model_dump d !! "task_value" = Some (FStr (CeleryTasksDbSchema.task d))
  /\ model_dump d !! "params_value" = Some (FStr (CeleryTasksDbSchema.params d))
  /\ model_dump d !! "description_value"
     = Some (FStr (CeleryTasksDbSchema.description d))
  /\ get_bindparams (T := CeleryTasksDbSchema.t) ["tags"] !! "tags" = None.
Proof.
  split; [|split; [|split]].
  - change (model_dump d !! db_bindparam "task" = Some (getattr d "task")).
    apply model_dump_lookup. cbn. tauto.
  - change (model_dump d !! db_bindparam "params" = Some (getattr d "params")).
    apply model_dump_lookup. cbn. tauto.
  - change (model_dump d !! db_bindparam "description" = Some (getattr d "description")).
    apply model_dump_lookup. cbn. tauto.
  - destruct (get_bindparams (T := CeleryTasksDbSchema.t) ["tags"] !! "tags") as [p|] eqn:E;
      [|reflexivity].
    apply get_bindparams_lookup in E.
    exfalso. destruct E as (_ & Hex & _). apply Hex. now left.
Qed.

End Bindparams.

(** ** The change clock and the refresh, continued *)

Section RefreshMore.
Context `{Libraries}.
Import DatabaseScheduler CeleryTasksScheduleMetaModel.

(** X7. [init_last_updated_at] returns, and after it the change clock is
    stored: the clock that was there, untouched, or else the current time.
    It changes nothing else, and a second call changes nothing at all. *)
Theorem X7_init_stores_the_clock_once (now now2 : Z) (db : Store) :
  fst (init_last_updated_at now db) = Ok tt
  /\ celery_tasks_schedule_meta (snd (init_last_updated_at now db))
     = Some (default now (celery_tasks_schedule_meta db))
  /\ celery_tasks_schedule (snd (init_last_updated_at now db)) = celery_tasks_schedule db
  /\ celery_tasks (snd (init_last_updated_at now db)) = celery_tasks db
  /\ init_last_updated_at now2 (snd (init_last_updated_at now db))
     = (Ok tt, snd (init_last_updated_at now db)).
Proof.
  unfold init_last_updated_at, transaction.
  destruct (celery_tasks_schedule_meta db) eqn:E; cbn; rewrite ?E; repeat split.
Qed.

(** X8. Without the row of the change clock, no bump creates it, and a tick
    outside the quiet window of a scheduler that was refreshed within the
    last five minutes raises [TypeError], out of [_need_update] and out of
    the access to the schedule; a scheduler never refreshed, or refreshed
    longer ago, is refreshed without a look at the clock. *)
Theorem X8_missing_clock_row (self : t) (now : Z) (db : Store) :
  celery_tasks_schedule_meta db = None ->
  ~ ((max_interval self < 30)%Q /\ Spec.in_quiet_window (second now)) ->
  (forall at_, celery_tasks_schedule_meta (snd (update_last_updated_at at_ db)) = None)
  /\ match _last_updated_at self with
     | None => _need_update self now db = Ok true
     | Some last =>
         if (now - last >? minutes MAX_SYNC_SCHEDULE_INTERVAL)%Z
         then _need_update self now db = Ok true
         else exists e,
             _need_update self now db = Raise e /\ exc_type e = TypeError /\
             forall cleanup now',
               schedule_property cleanup self now now' db = (Raise e, [])
     end.
Proof.
  intros Hclock Hout.
  assert ((if Qlt_le_dec (max_interval self) 30
           then quiet_window (second now) else false) = false) as Hq.
  { destruct (if Qlt_le_dec (max_interval self) 30
              then quiet_window (second now) else false) eqn:E; [|reflexivity].
    exfalso. apply Hout. now apply suppressed_spec. }
  split.
  { intros at_. cbn. now rewrite Hclock. }
  unfold schedule_property, _need_update. cbn [max_interval _last_updated_at].
  rewrite Hq. destruct (_last_updated_at self) as [last|]; [|reflexivity].
  unfold MAX_SYNC_SCHEDULE_INTERVAL.
  destruct (Z.ltb_spec last (now - minutes 5)) as [Hold|Hrecent].
  - replace (now - last >? minutes 5)%Z with true; [reflexivity|].
    symmetry. apply Z.gtb_gt. lia.
  - replace (now - last >? minutes 5)%Z with false
      by (symmetry; rewrite Z.gtb_ltb; apply Z.ltb_ge; lia).
    cbn. rewrite Hclock. eexists. split; [reflexivity|]. split; reflexivity.
Qed.

(** What a refresh leaves in the scheduler. *)
Lemma update_schedule_spec (cleanup : option EntryDict) (self : t) (now : Z) (db : Store)
  (entries : gmap string ScheduleEntry) (log : list string) :
  _get_enabled_tasks db = (Ok entries, log) ->
  _update_schedule cleanup self now db =
  (Ok {| max_interval := max_interval self;
         _schedule :=
           Some match cleanup, entries !! Notions.backend_cleanup with
                | Some e, None =>
                    <[Notions.backend_cleanup := _maybe_entry Notions.backend_cleanup e]>
                      entries
                | _, _ => entries
                end;
         _last_updated_at := Some now |}, log).
Proof.
  intros Hrun. unfold _update_schedule. rewrite Hrun.
  unfold install_default_entries, update_from_dict, schedule_or_empty, Notions.backend_cleanup.
  cbn [_schedule max_interval _last_updated_at].
  destruct cleanup as [e|]; [|reflexivity].
  destruct (entries !! "celery.backend_cleanup"); reflexivity.
Qed.

Lemma get_enabled_tasks_total (db : Store) :
  exists entries log, _get_enabled_tasks db = (Ok entries, log).
Proof.
  destruct (for_rows_total (List.filter Db.enabled (celery_tasks_schedule db)) ∅ [])
    as (entries & Hrun).
  exists entries, (Spec.errors (List.filter Db.enabled (celery_tasks_schedule db))).
  exact Hrun.
Qed.


(** X10. After a refresh at the instant [now], an access to the schedule at
    an instant at most five minutes later asks for no other refresh and
    leaves the scheduler as it is, as long as the change clock is not after
    [now]. *)
Theorem X10_no_refresh_after_refresh
  (cleanup : option EntryDict) (self self' : t) (now now2 now3 clock : Z) (db : Store) :
  celery_tasks_schedule_meta db = Some clock ->
  (clock <= now)%Z ->
  (now2 - now <= minutes MAX_SYNC_SCHEDULE_INTERVAL)%Z ->
  fst (_update_schedule cleanup self now db) = Ok self' ->
  _need_update self' now2 db = Ok false
  /\ schedule_property cleanup self' now2 now3 db = (Ok self', []).
Proof.
  intros Hclock Hfresh Hrecent Hup.
  destruct (get_enabled_tasks_total db) as (entries & log & Hrun).
  rewrite (update_schedule_spec _ _ _ _ _ _ Hrun) in Hup. cbn in Hup.
  injection Hup as <-.
  assert (forall s, _last_updated_at s = Some now -> _need_update s now2 db = Ok false)
    as Hno.
  { intros s Hs.
    destruct (if Qlt_le_dec (max_interval s) 30 then quiet_window (second now2) else false)
      eqn:Hq.
    - now apply need_update_suppressed.
    - rewrite (need_update_stale s now2 clock db Hclock Hq), Hs. f_equal.
      unfold Spec.stale. apply orb_false_iff.
      unfold MAX_SYNC_SCHEDULE_INTERVAL in Hrecent.
      rewrite Z.gtb_ltb, !Z.ltb_ge. lia. }
  split; [now apply Hno|].
  unfold schedule_property. rewrite Hno by reflexivity. reflexivity.
Qed.

End RefreshMore.

Section RefreshExamples.
Local Existing Instance Sample.libraries.
Import DatabaseScheduler CeleryTasksScheduleMetaModel.

Lemma X8_missing_clock_row_witness :
  celery_tasks_schedule_meta Sample2.db_no_clock = None
  /\ ~ ((max_interval (Sample.scheduler (Some 24000000%Z)) < 30)%Q /\
        Spec.in_quiet_window (second 25000000))
  /\ exists e,
       _need_update (Sample.scheduler (Some 24000000%Z)) 25000000 Sample2.db_no_clock
       = Raise e /\ exc_type e = TypeError.
Proof.
  assert (~ ((max_interval (Sample.scheduler (Some 24000000%Z)) < 30)%Q /\
             Spec.in_quiet_window (second 25000000))) as Hout.
  { intros [_ Hq]. vm_compute in Hq. destruct Hq as [[_ Hq]|[Hq _]]; discriminate. }
  split; [reflexivity|]. split; [exact Hout|].
  destruct (X8_missing_clock_row (Sample.scheduler (Some 24000000%Z)) 25000000
              Sample2.db_no_clock eq_refl Hout) as [_ (e & Hrun & Htype & _)].
  exists e. split; assumption.
Defined.

Lemma X10_no_refresh_after_refresh_witness :
  celery_tasks_schedule_meta Sample.db0 = Some 100%Z
  /\ (100 <= 24000000)%Z
  /\ (25000000 - 24000000 <= minutes MAX_SYNC_SCHEDULE_INTERVAL)%Z
  /\ fst (_update_schedule None (Sample.scheduler None) 24000000 Sample.db0)
     = Ok Sample2.refreshed_scheduler
  /\ _need_update Sample2.refreshed_scheduler 25000000 Sample.db0 = Ok false.
Proof.
  assert (25000000 - 24000000 <= minutes MAX_SYNC_SCHEDULE_INTERVAL)%Z as Hrecent
    by (vm_compute; discriminate).
  assert (fst (_update_schedule None (Sample.scheduler None) 24000000 Sample.db0)
          = Ok Sample2.refreshed_scheduler) as Hup by reflexivity.
  split; [reflexivity|]. split; [lia|]. split; [exact Hrecent|]. split; [exact Hup|].
  apply (X10_no_refresh_after_refresh None (Sample.scheduler None)
           Sample2.refreshed_scheduler 24000000 25000000 0 100 Sample.db0
           eq_refl ltac:(lia) Hrecent Hup).
Defined.

End RefreshExamples.

(** ** The reload, continued *)

Section ReloadMore.
Context `{Libraries}.
Import DatabaseScheduler CeleryTasksScheduleModel.

Lemma filter_enabled_twice (l : list ScheduleRow) :
  List.filter Db.enabled (List.filter (fun x => negb (negb (Db.enabled x))) l)
  = List.filter Db.enabled l.
Proof.
  induction l as [|x l IH]; [reflexivity|].
  cbn [List.filter]. destruct (Db.enabled x) eqn:E; cbn [negb List.filter];
    rewrite ?E, IH; reflexivity.
Qed.

Lemma unique_key_row (l : list ScheduleRow) (r r' : ScheduleRow) :
  NoDup (keys l) -> In r l -> In r' l -> Db.task_key r = Db.task_key r' -> r = r'.
Proof.
  induction l as [|x l IH]; intros Hnd Hr Hr' Hk; [contradiction|].
  cbn [keys List.map] in Hnd. apply NoDup_cons in Hnd. destruct Hnd as [Hx Hnd].
  destruct Hr as [->|Hr], Hr' as [->|Hr'].
  - reflexivity.
  - exfalso. apply Hx. rewrite Hk. apply list_elem_of_In, in_map, Hr'.
  - exfalso. apply Hx. rewrite <- Hk. apply list_elem_of_In, in_map, Hr.
  - now apply IH.
Qed.

(** X11. A reload reads the enabled rows only: it gives the same schedule
    and the same log when the disabled rows are deleted from the table, and
    with the unique keys of the table a disabled row has no entry in the
    schedule. *)
Theorem X11_disabled_rows_do_not_load (db : Store) :
  _get_enabled_tasks db
  = _get_enabled_tasks (delete_rows (fun x => negb (Db.enabled x)) db)
  /\ (NoDup (keys (celery_tasks_schedule db)) ->
      forall row, In row (celery_tasks_schedule db) -> Db.enabled row = false ->
      exists entries log,
        _get_enabled_tasks db = (Ok entries, log) /\
        entries !! Db.task_key row = None).
Proof.
  split.
  - unfold _get_enabled_tasks, select_enabled_entries, transaction, delete_rows.
    cbn [fst celery_tasks_schedule]. now rewrite filter_enabled_twice.
  - intros Hnd row Hrow Hoff.
    destruct (get_enabled_tasks_spec db Hnd) as (entries & Hrun & Hlook & _).
    exists entries, (Spec.errors (List.filter Db.enabled (celery_tasks_schedule db))).
    split; [exact Hrun|].
    destruct (entries !! Db.task_key row) as [e|] eqn:E; [|reflexivity].
    apply Hlook in E. destruct E as (row' & Hin & Hkey & _).
    apply list_elem_of_In, filter_In in Hin. destruct Hin as [Hin Hon].
    rewrite (unique_key_row _ _ _ Hnd Hin Hrow Hkey) in Hon. congruence.
Qed.

Lemma split_from_word (w cur rest : string) :
  Spec.all_chars (fun c => negb (is_space c)) w = true ->
  split_from cur (w ++ rest) = split_from (cur ++ w) rest.
Proof.
  revert cur. induction w as [|c w IH]; intros cur Hw.
  - now rewrite string_app_nil_r.
  - cbn [Spec.all_chars] in Hw. apply andb_true_iff in Hw. destruct Hw as [Hc Hw].
    change (String c w ++ rest) with (String c (w ++ rest)).
    cbn [split_from]. apply negb_true_iff in Hc. rewrite Hc, (IH _ Hw).
    f_equal. apply string_app_assoc.
Qed.

Lemma split_from_space (cur rest : string) :
  cur <> EmptyString ->
  split_from cur (String " " rest) = cur :: split_from "" rest.
Proof.
  intros Hcur. cbn [split_from].
  replace (is_space " ") with true by reflexivity.
  destruct (String.eqb_spec cur ""); [contradiction|reflexivity].
Qed.

Lemma split_from_end (cur : string) :
  cur <> EmptyString -> split_from cur "" = [cur].
Proof.
  intros Hcur. cbn [split_from].
  destruct (String.eqb_spec cur ""); [contradiction|reflexivity].
Qed.

(** The text of a word, a space and more splits off the word. *)
Lemma split_word_space (w rest : string) :
  Notions.word w -> split (w ++ " " ++ rest) = w :: split rest.
Proof.
  intros [Hne Hw]. unfold split. change (" " ++ rest) with (String " " rest).
  rewrite (split_from_word w "" _ Hw).
  change ("" ++ w) with w. now apply split_from_space.
Qed.

Lemma split_word (w : string) : Notions.word w -> split w = [w].
Proof.
  intros [Hne Hw]. unfold split.
  rewrite <- (string_app_nil_r w) at 1.
  rewrite (split_from_word w "" _ Hw).
  change ("" ++ w) with w. now apply split_from_end.
Qed.

(** X12. The schedule text the set-up writes for a crontab is read back
    field by field: when the text of each of the five [_orig_*] attributes
    is not empty and holds no whitespace, splitting the stored text gives
    these five texts, and the reload calls [crontab] with each of them
    under the keyword it came from. *)
Theorem X12_schedule_text_round_trip
  (minute hour day_of_month month_of_year day_of_week : PyVal) :
  Notions.word (py_str minute) ->
  Notions.word (py_str hour) ->
  Notions.word (py_str day_of_month) ->
  Notions.word (py_str month_of_year) ->
  Notions.word (py_str day_of_week) ->
  exists text,
    Setup.schedule_text
      (Setup.CrontabOrig minute hour day_of_month month_of_year day_of_week) = Ok text /\
    split text = [py_str minute; py_str hour; py_str day_of_month;
                  py_str month_of_year; py_str day_of_week] /\
    parse_schedule text =
      crontab (py_str minute) (py_str hour) (py_str day_of_week)
              (py_str day_of_month) (py_str month_of_year).
Proof.
  intros Hm Hh Hdom Hmoy Hdow. eexists. split; [reflexivity|].
  assert (split (py_str minute ++ " " ++ py_str hour ++ " " ++ py_str day_of_month
                 ++ " " ++ py_str month_of_year ++ " " ++ py_str day_of_week)
          = [py_str minute; py_str hour; py_str day_of_month;
             py_str month_of_year; py_str day_of_week]) as Hsplit.
  { rewrite !split_word_space by assumption. now rewrite split_word. }
  split; [exact Hsplit|]. unfold parse_schedule. now rewrite Hsplit.
Qed.

End ReloadMore.

(** ** Writes, continued *)

Section WritesMore.
Context `{Libraries}.
Variable tasks : gmap string Task.
Import CeleryTasksScheduleModel UnitOfWork.

Lemma before_validator_schedule (target target' : ScheduleRow) :
  before_validator tasks target = Ok target' ->
  exists schedule, parse_schedule (Db.schedule target) = Ok schedule.
Proof.
  unfold before_validator. intros Hv.
  destruct (tasks !! Db.task target) as [t|]; [|discriminate].
  destruct (json_loads (Db.args target)) as [a|e];
    [|destruct (is_JSONDecodeError e); discriminate].
  destruct (json_loads (Db.kwargs target)) as [k|e];
    [|cbn in Hv; destruct (is_JSONDecodeError e); discriminate].
  unfold mbind, Result_bind in Hv.
  match type of Hv with
  | match ?c with _ => _ end = _ => destruct c; [|discriminate]
  end.
  destruct (parse_schedule (Db.schedule target)) as [s|e]; [|discriminate].
  now exists s.
Qed.

(** X13. A row that passes the validator is a row the reload accepts: it
    becomes an entry named by its stored key, of a registered task, with
    positional arguments that can be iterated and keyword arguments that
    are a dict, and the name of the entry is the key of the entry's own
    task and arguments. *)
Theorem X13_validated_row_loads (target target' : ScheduleRow) :
  before_validator tasks target = Ok target' ->
  exists entry elems items,
    DatabaseScheduler._model_to_entry target' = Ok entry /\
    DatabaseScheduler.name entry = Db.task_key target' /\
    DatabaseScheduler.task entry = Db.task target /\
    is_Some (tasks !! DatabaseScheduler.task entry) /\
    py_iter (DatabaseScheduler.args entry) = Ok elems /\
    DatabaseScheduler.kwargs entry = PyDict items /\
    get_task_key (DatabaseScheduler.task entry) (DatabaseScheduler.args entry)
                 (DatabaseScheduler.kwargs entry)
    = Ok (DatabaseScheduler.name entry).
Proof.
  intros Hv.
  destruct (before_validator_schedule _ _ Hv) as (s & Hs).
  apply before_validator_ok in Hv.
  destruct Hv as (a & k & key & Hreg & Ha & Hk & Hkey & ->).
  assert (exists elems items, py_iter a = Ok elems /\ k = PyDict items)
    as (elems & items & Helems & ->).
  { unfold get_task_key in Hkey.
    destruct (py_iter a) as [elems|e]; [|discriminate]. cbn in Hkey.
    destruct k; try discriminate. eauto. }
  assert ((if truthy (PyDict items) then PyDict items else PyDict []) = PyDict items)
    as Hkw by (destruct items; reflexivity).
  eexists _, elems, items. split.
  - unfold DatabaseScheduler._model_to_entry. cbn [Spec.with_key Db.args Db.kwargs
      Db.schedule Db.task Db.task_key]. rewrite Ha, Hk, Hs. reflexivity.
  - cbn [DatabaseScheduler._maybe_entry DatabaseScheduler.name DatabaseScheduler.task
         DatabaseScheduler.args DatabaseScheduler.kwargs DatabaseScheduler.d_task
         DatabaseScheduler.d_args DatabaseScheduler.d_kwargs Spec.with_key Db.task_key].
    rewrite Hkw. repeat split; assumption.
Qed.


Lemma NoDup_map_filter {A B} (f : A -> B) (p : A -> bool) (l : list A) :
  NoDup (List.map f l) -> NoDup (List.map f (List.filter p l)).
Proof.
  induction l as [|x l IH]; intros Hnd; [constructor|].
  cbn [List.map] in Hnd. apply NoDup_cons in Hnd. destruct Hnd as [Hx Hnd].
  cbn [List.filter]. destruct (p x); [|now apply IH].
  cbn [List.map]. apply NoDup_cons. split; [|now apply IH].
  intros Hin. apply Hx.
  apply list_elem_of_In, in_map_iff in Hin. destruct Hin as (y & Hy & Hin).
  apply filter_In in Hin. rewrite <- Hy. apply list_elem_of_In, in_map, Hin.
Qed.

Lemma insert_row_table_ok d st st' :
  insert_row d st = Ok st' -> Notions.table_ok st -> Notions.table_ok st'.
Proof.
  unfold insert_row. repeat case_bool_decide; intros E; try discriminate.
  injection E as <-. intros (Hkeys & Hids & Hseq & Hfk).
  unfold Notions.table_ok.
  cbn [celery_tasks celery_tasks_schedule celery_tasks_schedule_id_seq].
  split; [|split; [|split]].
  - rewrite keys_app. apply NoDup_app. split; [exact Hkeys|]. split.
    + intros k Hk Hin. apply list_elem_of_singleton in Hin. cbn in Hin. congruence.
    + apply NoDup_singleton.
  - rewrite List.map_app. apply NoDup_app. split; [exact Hids|]. split.
    + intros i Hi Hin. apply list_elem_of_singleton in Hin. cbn in Hin. subst i.
      apply list_elem_of_In, in_map_iff in Hi. destruct Hi as (r & Hr & Hin).
      specialize (Hseq r Hin). lia.
    + apply NoDup_singleton.
  - intros row Hrow. apply in_app_iff in Hrow. destruct Hrow as [Hrow|[<-|[]]].
    + specialize (Hseq row Hrow). lia.
    + cbn. lia.
  - intros row Hrow. apply in_app_iff in Hrow. destruct Hrow as [Hrow|[<-|[]]].
    + now apply Hfk.
    + cbn. now apply list_elem_of_In.
Qed.

Lemma insert_rows_table_ok l st st' :
  insert_rows l st = Ok st' -> Notions.table_ok st -> Notions.table_ok st'.
Proof.
  revert st. induction l as [|d l IH]; intros st; cbn [insert_rows].
  - intros E. now injection E as <-.
  - destruct (insert_row d st) as [st1|e] eqn:E1; cbn [mbind Result_bind]; [|discriminate].
    intros E Hok. apply (IH _ E). eapply insert_row_table_ok; eassumption.
Qed.

(** An UPDATE by primary key puts the new row where the old one was. *)
Lemma replace_row_keys (r : ScheduleRow) (l : list ScheduleRow) :
  NoDup (List.map id l) -> NoDup (keys l) ->
  Db.task_key r ∉ keys (filter (λ x, id x ≠ id r) l) ->
  NoDup (keys (List.map (fun x => if bool_decide (id x = id r) then r else x) l))
  /\ forall y, In y (List.map (fun x => if bool_decide (id x = id r) then r else x) l) ->
               y = r \/ In y l.
Proof.
  induction l as [|x l IH]; intros Hids Hkeys Hnew.
  - split; [constructor|]. intros y [].
  - cbn [List.map] in Hids. apply NoDup_cons in Hids. destruct Hids as [Hx Hids].
    cbn [keys List.map] in Hkeys. apply NoDup_cons in Hkeys.
    destruct Hkeys as [Hkx Hkeys].
    rewrite filter_cons in Hnew. cbn [List.map keys].
    case_bool_decide as Hid.
    + destruct (decide (id x ≠ id r)) as [Hne|_]; [contradiction|].
      assert (List.map (fun x => if bool_decide (id x = id r) then r else x) l = l) as ->.
      { clear -Hx Hid. rewrite Hid in Hx. induction l as [|y l IH]; [reflexivity|].
        cbn [List.map]. rewrite bool_decide_eq_false_2.
        - f_equal. apply IH. intros Hin. apply Hx. now right.
        - intros Hy. apply Hx. cbn [List.map]. rewrite <- Hy. left. }
      assert (filter (λ x, id x ≠ id r) l = l) as Hall.
      { clear -Hx Hid. rewrite Hid in Hx. induction l as [|y l IH]; [reflexivity|].
        rewrite filter_cons_True.
        - f_equal. apply IH. intros Hin. apply Hx. now right.
        - intros Hy. apply Hx. cbn [List.map]. rewrite <- Hy. left. }
      rewrite Hall in Hnew. split.
      * apply NoDup_cons. split; assumption.
      * intros y [<-|Hy]; [now left|right; now right].
    + destruct (decide (id x ≠ id r)) as [_|Heq]; [|contradiction].
      cbn [keys List.map] in Hnew. apply not_elem_of_cons in Hnew.
      destruct Hnew as [Hrx Hnew].
      destruct (IH Hids Hkeys Hnew) as [Hnd Hin]. split.
      * apply NoDup_cons. split; [|exact Hnd]. intros Hk.
        apply list_elem_of_In, in_map_iff in Hk. destruct Hk as (y & Hy & Hyin).
        destruct (Hin y Hyin) as [->|Hyl]; [congruence|].
        apply Hkx. rewrite <- Hy. apply list_elem_of_In, in_map, Hyl.
      * intros y [<-|Hy]; [right; now left|].
        destruct (Hin y Hy) as [->|Hyl]; [now left|right; now right].
Qed.

Lemma update_row_table_ok r st st' :
  update_row r st = Ok st' -> Notions.table_ok st -> Notions.table_ok st'.
Proof.
  unfold update_row. repeat case_bool_decide; intros E; try discriminate.
  injection E as <-. intros (Hkeys & Hids & Hseq & Hfk).
  match goal with Hn : Db.task_key r ∉ _ |- _ =>
    destruct (replace_row_keys r _ Hids Hkeys Hn) as [Hnd Hin] end.
  unfold Notions.table_ok.
  cbn [celery_tasks celery_tasks_schedule celery_tasks_schedule_id_seq].
  assert (List.map id (List.map (fun x => if bool_decide (id x = id r) then r else x)
                                (celery_tasks_schedule st))
          = List.map id (celery_tasks_schedule st)) as Hsame.
  { rewrite List.map_map. apply List.map_ext. intros x.
    case_bool_decide; congruence. }
  assert (exists x, In x (celery_tasks_schedule st) /\ id x = id r) as (x0 & Hx0 & Hx0id).
  { match goal with Hi : id r ∈ _ |- _ =>
      apply list_elem_of_In, in_map_iff in Hi; destruct Hi as (x & Hx & Hi) end.
    eauto. }
  split; [exact Hnd|]. split; [rewrite Hsame; exact Hids|]. split.
  - intros row Hrow. destruct (Hin row Hrow) as [->|Hl]; [|now apply Hseq].
    rewrite <- Hx0id. now apply Hseq.
  - intros row Hrow. destruct (Hin row Hrow) as [->|Hl]; [|now apply Hfk].
    now apply list_elem_of_In.
Qed.

Lemma delete_rows_table_ok p st :
  Notions.table_ok st -> Notions.table_ok (delete_rows p st).
Proof.
  intros (Hkeys & Hids & Hseq & Hfk). unfold Notions.table_ok, delete_rows.
  cbn [celery_tasks celery_tasks_schedule celery_tasks_schedule_id_seq].
  split; [now apply NoDup_map_filter|]. split; [now apply NoDup_map_filter|].
  split; intros row Hrow; apply filter_In in Hrow; [apply Hseq|apply Hfk]; tauto.
Qed.

Lemma table_ok_same (st st' : Store) :
  celery_tasks st' = celery_tasks st ->
  celery_tasks_schedule st' = celery_tasks_schedule st ->
  celery_tasks_schedule_id_seq st' = celery_tasks_schedule_id_seq st ->
  Notions.table_ok st -> Notions.table_ok st'.
Proof. unfold Notions.table_ok. intros -> -> ->. tauto. Qed.

Lemma statement_table_ok (ch : Change) (st st' : Store) :
  statement tasks ch st = Ok st' ->
  Notions.table_ok st -> Notions.table_ok st' /\ celery_tasks st' = celery_tasks st.
Proof.
  destruct ch as [target|target|target]; cbn [statement].
  - unfold before_insert_handler.
    destruct (before_validator tasks target) as [target'|e]; [|discriminate].
    cbn [mbind Result_bind]. intros E Hok.
    split; [eapply insert_row_table_ok; eassumption|].
    unfold insert_row in E. repeat case_bool_decide; try discriminate.
    now injection E as <-.
  - unfold before_update_handler.
    destruct (before_validator tasks target) as [target'|e]; [|discriminate].
    cbn [mbind Result_bind]. intros E Hok.
    split; [eapply update_row_table_ok; eassumption|].
    unfold update_row in E. repeat case_bool_decide; try discriminate.
    now injection E as <-.
  - intros E Hok. injection E as <-. split; [now apply delete_rows_table_ok|reflexivity].
Qed.

(** X15. The constraints of the schedule table are kept by every write of
    the package: with unique keys, unique primary keys below the sequence
    and tasks of the catalogue before, the table has them after a write
    through the session, after a bulk insert, after a delete by task and
    after a bump of the change clock, whether the call raised or not. *)
Theorem X15_writes_keep_the_constraints (db : Store) :
  Notions.table_ok db ->
  (forall ch now, Notions.table_ok (snd (write tasks ch now db)))
  /\ (forall data, Notions.table_ok (snd (bulk_insert data db)))
  /\ (forall names, Notions.table_ok (snd (delete names db)))
  /\ (forall now,
        Notions.table_ok (snd (CeleryTasksScheduleMetaModel.update_last_updated_at now db))).
Proof.
  intros Hok. split; [|split; [|split]].
  - intros ch now. rewrite write_spec.
    destruct (statement tasks ch db) as [st|e] eqn:E; [|exact Hok].
    destruct (statement_table_ok _ _ _ E Hok) as [Hst Hcat].
    cbn [snd]. apply (table_ok_same st); [|reflexivity|reflexivity|exact Hst].
    cbn. now rewrite Hcat.
  - intros data. rewrite bulk_insert_fresh.
    destruct (insert_rows (Spec.fresh data db) db) as [st|e] eqn:E; [|exact Hok].
    eapply insert_rows_table_ok; eassumption.
  - intros names. apply delete_rows_table_ok, Hok.
  - intros now. apply (table_ok_same db); try reflexivity. exact Hok.
Qed.

End WritesMore.

(** ** The bootstrap, continued *)

Section BootstrapMore.
Import DatabaseScheduler.
Variable create_all : nat -> Result unit.
Variable randrange : nat -> Z -> Z.
Hypothesis randrange_range :
  forall (i : nat) (n : Z), (0 < n)%Z -> (0 <= randrange i n < n)%Z.

Lemma total_app (l1 l2 : list Z) :
  Notions.total (l1 ++ l2) = (Notions.total l1 + Notions.total l2)%Z.
Proof.
  unfold Notions.total. induction l1 as [|x l1 IH]; cbn; [reflexivity|].
  rewrite IH. lia.
Qed.

Lemma backoff_cap_nonneg (i : nat) : (0 <= Notions.backoff_cap i)%Z.
Proof.
  unfold Notions.backoff_cap.
  assert (0 < 2 ^ Z.of_nat i)%Z by (apply Z.pow_pos_nonneg; lia). lia.
Qed.

Lemma total_caps_nonneg (k m : nat) :
  (0 <= Notions.total (List.map Notions.backoff_cap (seq k m)))%Z.
Proof.
  revert k. induction m as [|m IH]; intros k; cbn; [lia|].
  pose proof (backoff_cap_nonneg k). specialize (IH (S k)).
  unfold Notions.total in IH. lia.
Qed.

Lemma total_backoff_le (k m : nat) :
  (0 <= Notions.total (List.map (Spec.backoff randrange) (seq k m))
     <= Notions.total (List.map Notions.backoff_cap (seq k m)))%Z.
Proof.
  revert k. induction m as [|m IH]; intros k; cbn; [lia|].
  pose proof (backoff_bounds randrange randrange_range k) as Hb.
  specialize (IH (S k)). unfold Notions.total, Notions.backoff_cap in *. lia.
Qed.

(** X16. Whatever the database does, [_prepare_models] sleeps for less than
    4.3 seconds in all: the pauses before its at most ten retries add up to
    at most 10 + 20 + 40 + 80 + 160 + 320 + 640 + 1000 + 1000 + 1000
    milliseconds. *)
Theorem X16_bootstrap_sleeps_at_most_4270_ms (fuel : nat) (now : Z) (db : Store) :
  (PREPARE_MODELS_MAX_RETRIES < fuel)%nat ->
  exists r db' log,
    _prepare_models fuel create_all randrange now db = Some (r, db', log) /\
    (0 <= Notions.total (sleeps log) <= 4270)%Z /\
    (length (sleeps log) <= 10)%nat.
Proof.
  intros Hfuel.
  destruct (prepare_loop_spec create_all randrange fuel 0 [])
    as (r & log & n & Hrun & Hn & _ & Hsl & _); [lia|lia|].
  rewrite Nat.sub_0_r in Hsl. cbn [app] in Hsl.
  unfold PREPARE_MODELS_MAX_RETRIES in Hn.
  assert ((0 <= Notions.total (sleeps log) <= 4270)%Z /\ (length (sleeps log) <= 10)%nat)
    as Hbound.
  { rewrite Hsl, length_map, length_seq. split; [|lia].
    pose proof (total_backoff_le 0 n) as Hle.
    assert (Notions.total (List.map Notions.backoff_cap (seq 0 n)) <= 4270)%Z; [|lia].
    replace 4270%Z with (Notions.total (List.map Notions.backoff_cap (seq 0 10)))
      by (vm_compute; reflexivity).
    replace 10%nat with (n + (10 - n))%nat at 1 by lia.
    rewrite seq_app, List.map_app, total_app.
    pose proof (total_caps_nonneg (0 + n) (10 - n)). lia. }
  unfold _prepare_models. rewrite Hrun. destruct r as [u|e].
  - destruct (CeleryTasksScheduleMetaModel.init_last_updated_at now db) as [r' db'].
    exists r', db', log. split; [reflexivity|exact Hbound].
  - exists (Raise e), db, log. split; [reflexivity|exact Hbound].
Qed.

End BootstrapMore.

(** ** The catalogue of the tasks *)

Section Catalogue.
Import CeleryTasksModel.

Lemma in_deleted_tasks (names : list string) (rows : list Row) (name : string) :
  In name (List.map task (List.filter (fun r => bool_decide (task r ∈ names)) rows))
  <-> In name names /\ In name (List.map task rows).
Proof.
  rewrite !in_map_iff. split.
  - intros (r & <- & Hr). apply filter_In in Hr. destruct Hr as [Hr Hn].
    apply bool_decide_eq_true_1, list_elem_of_In in Hn. split; [exact Hn|eauto].
  - intros (Hn & r & <- & Hr). exists r. split; [reflexivity|].
    apply filter_In. split; [exact Hr|].
    apply bool_decide_eq_true_2, list_elem_of_In, Hn.
Qed.

Lemma delete_spec (names : list string) (db : Database) :
  fst (delete names db) = Ok tt
  /\ consistent (snd (delete names db))
  /\ (forall r, In r (catalogue (snd (delete names db))) <->
                In r (catalogue db) /\ ~ In (task r) names)
  /\ (forall row,
        In row (celery_tasks_schedule (store (snd (delete names db)))) <->
        In row (celery_tasks_schedule (store db)) /\
        ~ (In (Db.task row) names /\ In (Db.task row) (List.map task (catalogue db))))
  /\ celery_tasks_schedule_meta (store (snd (delete names db)))
     = celery_tasks_schedule_meta (store db)
  /\ (Notions.referential db ->
      Notions.referential (snd (delete names db)) /\
      forall row, In row (celery_tasks_schedule (store (snd (delete names db)))) ->
                  ~ In (Db.task row) names).
Proof.
  unfold delete, transaction. cbn [fst snd catalogue store celery_tasks_schedule
    celery_tasks_schedule_meta].
  assert (forall r, In r (List.filter (fun r => negb (bool_decide (task r ∈ names)))
                                      (catalogue db)) <->
                    In r (catalogue db) /\ ~ In (task r) names) as Hcat.
  { intros r. rewrite filter_In, negb_true_iff, bool_decide_eq_false, list_elem_of_In.
    tauto. }
  assert (forall row,
    In row (List.filter
              (fun x => negb (bool_decide
                 (Db.task x ∈ List.map task
                    (List.filter (fun r => bool_decide (task r ∈ names)) (catalogue db)))))
              (celery_tasks_schedule (store db))) <->
    In row (celery_tasks_schedule (store db)) /\
    ~ (In (Db.task row) names /\ In (Db.task row) (List.map task (catalogue db))))
    as Hrows.
  { intros row. rewrite filter_In, negb_true_iff, bool_decide_eq_false, list_elem_of_In,
      in_deleted_tasks. tauto. }
  split; [reflexivity|]. split; [reflexivity|]. split; [exact Hcat|].
  split; [exact Hrows|]. split; [reflexivity|].
  intros [Hcons Hfk]. split; [split; [reflexivity|]|].
  - cbn [store catalogue celery_tasks_schedule]. intros row Hrow.
    apply Hrows in Hrow. destruct Hrow as [Hrow Hkeep].
    specialize (Hfk row Hrow). apply in_map_iff in Hfk. destruct Hfk as (r & Hr & Hin).
    apply in_map_iff. exists r. split; [exact Hr|]. apply Hcat. split; [exact Hin|].
    intros Hn. apply Hkeep. rewrite <- Hr. split; [exact Hn|]. now apply in_map.
  - intros row Hrow Hn. apply Hrows in Hrow. destruct Hrow as [Hrow Hkeep].
    apply Hkeep. split; [exact Hn|]. now apply Hfk.
Qed.

(** X17. [CeleryTasksModel.delete] returns and leaves the two views of the
    catalogue in agreement. It removes the catalogue rows of the given
    tasks and, through the cascade of the foreign key, the schedule rows of
    the tasks it removed, and only them; the change clock stays as it was.
    When every schedule row had a catalogued task before, every one has
    afterwards, and none of them is a row of a given task. *)
Theorem X17_delete_cascades_to_the_schedule (names : list string) (db : Database) :
  fst (delete names db) = Ok tt
  /\ consistent (snd (delete names db))
  /\ (forall r, In r (catalogue (snd (delete names db))) <->
                In r (catalogue db) /\ ~ In (task r) names)
  /\ (forall row,
        In row (celery_tasks_schedule (store (snd (delete names db)))) <->
        In row (celery_tasks_schedule (store db)) /\
        ~ (In (Db.task row) names /\ In (Db.task row) (List.map task (catalogue db))))
  /\ celery_tasks_schedule_meta (store (snd (delete names db)))
     = celery_tasks_schedule_meta (store db)
  /\ (Notions.referential db ->
      Notions.referential (snd (delete names db)) /\
      forall row, In row (celery_tasks_schedule (store (snd (delete names db)))) ->
                  ~ In (Db.task row) names).
Proof. apply delete_spec. Qed.

Lemma filter_all {A} (f : A -> bool) (l : list A) :
  (forall a, In a l -> f a = true) -> List.filter f l = l.
Proof.
  induction l as [|a l IH]; intros Hall; [reflexivity|].
  cbn [List.filter]. rewrite (Hall a) by now left.
  f_equal. apply IH. intros b Hb. apply Hall. now right.
Qed.

(** X18. With every schedule row on a catalogued task, [_clean_deprecated]
    returns and keeps exactly the catalogue rows and the schedule rows of
    the tasks the application registers, in their order: afterwards every
    task of the catalogue and of the schedule is registered, and every
    schedule row still has a catalogued task. The schedule rows go without
    a bump of the change clock. *)
Theorem X18_clean_deprecated_keeps_the_live_tasks
  (tasks : gmap string Task) (db : Database) :
  Notions.referential db ->
  fst (Setup._clean_deprecated tasks db) = Ok tt
  /\ catalogue (snd (Setup._clean_deprecated tasks db))
     = List.filter (fun r => Notions.live tasks (task r)) (catalogue db)
  /\ celery_tasks_schedule (store (snd (Setup._clean_deprecated tasks db)))
     = List.filter (fun x => Notions.live tasks (Db.task x))
                   (celery_tasks_schedule (store db))
  /\ celery_tasks_schedule_meta (store (snd (Setup._clean_deprecated tasks db)))
     = celery_tasks_schedule_meta (store db)
  /\ Notions.referential (snd (Setup._clean_deprecated tasks db))
  /\ (forall row,
        In row (celery_tasks_schedule (store (snd (Setup._clean_deprecated tasks db)))) ->
        is_Some (tasks !! Db.task row)).
Proof.
  intros Href. pose proof Href as [Hcons Hfk].
  assert (forall name,
    In name (elements ((list_to_set (List.map task (catalogue db)) : gset string)
                         ∖ dom tasks)) <->
    In name (List.map task (catalogue db)) /\ Notions.live tasks name = false) as Hnames.
  { intros name. rewrite <- list_elem_of_In, elem_of_elements, elem_of_difference,
      elem_of_list_to_set, list_elem_of_In, elem_of_dom.
    unfold Notions.live. rewrite bool_decide_eq_false. tauto. }
  assert (forall row, In row (celery_tasks_schedule (store db)) ->
                      Notions.live tasks (Db.task row) = true ->
                      is_Some (tasks !! Db.task row)) as Hlive.
  { intros row _ Hl. unfold Notions.live in Hl. now apply bool_decide_eq_true_1 in Hl. }
  unfold Setup._clean_deprecated, select_all_tasks, transaction.
  cbn [fst snd]. case_bool_decide as Hdep.
  - set (names := elements _).
    destruct (delete_spec names db) as (Hok & _ & _ & _ & Hmeta & Hkeep).
    destruct (Hkeep Href) as [Href' _].
    assert (catalogue (snd (delete names db))
            = List.filter (fun r => Notions.live tasks (task r)) (catalogue db)) as Hcat.
    { unfold delete, transaction. cbn [snd catalogue].
      apply filter_ext_in. intros r Hr.
      destruct (Notions.live tasks (task r)) eqn:Hl.
      - apply negb_true_iff, bool_decide_eq_false. rewrite list_elem_of_In.
        intros Hn. apply Hnames in Hn. destruct Hn as [_ Hn]. congruence.
      - apply negb_false_iff, bool_decide_eq_true. rewrite list_elem_of_In.
        apply Hnames. split; [now apply in_map|exact Hl]. }
    assert (celery_tasks_schedule (store (snd (delete names db)))
            = List.filter (fun x => Notions.live tasks (Db.task x))
                          (celery_tasks_schedule (store db))) as Hsched.
    { unfold delete, transaction. cbn [snd store celery_tasks_schedule].
      apply filter_ext_in. intros row Hrow.
      destruct (Notions.live tasks (Db.task row)) eqn:Hl.
      - apply negb_true_iff, bool_decide_eq_false. rewrite list_elem_of_In.
        intros Hd. apply in_deleted_tasks in Hd. destruct Hd as [Hn _].
        apply Hnames in Hn. destruct Hn as [_ Hn]. congruence.
      - apply negb_false_iff, bool_decide_eq_true. rewrite list_elem_of_In.
        apply in_deleted_tasks. split; [|now apply Hfk].
        apply Hnames. split; [now apply Hfk|exact Hl]. }
    split; [exact Hok|]. split; [exact Hcat|]. split; [exact Hsched|].
    split; [exact Hmeta|]. split; [exact Href'|].
    intros row Hrow. rewrite Hsched in Hrow. apply filter_In in Hrow.
    destruct Hrow as [Hrow Hl]. now apply Hlive.
  - assert (forall name, In name (List.map task (catalogue db)) ->
                         Notions.live tasks name = true) as Hall.
    { intros name Hin. destruct (Notions.live tasks name) eqn:Hl; [reflexivity|].
      exfalso.
      assert (In name (elements ((list_to_set (List.map task (catalogue db)) : gset string)
                                   ∖ dom tasks))) as Hn by (apply Hnames; now split).
      rewrite Hdep, elements_empty in Hn. exact Hn. }
    assert (forall row, In row (celery_tasks_schedule (store db)) ->
                        Notions.live tasks (Db.task row) = true) as Hrows.
    { intros row Hrow. apply Hall. now apply Hfk. }
    split; [reflexivity|]. split.
    { symmetry. apply filter_all. intros r Hr. apply Hall. now apply in_map. }
    split; [symmetry; now apply filter_all|].
    split; [reflexivity|]. split; [exact Href|].
    intros row Hrow. apply Hlive; [exact Hrow|now apply Hrows].
Qed.

End Catalogue.

(** ** Bulk insert and bulk update of the catalogue *)

Section CatalogueBulk.
Import CeleryTasksModel.

Local Abbreviation dtask := CeleryTasksDbSchema.task.

Lemma missing_filter {A} (f : A -> string) (data : list A) (ks : list string) :
  filter (λ d, f d ∈ (list_to_set (List.map f data) ∖ list_to_set ks : gset string)) data
  = filter (λ d, f d ∉ ks) data.
Proof.
  apply filter_agree. intros d Hd.
  rewrite elem_of_difference, !elem_of_list_to_set. split.
  - intros [_ Hn]. exact Hn.
  - intros Hn. split; [|exact Hn].
    apply list_elem_of_In, in_map, list_elem_of_In, Hd.
Qed.

Lemma missing_empty {A} (f : A -> string) (data : list A) (ks : list string) :
  (list_to_set (List.map f data) ∖ list_to_set ks : gset string) = ∅
  <-> filter (λ d, f d ∉ ks) data = [].
Proof.
  split.
  - intros Hempty. rewrite <- missing_filter, Hempty. clear Hempty.
    induction data as [|d data IH]; [reflexivity|].
    rewrite filter_cons_False; [exact IH|]. apply not_elem_of_empty.
  - intros Hnil. apply set_eq. intros k. split; [|intros Hk; now apply not_elem_of_empty in Hk].
    rewrite elem_of_difference, !elem_of_list_to_set. intros [Hin Hn]. exfalso.
    apply list_elem_of_In, in_map_iff in Hin. destruct Hin as (d & <- & Hd).
    apply list_elem_of_In in Hd.
    assert (d ∈ filter (λ d, f d ∉ ks) data) as Hf.
    { apply list_elem_of_filter. split; assumption. }
    rewrite Hnil in Hf. now apply not_elem_of_nil in Hf.
Qed.

Lemma catalogue_bulk_insert_fresh (data : list CeleryTasksDbSchema.t) (db : Database) :
  bulk_insert data db =
  match insert_tasks (Notions.fresh_tasks data db) db with
  | Ok db' => (Ok tt, db')
  | Raise e => (Raise e, db)
  end.
Proof.
  unfold bulk_insert, transaction, Notions.fresh_tasks. rewrite missing_filter.
  case_bool_decide as Hm.
  - destruct (insert_tasks _ db); reflexivity.
  - apply missing_empty in Hm. rewrite Hm. reflexivity.
Qed.

Lemma insert_tasks_consistent (l : list CeleryTasksDbSchema.t) (db db' : Database) :
  consistent db -> insert_tasks l db = Ok db' -> consistent db'.
Proof.
  revert db. induction l as [|d l IH]; intros db Hc; cbn [insert_tasks].
  - intros E. now injection E as <-.
  - unfold insert_task. case_bool_decide; [discriminate|]. cbn [mbind Result_bind].
    apply IH. reflexivity.
Qed.

Lemma insert_tasks_ok (l : list CeleryTasksDbSchema.t) (db : Database) :
  NoDup (List.map dtask l) ->
  (forall d, In d l -> ~ In (dtask d) (List.map task (catalogue db))) ->
  exists db',
    insert_tasks l db = Ok db' /\
    catalogue db' = (catalogue db ++ List.map row_of l)%list /\
    celery_tasks_schedule (store db') = celery_tasks_schedule (store db) /\
    celery_tasks_schedule_id_seq (store db') = celery_tasks_schedule_id_seq (store db) /\
    celery_tasks_schedule_meta (store db') = celery_tasks_schedule_meta (store db).
Proof.
  revert db. induction l as [|d l IH]; intros db Hnd Hnew.
  - exists db. cbn. rewrite app_nil_r. repeat split; auto.
  - cbn [List.map] in Hnd. apply NoDup_cons in Hnd. destruct Hnd as [Hd Hnd].
    cbn [insert_tasks]. unfold insert_task.
    rewrite bool_decide_eq_false_2
      by (rewrite list_elem_of_In; apply Hnew; now left).
    cbn [mbind Result_bind].
    destruct (IH (with_catalogue (catalogue db ++ [row_of d]) db) Hnd)
      as (db' & Hrun & Hcat & Hs & Hq & Hm).
    { intros x Hx. cbn [with_catalogue catalogue]. rewrite List.map_app, in_app_iff.
      intros [Hin|[Hin|[]]].
      - revert Hin. apply Hnew. now right.
      - apply Hd. cbn in Hin. rewrite Hin. apply list_elem_of_In, in_map, Hx. }
    exists db'. split; [exact Hrun|]. split.
    { rewrite Hcat. cbn [with_catalogue catalogue List.map]. now rewrite <- app_assoc. }
    split; [exact Hs|]. split; [exact Hq|exact Hm].
Qed.

Lemma insert_tasks_inv (l : list CeleryTasksDbSchema.t) (db db' : Database) :
  insert_tasks l db = Ok db' ->
  NoDup (List.map dtask l) /\
  (forall d, In d l -> ~ In (dtask d) (List.map task (catalogue db))).
Proof.
  revert db. induction l as [|d l IH]; intros db; cbn [insert_tasks].
  - intros _. split; [constructor|]. intros d [].
  - unfold insert_task. case_bool_decide as Hd; [discriminate|]. cbn [mbind Result_bind].
    intros Hrun. destruct (IH _ Hrun) as [Hnd Hnew].
    cbn [with_catalogue catalogue] in Hnew. split.
    + cbn [List.map]. apply NoDup_cons. split; [|exact Hnd]. intros Hin.
      apply list_elem_of_In, in_map_iff in Hin. destruct Hin as (x & Hx & Hin).
      apply (Hnew x Hin). rewrite List.map_app, in_app_iff. right. left. cbn. congruence.
    + intros x [<-|Hx].
      * rewrite <- list_elem_of_In. exact Hd.
      * intros Hin. apply (Hnew x Hx). rewrite List.map_app, in_app_iff. now left.
Qed.

Lemma insert_tasks_raise (l : list CeleryTasksDbSchema.t) (db : Database) (e : Exc) :
  insert_tasks l db = Raise e -> exc_type e = IntegrityError.
Proof.
  revert db. induction l as [|d l IH]; intros db; cbn [insert_tasks]; [discriminate|].
  unfold insert_task. case_bool_decide.
  - cbn. intros E. now injection E as <-.
  - cbn [mbind Result_bind]. apply IH.
Qed.

Lemma fresh_tasks_nil (data : list CeleryTasksDbSchema.t) (db : Database) :
  (forall d, In d data -> In (dtask d) (List.map task (catalogue db))) ->
  Notions.fresh_tasks data db = [].
Proof.
  unfold Notions.fresh_tasks. induction data as [|d data IH]; intros Hall; [reflexivity|].
  rewrite filter_cons_False.
  - apply IH. intros x Hx. apply Hall. now right.
  - intros Hn. apply Hn, list_elem_of_In, Hall. now left.
Qed.

(** X19. Bulk insert of the catalogue stores exactly the entries whose task
    is not catalogued yet, after the rows that exist, which it leaves as
    they are with the two other tables; the two views of the catalogue stay
    in agreement and a second run of the same batch stores nothing. That is
    what it does when these entries name pairwise different tasks;
    otherwise the primary key fails the INSERT with [IntegrityError] and
    nothing is stored. *)
Theorem X19_catalogue_bulk_insert (data : list CeleryTasksDbSchema.t) (db : Database) :
  (NoDup (List.map dtask (Notions.fresh_tasks data db)) /\
   exists db',
     bulk_insert data db = (Ok tt, db') /\
     catalogue db' = (catalogue db ++ List.map row_of (Notions.fresh_tasks data db))%list /\
     celery_tasks_schedule (store db') = celery_tasks_schedule (store db) /\
     celery_tasks_schedule_meta (store db') = celery_tasks_schedule_meta (store db) /\
     (consistent db -> consistent db') /\
     bulk_insert data db' = (Ok tt, db'))
  \/
  (~ NoDup (List.map dtask (Notions.fresh_tasks data db)) /\
   exists e, bulk_insert data db = (Raise e, db) /\ exc_type e = IntegrityError).
Proof.
  destruct (decide (NoDup (List.map dtask (Notions.fresh_tasks data db)))) as [Hnd|Hdup].
  - left. split; [exact Hnd|].
    destruct (insert_tasks_ok (Notions.fresh_tasks data db) db Hnd)
      as (db' & Hrun & Hcat & Hs & _ & Hm).
    { intros d Hd. unfold Notions.fresh_tasks in Hd.
      apply list_elem_of_In, list_elem_of_filter in Hd. destruct Hd as [Hd _].
      now rewrite <- list_elem_of_In. }
    exists db'. rewrite catalogue_bulk_insert_fresh, Hrun.
    split; [reflexivity|]. split; [exact Hcat|]. split; [exact Hs|]. split; [exact Hm|].
    split; [intros Hc; eapply insert_tasks_consistent; eassumption|].
    rewrite catalogue_bulk_insert_fresh, fresh_tasks_nil; [reflexivity|].
    intros d Hd. rewrite Hcat, List.map_app, in_app_iff.
    destruct (in_dec string_dec (dtask d) (List.map task (catalogue db))) as [Hin|Hout];
      [now left|right].
    rewrite List.map_map. apply in_map_iff. exists d. split; [reflexivity|].
    apply list_elem_of_In, list_elem_of_filter. split; [|apply list_elem_of_In, Hd].
    now rewrite list_elem_of_In.
  - right. split; [exact Hdup|]. rewrite catalogue_bulk_insert_fresh.
    destruct (insert_tasks (Notions.fresh_tasks data db) db) as [db'|e] eqn:E.
    + exfalso. apply Hdup. eapply insert_tasks_inv, E.
    + exists e. split; [reflexivity|]. eapply insert_tasks_raise, E.
Qed.

Lemma update_task_spec (d : CeleryTasksDbSchema.t) (r : Row) :
  update_task d r = if bool_decide (task r = dtask d) then Notions.refreshed d r else r.
Proof.
  unfold update_task, Notions.refreshed. destruct r as [t p ds tg]. cbn.
  case_bool_decide as Ht; [|reflexivity]. cbn [andb]. subst t.
  destruct (String.eqb_spec p (CeleryTasksDbSchema.params d)) as [->|Hp];
    destruct (String.eqb_spec ds (CeleryTasksDbSchema.description d)) as [->|Hd];
    reflexivity.
Qed.

Lemma fold_map_rows (data : list CeleryTasksDbSchema.t) (rows : list Row) :
  fold_left (fun rows d => List.map (update_task d) rows) data rows
  = List.map (fun r => fold_left (fun r d => update_task d r) data r) rows.
Proof.
  revert rows. induction data as [|d data IH]; intros rows; cbn [fold_left].
  - now rewrite List.map_id.
  - rewrite IH, List.map_map. reflexivity.
Qed.

(** What the statements of [bulk_update] make of one row. *)
Lemma row_updates (data : list CeleryTasksDbSchema.t) (r : Row) :
  task (fold_left (fun r d => update_task d r) data r) = task r /\
  tags (fold_left (fun r d => update_task d r) data r) = tags r /\
  ((forall d, In d data -> dtask d <> task r) ->
   fold_left (fun r d => update_task d r) data r = r) /\
  (NoDup (List.map dtask data) ->
   forall d, In d data -> dtask d = task r ->
             fold_left (fun r d => update_task d r) data r = Notions.refreshed d r).
Proof.
  revert r. induction data as [|d0 data IH]; intros r; cbn [fold_left].
  - repeat split; auto. intros _ d [].
  - destruct (IH (update_task d0 r)) as (Ht & Hg & Hnone & Hsome).
    assert (task (update_task d0 r) = task r /\ tags (update_task d0 r) = tags r)
      as [Ht0 Hg0].
    { rewrite update_task_spec. case_bool_decide; split; reflexivity. }
    split; [congruence|]. split; [congruence|]. split.
    + intros Hall. rewrite Hnone.
      * rewrite update_task_spec, bool_decide_eq_false_2; [reflexivity|].
        intros E. apply (Hall d0); [now left|congruence].
      * intros d Hd. rewrite Ht0. apply Hall. now right.
    + intros Hnd d Hd Hdr. cbn [List.map] in Hnd. apply NoDup_cons in Hnd.
      destruct Hnd as [Hd0 Hnd]. destruct Hd as [<-|Hd].
      * rewrite Hnone.
        -- rewrite update_task_spec, bool_decide_eq_true_2; congruence.
        -- intros x Hx E. apply Hd0. rewrite Ht0 in E. rewrite Hdr, <- E.
           apply list_elem_of_In, in_map, Hx.
      * assert (update_task d0 r = r) as Hsame.
        { rewrite update_task_spec, bool_decide_eq_false_2; [reflexivity|].
          intros E. apply Hd0. rewrite <- E, <- Hdr. apply list_elem_of_In, in_map, Hd. }
        rewrite Hsame in *. now apply Hsome.
Qed.


End CatalogueBulk.

(** ** Seeding the schedule from the static schedule *)

Section Seeding.
Import Setup CeleryTasksScheduleModel.
Variable json_dumps : PyVal -> Result string.
Variable isoformat : Z -> string.

Local Abbreviation key_of := CeleryTasksScheduleDbSchema.task_key.

Lemma db_entry_ok_inv (c : string) (b : BeatEntry) (d : CeleryTasksScheduleDbSchema.t) :
  db_entry json_dumps c b = Ok d ->
  exists name a k,
    b_task b = Some name /\ b_args b = Some a /\ b_kwargs b = Some k /\
    get_task_key name a k = Ok (key_of d) /\
    CeleryTasksScheduleDbSchema.task d = name /\
    json_dumps a = Ok (CeleryTasksScheduleDbSchema.args d) /\
    json_dumps k = Ok (CeleryTasksScheduleDbSchema.kwargs d) /\
    CeleryTasksScheduleDbSchema.enabled d = true /\
    CeleryTasksScheduleDbSchema.comment d = Some c /\
    (forall c', db_entry json_dumps c' b = Ok (Notions.with_comment c' d)).
Proof.
  unfold db_entry. destruct b as [[name|] [a|] [k|] [s|]]; cbn; try discriminate;
    try (destruct (get_task_key name a k); cbn; try discriminate;
         destruct (json_dumps a); cbn; try discriminate;
         destruct (json_dumps k); cbn; discriminate).
  destruct (get_task_key name a k) as [key|e] eqn:Hkey; cbn; [|discriminate].
  destruct (json_dumps a) as [ja|e] eqn:Ha; cbn; [|discriminate].
  destruct (json_dumps k) as [jk|e] eqn:Hk; cbn; [|discriminate].
  destruct (schedule_text s) as [text|e] eqn:Hs; cbn; [|discriminate].
  intros E. injection E as <-. exists name, a, k. cbn.
  repeat split; try assumption.
Qed.

Lemma db_entry_incomplete (c : string) (b : BeatEntry) :
  Notions.incomplete b -> exists e, db_entry json_dumps c b = Raise e.
Proof.
  intros Hinc. destruct (db_entry json_dumps c b) as [d|e] eqn:E; [|eauto].
  exfalso. unfold db_entry in E.
  destruct b as [[name|] [a|] [k|] [s|]]; cbn in *;
    try discriminate;
    try (destruct (get_task_key name a k); cbn in E; try discriminate;
         destruct (json_dumps a); cbn in E; try discriminate;
         destruct (json_dumps k); cbn in E; discriminate);
    try (destruct Hinc as [Hi|[Hi|[Hi|[Hi|Hi]]]]; discriminate).
  destruct (get_task_key name a k); cbn in E; [|discriminate].
  destruct (json_dumps a); cbn in E; [|discriminate].
  destruct (json_dumps k); cbn in E; [|discriminate].
  destruct s; cbn in E; [|discriminate].
  destruct Hinc as [Hi|[Hi|[Hi|[Hi|Hi]]]]; discriminate.
Qed.

Lemma db_entries_incomplete (c : string) (beat : list BeatEntry) :
  Exists Notions.incomplete beat -> exists e, db_entries json_dumps c beat = Raise e.
Proof.
  induction 1 as [b beat Hb|b beat Hex IH]; cbn [db_entries].
  - destruct (db_entry_incomplete c b Hb) as (e & ->). eauto.
  - destruct (db_entry json_dumps c b); [|eauto]. cbn [mbind Result_bind].
    destruct IH as (e & ->). eauto.
Qed.

Lemma db_entries_ok_inv (c : string) (beat : list BeatEntry)
  (entries : list CeleryTasksScheduleDbSchema.t) :
  db_entries json_dumps c beat = Ok entries ->
  Forall2 (fun b d => db_entry json_dumps c b = Ok d) beat entries /\
  (forall c', db_entries json_dumps c' beat
              = Ok (List.map (Notions.with_comment c') entries)).
Proof.
  revert entries. induction beat as [|b beat IH]; intros entries; cbn [db_entries].
  - intros E. injection E as <-. split; [constructor|reflexivity].
  - destruct (db_entry json_dumps c b) as [d|e] eqn:Ed; [|discriminate].
    cbn [mbind Result_bind].
    destruct (db_entries json_dumps c beat) as [ds|e]; [|discriminate].
    cbn. intros E. injection E as <-. destruct (IH ds eq_refl) as [Hall Hc].
    split; [constructor; assumption|]. intros c'.
    destruct (db_entry_ok_inv _ _ _ Ed)
      as (? & ? & ? & _ & _ & _ & _ & _ & _ & _ & _ & _ & Hd).
    rewrite Hd, Hc. reflexivity.
Qed.

(** X21. An entry of the static schedule that lacks one of the keys
    [task], [args], [kwargs] and [schedule], or whose schedule is no
    crontab, makes [_fill_celery_tasks_schedule] raise before any row is
    written: the database stays as it was, whatever the other entries. *)
Theorem X21_incomplete_static_entry_aborts_seeding
  (beat_schedule : list BeatEntry) (now : Z) (db : Store) :
  Exists Notions.incomplete beat_schedule ->
  exists e,
    _fill_celery_tasks_schedule json_dumps isoformat beat_schedule now db = (Raise e, db).
Proof.
  intros Hex. unfold _fill_celery_tasks_schedule.
  destruct beat_schedule as [|b beat]; [inversion Hex|].
  destruct (db_entries_incomplete
              ("loaded from app celery beat schedule on " ++ isoformat now) _ Hex)
    as (e & ->).
  eauto.
Qed.

Lemma bulk_insert_ok_inv (data : list CeleryTasksScheduleDbSchema.t) (db db' : Store) :
  bulk_insert data db = (Ok tt, db') ->
  celery_tasks_schedule db' =
    (celery_tasks_schedule db
       ++ Spec.rows_of (celery_tasks_schedule_id_seq db) (Spec.fresh data db))%list /\
  celery_tasks_schedule_meta db' = celery_tasks_schedule_meta db /\
  celery_tasks db' = celery_tasks db.
Proof.
  rewrite bulk_insert_fresh.
  destruct (insert_rows (Spec.fresh data db) db) as [st|e] eqn:E; [|discriminate].
  intros E'. injection E' as <-.
  destruct (insert_rows_ok_NoDup _ _ _ E) as (Hnd & Hnew & Hfk).
  rewrite insert_rows_ok in E.
  - injection E as <-. repeat split.
  - exact Hnd.
  - intros d Hd. apply Hnew. apply list_elem_of_In, in_map, list_elem_of_In, Hd.
  - rewrite Forall_forall in Hfk. exact Hfk.
Qed.

Lemma rows_of_in (i : Z) (l : list CeleryTasksScheduleDbSchema.t) (r : ScheduleRow) :
  In r (Spec.rows_of i l) ->
  exists d, In d l /\
            Db.task_key r = key_of d /\
            Db.enabled r = CeleryTasksScheduleDbSchema.enabled d /\
            Db.comment r = CeleryTasksScheduleDbSchema.comment d.
Proof.
  revert i. induction l as [|d l IH]; intros i; cbn [Spec.rows_of]; [intros []|].
  intros [<-|Hr].
  - exists d. cbn. repeat split. now left.
  - destruct (IH _ Hr) as (x & Hx & Hrest). exists x. split; [now right|exact Hrest].
Qed.

Lemma stored_after_bulk_insert (data : list CeleryTasksScheduleDbSchema.t)
  (db db' : Store) (d : CeleryTasksScheduleDbSchema.t) :
  bulk_insert data db = (Ok tt, db') -> In d data ->
  key_of d ∈ keys (celery_tasks_schedule db').
Proof.
  intros Hrun Hd. destruct (bulk_insert_ok_inv _ _ _ Hrun) as (-> & _ & _).
  rewrite keys_app, keys_rows_of. apply elem_of_app.
  destruct (decide (key_of d ∈ keys (celery_tasks_schedule db))) as [Hin|Hout];
    [now left|right].
  apply list_elem_of_In, in_map, list_elem_of_In.
  unfold Spec.fresh. apply list_elem_of_filter. split; [exact Hout|].
  apply list_elem_of_In, Hd.
Qed.

(** X22. When [_fill_celery_tasks_schedule] returns without an error, the
    key of every entry of the static schedule is stored; the rows that were
    stored before are there unchanged, in front of the new ones, which are
    enabled and carry the comment of the set-up; the change clock is not
    bumped; and a second run, at any later time, stores nothing more. *)
Theorem X22_seeding_stores_every_static_key_once
  (beat_schedule : list BeatEntry) (now : Z) (db db' : Store) :
  _fill_celery_tasks_schedule json_dumps isoformat beat_schedule now db = (Ok tt, db') ->
  Forall (fun b =>
            exists name a k key,
              b_task b = Some name /\ b_args b = Some a /\ b_kwargs b = Some k /\
              get_task_key name a k = Ok key /\
              In key (keys (celery_tasks_schedule db'))) beat_schedule
  /\ (exists rows,
        celery_tasks_schedule db' = (celery_tasks_schedule db ++ rows)%list /\
        Forall (fun r => Db.enabled r = true /\
                         Db.comment r = Some (Notions.seed_comment isoformat now)) rows)
  /\ celery_tasks_schedule_meta db' = celery_tasks_schedule_meta db
  /\ (forall now2,
        _fill_celery_tasks_schedule json_dumps isoformat beat_schedule now2 db'
        = (Ok tt, db')).
Proof.
  unfold _fill_celery_tasks_schedule. destruct beat_schedule as [|b beat].
  { intros E. injection E as <-. split; [constructor|]. split.
    - exists []. rewrite app_nil_r. split; [reflexivity|constructor].
    - split; reflexivity. }
  fold (Notions.seed_comment isoformat now).
  destruct (db_entries json_dumps (Notions.seed_comment isoformat now) (b :: beat))
    as [entries|e] eqn:Hentries; [|discriminate].
  intros Hrun. destruct (db_entries_ok_inv _ _ _ Hentries) as [Hall Hcomment].
  destruct (bulk_insert_ok_inv _ _ _ Hrun) as (Hsched & Hmeta & _).
  split; [|split; [|split]].
  - apply Forall_forall. intros x Hx. apply list_elem_of_In in Hx.
    assert (exists d, In d entries /\
                      db_entry json_dumps (Notions.seed_comment isoformat now) x = Ok d)
      as (d & Hd & Hxd).
    { clear -Hall Hx. induction Hall as [|y d ys ds Hyd Hrest IH]; [contradiction|].
      destruct Hx as [->|Hx].
      - exists d. split; [now left|exact Hyd].
      - destruct (IH Hx) as (d' & Hd' & Hxd'). exists d'. split; [now right|exact Hxd']. }
    destruct (db_entry_ok_inv _ _ _ Hxd) as (name & a & k & Hn & Ha & Hk & Hkey & _).
    exists name, a, k, (key_of d). repeat split; try assumption.
    apply list_elem_of_In. eapply stored_after_bulk_insert; eassumption.
  - eexists. split; [exact Hsched|]. apply Forall_forall. intros r Hr.
    apply list_elem_of_In, rows_of_in in Hr. destruct Hr as (d & Hd & _ & Hen & Hco).
    unfold Spec.fresh in Hd. apply list_elem_of_In, list_elem_of_filter in Hd.
    destruct Hd as [_ Hd]. apply list_elem_of_In in Hd.
    assert (exists x, db_entry json_dumps (Notions.seed_comment isoformat now) x = Ok d)
      as (x & Hxd).
    { clear -Hall Hd. induction Hall as [|y d' ys ds Hyd Hrest IH]; [contradiction|].
      destruct Hd as [->|Hd]; [eauto|now apply IH]. }
    destruct (db_entry_ok_inv _ _ _ Hxd)
      as (? & ? & ? & _ & _ & _ & _ & _ & _ & _ & He & Hc & _).
    split; congruence.
  - exact Hmeta.
  - intros now2. fold (Notions.seed_comment isoformat now2). rewrite Hcomment.
    rewrite bulk_insert_fresh, fresh_nil; [reflexivity|].
    intros d Hd. apply list_elem_of_In, in_map_iff in Hd. destruct Hd as (d0 & <- & Hd0).
    change (key_of (Notions.with_comment (Notions.seed_comment isoformat now2) d0))
      with (key_of d0).
    eapply stored_after_bulk_insert; eassumption.
Qed.

End Seeding.

(** ** The further properties on the sample data *)

Section MoreExamples.
Local Existing Instance Sample.libraries.
Import CeleryTasksScheduleModel UnitOfWork DatabaseScheduler.

Lemma X12_schedule_text_round_trip_witness :
  Notions.word (py_str (PyInt 0))
  /\ Notions.word (py_str (PyInt 3))
  /\ Notions.word (py_str (PyStr "*"))
  /\ Notions.word (py_str (PyInt 1))
  /\ Setup.schedule_text
       (Setup.CrontabOrig (PyInt 0) (PyInt 3) (PyStr "*") (PyStr "*") (PyInt 1))
     = Ok "0 3 * * 1"
  /\ parse_schedule "0 3 * * 1" = Ok ["0"; "3"; "1"; "*"; "*"].
Proof.
  assert (forall v, py_str v <> "" ->
                    Spec.all_chars (fun c => negb (is_space c)) (py_str v) = true ->
                    Notions.word (py_str v)) as Hword by (intros v H1 H2; now split).
  assert (Notions.word (py_str (PyInt 0))) as H0
    by (apply Hword; [vm_compute; discriminate|reflexivity]).
  assert (Notions.word (py_str (PyInt 3))) as H3
    by (apply Hword; [vm_compute; discriminate|reflexivity]).
  assert (Notions.word (py_str (PyStr "*"))) as Hs
    by (apply Hword; [vm_compute; discriminate|reflexivity]).
  assert (Notions.word (py_str (PyInt 1))) as H1
    by (apply Hword; [vm_compute; discriminate|reflexivity]).
  split; [exact H0|]. split; [exact H3|]. split; [exact Hs|]. split; [exact H1|].
  destruct (X12_schedule_text_round_trip (PyInt 0) (PyInt 3) (PyStr "*") (PyStr "*")
              (PyInt 1) H0 H3 Hs Hs H1) as (text & Htext & _ & Hparse).
  vm_compute in Htext. injection Htext as <-.
  split; [reflexivity|]. rewrite Hparse. reflexivity.
Defined.

(** A crontab field with a blank in it, such as the hours [1, 2], is stored
    as it is and no longer read back: the row has six fields. *)
Example schedule_text_with_blank :
  Setup.schedule_text
    (Setup.CrontabOrig (PyInt 0) (PyStr "1, 2") (PyStr "*") (PyStr "*") (PyStr "*"))
  = Ok "0 1, 2 * * *"
  /\ parse_schedule "0 1, 2 * * *"
     = Raise (mkExc ValueError "too many values to unpack (expected 5)").
Proof. split; reflexivity. Qed.

Lemma X13_validated_row_loads_witness :
  before_validator Sample.tasks Sample.ping_target
    = Ok (Spec.with_key "ping-1-2" Sample.ping_target)
  /\ exists entry,
       _model_to_entry (Spec.with_key "ping-1-2" Sample.ping_target) = Ok entry /\
       name entry = "ping-1-2" /\ task entry = "ping".
Proof.
  assert (before_validator Sample.tasks Sample.ping_target
          = Ok (Spec.with_key "ping-1-2" Sample.ping_target)) as Hv
    by (vm_compute; reflexivity).
  split; [exact Hv|].
  destruct (X13_validated_row_loads Sample.tasks _ _ Hv)
    as (entry & _ & _ & Hrun & Hname & Htask & _).
  exists entry. split; [exact Hrun|]. split; [exact Hname|exact Htask].
Defined.

Lemma table_ok_db2 : Notions.table_ok Sample.db2.
Proof.
  unfold Notions.table_ok. split; [|split; [|split]].
  - vm_compute.
    repeat (apply NoDup_cons; split;
            [intros Hin; repeat (apply elem_of_cons in Hin; destruct Hin as [Hin|Hin];
                                 [discriminate|]); now apply not_elem_of_nil in Hin|]).
    apply NoDup_nil. exact I.
  - vm_compute.
    repeat (apply NoDup_cons; split;
            [intros Hin; repeat (apply elem_of_cons in Hin; destruct Hin as [Hin|Hin];
                                 [discriminate|]); now apply not_elem_of_nil in Hin|]).
    apply NoDup_nil. exact I.
  - intros row [<-|[<-|[]]]; reflexivity.
  - intros row [<-|[<-|[]]]; vm_compute; tauto.
Defined.

Lemma X15_writes_keep_the_constraints_witness :
  Notions.table_ok Sample.db2
  /\ Notions.table_ok (snd (bulk_insert Sample.batch Sample.db2))
  /\ Notions.table_ok (snd (write Sample.tasks (Update Sample.ping_target) 200 Sample.db2)).
Proof.
  split; [exact table_ok_db2|].
  destruct (X15_writes_keep_the_constraints Sample.tasks Sample.db2 table_ok_db2)
    as (Hwrite & Hbulk & _).
  split; [apply Hbulk|apply Hwrite].
Defined.


Lemma referential_catalogued : Notions.referential Sample2.catalogued.
Proof.
  split; [reflexivity|].
  intros row [<-|[<-|[]]]; vm_compute; tauto.
Defined.

Lemma X18_clean_deprecated_keeps_the_live_tasks_witness :
  Notions.referential Sample2.catalogued
  /\ fst (Setup._clean_deprecated Sample.tasks Sample2.catalogued) = Ok tt
  /\ List.map CeleryTasksModel.task
       (CeleryTasksModel.catalogue
          (snd (Setup._clean_deprecated Sample.tasks Sample2.catalogued))) = ["ping"]
  /\ List.map Db.task
       (celery_tasks_schedule
          (CeleryTasksModel.store
             (snd (Setup._clean_deprecated Sample.tasks Sample2.catalogued)))) = ["ping"].
Proof.
  split; [exact referential_catalogued|].
  destruct (X18_clean_deprecated_keeps_the_live_tasks Sample.tasks Sample2.catalogued
              referential_catalogued) as (Hok & Hcat & Hsched & _).
  split; [exact Hok|]. rewrite Hcat, Hsched. split; vm_compute; reflexivity.
Defined.

Lemma X16_bootstrap_sleeps_at_most_4270_ms_witness :
  (forall (i : nat) (n : Z), (0 < n)%Z -> (0 <= Sample.randrange i n < n)%Z)
  /\ (PREPARE_MODELS_MAX_RETRIES < 11)%nat
  /\ exists r db' log,
       _prepare_models 11 Sample.create_all_never Sample.randrange 500 Sample.db0
         = Some (r, db', log) /\
       (Notions.total (sleeps log) <= 4270)%Z.
Proof.
  assert (PREPARE_MODELS_MAX_RETRIES < 11)%nat as Hfuel
    by (unfold PREPARE_MODELS_MAX_RETRIES; lia).
  split; [exact randrange_in_range|]. split; [exact Hfuel|].
  destruct (X16_bootstrap_sleeps_at_most_4270_ms Sample.create_all_never Sample.randrange
              randrange_in_range 11 500 Sample.db0 Hfuel)
    as (r & db' & log & Hrun & [_ Hsum] & _).
  exists r, db', log. split; [exact Hrun|exact Hsum].
Defined.

Lemma X21_incomplete_static_entry_aborts_seeding_witness :
  Exists Notions.incomplete [Sample2.nightly; Sample2.no_args]
  /\ exists e,
       Setup._fill_celery_tasks_schedule Sample2.sample_json_dumps Sample2.sample_isoformat
         [Sample2.nightly; Sample2.no_args] 500 Sample.db0 = (Raise e, Sample.db0).
Proof.
  assert (Exists Notions.incomplete [Sample2.nightly; Sample2.no_args]) as Hex.
  { apply Exists_cons_tl, Exists_cons_hd. right. left. reflexivity. }
  split; [exact Hex|].
  exact (X21_incomplete_static_entry_aborts_seeding Sample2.sample_json_dumps
           Sample2.sample_isoformat _ 500 Sample.db0 Hex).
Defined.

Lemma X22_seeding_stores_every_static_key_once_witness :
  Setup._fill_celery_tasks_schedule Sample2.sample_json_dumps Sample2.sample_isoformat
    [Sample2.nightly] 500 Sample.db0 = (Ok tt, Sample2.seeded)
  /\ Setup._fill_celery_tasks_schedule Sample2.sample_json_dumps Sample2.sample_isoformat
       [Sample2.nightly] 900 Sample2.seeded = (Ok tt, Sample2.seeded)
  /\ celery_tasks_schedule_meta Sample2.seeded = Some 100%Z.
Proof.
  assert (Setup._fill_celery_tasks_schedule Sample2.sample_json_dumps
            Sample2.sample_isoformat [Sample2.nightly] 500 Sample.db0
          = (Ok tt, Sample2.seeded)) as Hrun by (vm_compute; reflexivity).
  split; [exact Hrun|].
  destruct (X22_seeding_stores_every_static_key_once Sample2.sample_json_dumps
              Sample2.sample_isoformat _ 500 Sample.db0 Sample2.seeded Hrun)
    as (_ & _ & Hmeta & Hagain).
  split; [apply Hagain|exact Hmeta].
Defined.

(** The row the set-up stores for [nightly]. *)
Example seeded_row :
  celery_tasks_schedule Sample2.seeded =
  [ {| id := 1; Db.task := "ping"; Db.args := "[1, 2]"; Db.kwargs := "{}";
       Db.schedule := "0 3 * * 1"; Db.enabled := true;
       Db.comment := Some "loaded from app celery beat schedule on 500";
       Db.task_key := "ping-1-2" |} ].
Proof. vm_compute. reflexivity. Qed.

End MoreExamples.
